(** * go-sasl: mechanism selection and the GSSAPI security-layer handshake

    A shallow embedding of the packages [common], [registry], [sasl] and
    [gssapi] of golang-auth/go-sasl (v0), and the properties of the
    selection loop of [SaslClient.Start] and of the three-state handshake of
    [GSSAPIMech.Step].

    Conventions of the embedding:
    - Go's [uint] is an integer in [Z] kept in [0, 2^64) (the tested targets
      are 64-bit); every [+] and [-] of the source is written with its
      wrap-around ([uadd], [usub]).  [uint32] and [uint8] likewise.
    - a [[]byte] is [option (list byte)]: [None] is the nil slice, which the
      handshake distinguishes from an empty one;
    - a method with a pointer receiver returns the updated receiver next to
      its Go results; [(out, err)] is a pair whose second component is
      [None] for a nil error;
    - a Go map is a [gmap]; a struct is a record [t] in a module named after
      the struct; logging calls have no effect on any result and are left
      out. *)

From Stdlib Require Import ZArith Lia List Bool String Ascii DecimalString.
From Stdlib Require Import Strings.Byte.
From stdpp Require Import gmap strings list fin_maps.

Local Open Scope string_scope.
Local Open Scope Z_scope.

(** ** Machine integers and byte slices *)

Definition uintSize : Z := 2 ^ 64.
Definition isUint (z : Z) : Prop := 0 <= z < uintSize.
Definition uadd (a b : Z) : Z := (a + b) mod uintSize.
Definition usub (a b : Z) : Z := (a - b) mod uintSize.

Definition uint32Size : Z := 2 ^ 32.
Definition u32 (z : Z) : Z := z mod uint32Size.

(** [[]byte]; [None] is nil. *)
Definition slice : Type := option (list byte).

(** Go's builtin [len]: the nil slice has length 0. *)
Definition len (s : slice) : Z :=
  match s with
  | None => 0
  | Some l => Z.of_nat (List.length l)
  end.

(** The numeric value of a byte, [uint32(b)] or [qop(b)]. *)
Definition byteVal (b : byte) : Z := Z.of_N (Byte.to_N b).

(** The conversion [byte(x)]: truncation to the low 8 bits. *)
Definition toByte (z : Z) : byte :=
  match Byte.of_N (Z.to_N (z mod 256)) with
  | Some b => b
  | None => x00
  end.

(** The verb [%d] of package fmt on an unsigned value. *)
Definition fmtD (z : Z) : string := NilZero.string_of_int (Z.to_int z).

(** A Go call either returns or panics. *)
Inductive result (A : Type) : Type :=
| Ok (a : A)
| Panic (msg : string).
Arguments Ok {A} a.
Arguments Panic {A} msg.

(** ** Regular expressions (package regexp)

    The fragment of the RE2 syntax that the two patterns of the repository
    use: character classes, concatenation, alternation, the star and bounded
    repetition.  Both patterns begin with [^] and end with [$] (without the
    multi-line flag), so [Match] holds exactly when the whole text is in the
    language of what stands between them. *)

Module regexp.

Inductive re : Type :=
| Void                          (* matches nothing; the derivative needs it *)
| Eps                           (* the empty string *)
| Class (p : ascii -> bool)     (* a character class [[...]] *)
| Cat (r1 r2 : re)
| Alt (r1 r2 : re)              (* r1|r2 *)
| Star (r : re).                (* r* *)

(** [r{n}], [r{0,n}] and [r{min,max}]. *)
Fixpoint times (n : nat) (r : re) : re :=
  match n with
  | O => Eps
  | S n' => Cat r (times n' r)
  end.

Fixpoint upto (n : nat) (r : re) : re :=
  match n with
  | O => Eps
  | S n' => Alt Eps (Cat r (upto n' r))
  end.

Definition Repeat (r : re) (min max : nat) : re := Cat (times min r) (upto (max - min) r).

(** The language of a pattern. *)
Inductive matches : re -> list ascii -> Prop :=
| MEps : matches Eps []
| MClass p a : p a = true -> matches (Class p) [a]
| MCat r1 r2 s1 s2 : matches r1 s1 -> matches r2 s2 -> matches (Cat r1 r2) (s1 ++ s2)
| MAltL r1 r2 s : matches r1 s -> matches (Alt r1 r2) s
| MAltR r1 r2 s : matches r2 s -> matches (Alt r1 r2) s
| MStar0 r : matches (Star r) []
| MStarApp r s1 s2 : matches r s1 -> matches (Star r) s2 -> matches (Star r) (s1 ++ s2).

(** Matching by derivatives. *)
Fixpoint nullable (r : re) : bool :=
  match r with
  | Void => false
  | Eps => true
  | Class _ => false
  | Cat r1 r2 => nullable r1 && nullable r2
  | Alt r1 r2 => nullable r1 || nullable r2
  | Star _ => true
  end.

Fixpoint deriv (a : ascii) (r : re) : re :=
  match r with
  | Void => Void
  | Eps => Void
  | Class p => if p a then Eps else Void
  | Cat r1 r2 =>
      if nullable r1 then Alt (Cat (deriv a r1) r2) (deriv a r2)
      else Cat (deriv a r1) r2
  | Alt r1 r2 => Alt (deriv a r1) (deriv a r2)
  | Star r' => Cat (deriv a r') (Star r')
  end.

Fixpoint matchList (r : re) (s : list ascii) : bool :=
  match s with
  | [] => nullable r
  | a :: s' => matchList (deriv a r) s'
  end.

(** The method [Match] of an anchored pattern on the bytes of a string. *)
Definition Match (r : re) (b : string) : bool := matchList r (list_ascii_of_string b).

(** The ranges [A-Z], [a-z] and [0-9]. *)
Definition upper (a : ascii) : bool := ((65 <=? N_of_ascii a) && (N_of_ascii a <=? 90))%N.
Definition lower (a : ascii) : bool := ((97 <=? N_of_ascii a) && (N_of_ascii a <=? 122))%N.
Definition digit (a : ascii) : bool := ((48 <=? N_of_ascii a) && (N_of_ascii a <=? 57))%N.
Definition char (c : ascii) (a : ascii) : bool := (N_of_ascii a =? N_of_ascii c)%N.

End regexp.

(** ** Package common *)

Module common.

(** secprops.go: [SecurityFlag], [1 << iota]. *)
Definition SecNoPlainText : Z := 1.
Definition SecNoActive : Z := 2.
Definition SecNoDictionary : Z := 4.
Definition SecForwardSecrecy : Z := 8.
Definition SecNoAnonymous : Z := 16.
Definition SecPassCredentials : Z := 32.
Definition SecMutualAuth : Z := 64.

(** features.go: [Feature], [1 << iota]. *)
Definition FeatNeedServerFQDN : Z := 1.
Definition FeatWantClientFirst : Z := 2.
Definition FeatServerFirst : Z := 4.
Definition FeatDontUseUserPassword : Z := 8.
Definition FeatGSSFraming : Z := 16.
Definition FeatSupportsHTTP : Z := 32.
Definition FeatChannelBindings : Z := 64.

(** The loop of [FlagList] and of [FeatureList], which have the same body:
    [n] iterations are left, [t] is the flag under test and [fl] the slice
    built so far. *)
Fixpoint flagLoop (n : nat) (f t : Z) (fl : list Z) : list Z :=
  match n with
  | O => fl
  | S n' =>
      let fl := if negb (Z.land f t =? 0) then (fl ++ [t])%list else fl in
      flagLoop n' f (u32 (Z.shiftl t 1)) fl
  end.

(** FlagList returns a slice of individual flags derived from the composite
    value f *)
Definition FlagList (f : Z) : list Z := flagLoop 32 f 1 [].

(** FlagName returns a human-readable description of a context flag value *)
Definition FlagName (f : Z) : string :=
  if f =? SecNoPlainText then "No plain text mechanisms"
  else if f =? SecNoActive then "Active attack protection"
  else if f =? SecNoDictionary then "No mechanisms susceptible to dictionary attacks"
  else if f =? SecForwardSecrecy then "Require forward secrecy"
  else if f =? SecNoAnonymous then "No anonymous mechanisms"
  else if f =? SecPassCredentials then "Require passing of client credentials"
  else if f =? SecMutualAuth then "Require mutual authentication"
  else "Unknown".

(** FeatureList returns a slice of individual features derived from the
    composite value f *)
Definition FeatureList (f : Z) : list Z := flagLoop 32 f 1 [].

(** FeatureName returns a human-readable description of a context flag value *)
Definition FeatureName (f : Z) : string :=
  if f =? FeatNeedServerFQDN then "Mechanism requires the server FQDN"
  else if f =? FeatWantClientFirst then "Mechanism prefers client-first protocol"
  else if f =? FeatServerFirst then "Mechanism requires server-first protocol"
  else if f =? FeatDontUseUserPassword then "Don't use clear text passwords"
  else if f =? FeatGSSFraming then "Mechanism uses GSSAPI framing"
  else if f =? FeatSupportsHTTP then "Mechanism supports HTTP authentiation"
  else if f =? FeatChannelBindings then "Mechanism supports channel bindings"
  else "Unknown".

(** errors.go.  The four package-level errors are values compared by
    identity, so each is a constructor of its own; [errorNew] stands for an
    error made on the spot by [errors.New] or [fmt.Errorf], [errorGSS] for
    one returned by the GSSAPI library. *)
Inductive error : Type :=
| ErrNoMech
| ErrNotStarted
| ErrAlreadyEstablished
| ErrNotEstablished
| ErrTooWeak (MechSSF ExtSSF RequiredSSF : Z)
| errorNew (msg : string)
| errorGSS (msg : string).

(** The method [Error()] of each error value. *)
Definition Error (e : error) : string :=
  match e with
  | ErrNoMech => "no worthy mechs found"
  | ErrNotStarted => "must use Start() before Step()"
  | ErrAlreadyEstablished => "context is already established"
  | ErrNotEstablished => "context is not established"
  | ErrTooWeak MechSSF ExtSSF RequiredSSF =>
      if 0 <? ExtSSF
      then "negotiated SSF (" +:+ fmtD MechSSF +:+ ") + external SSF (" +:+ fmtD ExtSSF
           +:+ ") is less than required SSF (" +:+ fmtD RequiredSSF +:+ ")"
      else "negotiated SSF (" +:+ fmtD MechSSF
           +:+ ") is less than required SSF (" +:+ fmtD RequiredSSF +:+ ")"
  | errorNew msg => msg
  | errorGSS msg => msg
  end.

Module MechProps.
Record t : Type := mk {
  MaxSSF : Z;
  SecurityProperties : Z;
  Fearures : Z
}.
(** The zero value [common.MechProps{}]. *)
Definition zero : t := mk 0 0 0.
End MechProps.

Module ContextParams.
Record t : Type := mk {
  SSF : Z;
  MaxPeerMessageSize : Z
}.
Definition zero : t := mk 0 0.
End ContextParams.

(** Modelled from the spec: the declaration of [common.ChannelBinding] is
    not among the sources; it has the two fields the code reads, the
    binding data and the critical flag of the channel-binding request. *)
Module ChannelBinding.
Record t : Type := mk {
  Data : slice;
  Critical : bool
}.
End ChannelBinding.

Module MechConfig.
Record t : Type := mk {
  Service : string;
  ServerFQDN : string;
  MinSSF : Z;
  MaxSSF : Z;
  MaxBufSize : Z;
  ExternalSSF : Z;
  SecProps : Z;
  HTTPMode : bool;
  ExtraProps : gmap string string;
  ChannelBinding : option ChannelBinding.t
}.
Definition zero : t := mk "" "" 0 0 0 0 0 false ∅ None.
End MechConfig.

(** The interface [Mech], over the type [M] of the mechanism's state. *)
Class Mech (M : Type) : Type := {
  Name : M -> string;
  MechProperties : M -> MechProps.t;
  IsEstablished : M -> bool;
  ContextParams : M -> ContextParams.t;
  Step : M -> slice -> M * (slice * option error);
  Encode : M -> slice -> M * (slice * option error);
  Decode : M -> slice -> M * (slice * option error)
}.

End common.

(** ** Package registry *)

Module registry.

(** [saslMechRegexp], [^[A-Z0-9-_]{1,20}$]: one to twenty characters, each
    an upper-case letter, a digit, a hyphen or an underscore. *)
Definition mechNameChar (a : ascii) : bool :=
  let n := N_of_ascii a in
  ((65 <=? n) && (n <=? 90) || (48 <=? n) && (n <=? 57) || (n =? 45) || (n =? 95))%N.

Definition saslMechRegexp (name : string) : bool :=
  (1 <=? String.length name)%nat && (String.length name <=? 20)%nat
  && forallb mechNameChar (list_ascii_of_string name).

(** The same pattern as a regular expression: the class [[A-Z0-9-_]]
    repeated one to twenty times. *)
Definition saslMechPattern : regexp.re :=
  regexp.Repeat
    (regexp.Class (fun a => regexp.upper a || regexp.digit a
                            || regexp.char "-" a || regexp.char "_" a))
    1 20.

Module mech.
Record t (M : Type) : Type := mk {
  factory : common.MechConfig.t -> M;
  properties : common.MechProps.t
}.
Arguments mk {M} _ _.
Arguments factory {M} _ _.
Arguments properties {M} _.
End mech.

Section Registry.
Context {M : Type}.

(** The package variable [mechs], passed explicitly. *)
Definition Register (name : string) (f : common.MechConfig.t -> M)
    (props : common.MechProps.t) (mechs : gmap string (mech.t M))
  : result (gmap string (mech.t M)) :=
  if negb (saslMechRegexp name) then Panic ("Bad mech name: " +:+ name)
  else
    match mechs !! name with
    | Some _ => Panic ("Cannot have two mechs named " +:+ name)
    | None => Ok (<[name := mech.mk f props]> mechs)
    end.

Definition IsRegistered (mechs : gmap string (mech.t M)) (name : string) : bool :=
  match mechs !! name with
  | Some _ => true
  | None => false
  end.

(** [NewMech]; [None] is the nil interface value. *)
Definition NewMech (mechs : gmap string (mech.t M)) (name : string)
    (cfg : common.MechConfig.t) : option M :=
  match mechs !! name with
  | Some m => Some (mech.factory m cfg)
  | None => None
  end.

Definition Properties (mechs : gmap string (mech.t M)) (name : string)
  : common.MechProps.t :=
  match mechs !! name with
  | Some m => mech.properties m
  | None => common.MechProps.zero
  end.

(** [Mechs] appends the keys in the order of a [range] over the map.  Go
    leaves that order unspecified and the runtime varies it from one loop to
    the next, so a call may return the registered names in any order:
    [Mechs mechs l] says that [l] is a possible result. *)
Definition Mechs (mechs : gmap string (mech.t M)) (l : list string) : Prop :=
  l ≡ₚ (map_to_list mechs).*1.

(** What [Register] maintains: every registered name matches the pattern. *)
Definition namesValid (mechs : gmap string (mech.t M)) : Prop :=
  forall name m, mechs !! name = Some m -> saslMechRegexp name = true.

End Registry.
End registry.

(** ** Package sasl *)

Module sasl.

Inductive channelBindingDisposition : Type :=
| channelBindingDispNone
| channelBindingDispWant
| channelBindingDispMust.

Module externalProperties.
Record t : Type := mk { ssf : Z }.
End externalProperties.

Section Package.
Context {M : Type}.
Variable mechs : gmap string (registry.mech.t M).

Fixpoint supportsChannelBindings (mechList : list string) : bool :=
  match mechList with
  | [] => false
  | mech :: rest =>
      let mechProps := registry.Properties mechs mech in
      if Z.land (common.MechProps.Fearures mechProps) common.FeatChannelBindings >? 0
      then true                                  (* supported = true; break *)
      else supportsChannelBindings rest
  end.

End Package.

Module SaslClient.

Record t (M : Type) : Type := mk {
  mech : option M;
  service : string;
  mechList : list string;
  serverFQDN : string;
  minSSF : Z;
  maxSSF : Z;
  maxBufSize : Z;
  secProps : Z;
  extProps : externalProperties.t;
  needHTTP : bool;
  channelBindings : option common.ChannelBinding.t;
  extraProps : gmap string string
}.
Arguments mk {M}.
Arguments mech {M}.
Arguments service {M}.
Arguments mechList {M}.
Arguments serverFQDN {M}.
Arguments minSSF {M}.
Arguments maxSSF {M}.
Arguments maxBufSize {M}.
Arguments secProps {M}.
Arguments extProps {M}.
Arguments needHTTP {M}.
Arguments channelBindings {M}.
Arguments extraProps {M}.

Section Methods.
Context {M : Type} {MechM : common.Mech M}.
Variable mechs : gmap string (registry.mech.t M).

(** The assignment [c.extProps.ssf = ssf] (the package's tests write the
    field directly). *)
Definition set_extSSF (c : t M) (ssf : Z) : t M :=
  mk (mech c) (service c) (mechList c) (serverFQDN c) (minSSF c) (maxSSF c) (maxBufSize c)
     (secProps c) (externalProperties.mk ssf) (needHTTP c) (channelBindings c) (extraProps c).

(** The assignment [c.mech = m]. *)
Definition set_mech (c : t M) (m : option M) : t M :=
  mk m (service c) (mechList c) (serverFQDN c) (minSSF c) (maxSSF c) (maxBufSize c)
     (secProps c) (extProps c) (needHTTP c) (channelBindings c) (extraProps c).

Definition IsEstablished (c : t M) : bool :=
  match mech c with
  | Some m => common.IsEstablished m
  | None => false
  end.

Definition Step (c : t M) (inToken : slice) : t M * (slice * option common.error) :=
  match mech c with
  | None => (c, (None, Some common.ErrNotStarted))
  | Some m =>
      if IsEstablished c then (c, (None, Some common.ErrAlreadyEstablished))
      else
        let '(m', r) := common.Step m inToken in
        (set_mech c (Some m'), r)
  end.

(** port of Cyrus SASL _sasl_cbinding_disp *)
Definition channelBindingDisposition (c : t M)
  : sasl.channelBindingDisposition * option common.error :=
  let serverSupported := supportsChannelBindings mechs (mechList c) in
  match channelBindings c with
  | None => (channelBindingDispNone, None)
  | Some cb =>
      if (0 <? length (mechList c))%nat then
        if negb serverSupported && common.ChannelBinding.Critical cb
        then (channelBindingDispNone, Some common.ErrNoMech)
        else (channelBindingDispWant, None)
      else if common.ChannelBinding.Critical cb
      then (channelBindingDispMust, None)
      else (channelBindingDispNone, None)
  end.

(** The [for] loop of [Start] over the rest of [c.mechList]: the value
    [chosenMech] has after the loop, the empty string when every iteration
    ends in [continue]. *)
Fixpoint chooseMech (c : t M) (minSSF : Z)
    (cbDisposition : sasl.channelBindingDisposition) (l : list string) : string :=
  match l with
  | [] => ""
  | mech :: rest =>
      let mechProps := registry.Properties mechs mech in
      if minSSF >? common.MechProps.MaxSSF mechProps
      then chooseMech c minSSF cbDisposition rest
      else
        let wantSecProps := secProps c in
        let wantSecProps :=
          if (externalProperties.ssf (extProps c) >? SaslClient.minSSF c)
             && (externalProperties.ssf (extProps c) >? 1)
          then Z.ldiff wantSecProps common.SecNoPlainText
          else wantSecProps in
        if negb (Z.land (Z.lxor wantSecProps (common.MechProps.SecurityProperties mechProps))
                        wantSecProps =? 0)
        then chooseMech c minSSF cbDisposition rest
        else if match cbDisposition with channelBindingDispMust => true | _ => false end
                && (Z.land (common.MechProps.Fearures mechProps) common.FeatChannelBindings =? 0)
        then chooseMech c minSSF cbDisposition rest
        else if negb (Z.land (common.MechProps.Fearures mechProps) common.FeatNeedServerFQDN =? 0)
                && (serverFQDN c =? "")%string
        then chooseMech c minSSF cbDisposition rest
        else if needHTTP c
                && (Z.land (common.MechProps.Fearures mechProps) common.FeatSupportsHTTP =? 0)
        then chooseMech c minSSF cbDisposition rest
        else mech                                (* chosenMech = mech; break *)
  end.

(** The literal [common.MechConfig{...}] that [Start] hands to the factory. *)
Definition mechConfig (c : t M) : common.MechConfig.t :=
  common.MechConfig.mk (service c) (serverFQDN c) (SaslClient.minSSF c) (maxSSF c)
    (maxBufSize c) (externalProperties.ssf (extProps c)) (secProps c) (needHTTP c)
    (extraProps c) (channelBindings c).

Definition Start (c : t M) : result (t M * (slice * option common.error)) :=
  let c := set_mech c None in
  let minSSF :=
    if SaslClient.minSSF c <? externalProperties.ssf (extProps c) then 0
    else usub (SaslClient.minSSF c) (externalProperties.ssf (extProps c)) in
  match channelBindingDisposition c with
  | (_, Some err) => Ok (c, (None, Some err))
  | (cbDisposition, None) =>
      let chosenMech := chooseMech c minSSF cbDisposition (mechList c) in
      if (chosenMech =? "")%string then Ok (c, (None, Some common.ErrNoMech))
      else
        let cfg := mechConfig c in
        match registry.NewMech mechs chosenMech cfg with
        | None => Panic "invalid memory address or nil pointer dereference"
        | Some m =>
            let c := set_mech c (Some m) in
            let mechProps := common.MechProperties m in
            if negb (Z.land (common.MechProps.Fearures mechProps) common.FeatServerFirst =? 0)
            then Ok (c, (None, None))
            else Ok (Step c None)
        end
  end.

Definition ContextParams (c : t M) : common.ContextParams.t * option common.error :=
  match mech c with
  | None => (common.ContextParams.zero, Some common.ErrNotStarted)
  | Some m =>
      if negb (IsEstablished c) then (common.ContextParams.zero, Some common.ErrNotEstablished)
      else (common.ContextParams m, None)
  end.

Definition Encode (c : t M) (input : slice) : t M * (slice * option common.error) :=
  match mech c with
  | None => (c, (None, Some common.ErrNotStarted))
  | Some m =>
      if negb (IsEstablished c) then (c, (None, Some common.ErrNotEstablished))
      else if common.ContextParams.SSF (common.ContextParams m) =? 0
      then (c, (input, None))
      else
        let '(m', r) := common.Encode m input in
        (set_mech c (Some m'), r)
  end.

Definition Decode (c : t M) (inputToken : slice) : t M * (slice * option common.error) :=
  match mech c with
  | None => (c, (None, Some common.ErrNotStarted))
  | Some m =>
      if negb (IsEstablished c) then (c, (None, Some common.ErrNotEstablished))
      else if common.ContextParams.SSF (common.ContextParams m) =? 0
      then (c, (inputToken, None))
      else
        let '(m', r) := common.Decode m inputToken in
        (set_mech c (Some m'), r)
  end.

End Methods.
End SaslClient.

(** [validHostnameRegex]: labels separated by dots, a label being one letter
    or digit, or letters, digits and hyphens between two letters or digits. *)
Definition hostnameLabel : regexp.re :=
  let alnum := regexp.Class (fun a => regexp.lower a || regexp.upper a || regexp.digit a) in
  let inner :=
    regexp.Class (fun a => regexp.lower a || regexp.upper a || regexp.digit a
                           || regexp.char "-" a) in
  regexp.Alt alnum (regexp.Cat alnum (regexp.Cat (regexp.Star inner) alnum)).

Definition validHostnameRegex : regexp.re :=
  regexp.Cat (regexp.Star (regexp.Cat hostnameLabel (regexp.Class (regexp.char "."))))
    hostnameLabel.

Section Construction.
Context {M : Type}.
Variable mechs : gmap string (registry.mech.t M).

(** A [SaslClientOption]: a function that updates the client through its
    pointer and returns an error. *)
Definition SaslClientOption : Type := SaslClient.t M -> SaslClient.t M * option common.error.

Definition WithServerFQDN (fqdn : string) : SaslClientOption :=
  fun c =>
    if negb (fqdn =? "")%string then
      if negb (regexp.Match validHostnameRegex fqdn)
      then (c, Some (common.errorNew "bad hostname"))
      else
        (SaslClient.mk (SaslClient.mech c) (SaslClient.service c) (SaslClient.mechList c)
           fqdn (SaslClient.minSSF c) (SaslClient.maxSSF c)
           (SaslClient.maxBufSize c) (SaslClient.secProps c) (SaslClient.extProps c)
           (SaslClient.needHTTP c) (SaslClient.channelBindings c) (SaslClient.extraProps c),
         None)
    else (c, None).

Definition WithMechList (mechs' : list string) : SaslClientOption :=
  fun c =>
    if (0 <? length mechs')%nat
    then (SaslClient.mk (SaslClient.mech c) (SaslClient.service c) mechs'
            (SaslClient.serverFQDN c) (SaslClient.minSSF c) (SaslClient.maxSSF c)
            (SaslClient.maxBufSize c) (SaslClient.secProps c) (SaslClient.extProps c)
            (SaslClient.needHTTP c) (SaslClient.channelBindings c) (SaslClient.extraProps c),
          None)
    else (c, None).

Definition WithMinSSF (ssf : Z) : SaslClientOption :=
  fun c =>
    (SaslClient.mk (SaslClient.mech c) (SaslClient.service c) (SaslClient.mechList c)
       (SaslClient.serverFQDN c) ssf (SaslClient.maxSSF c)
       (SaslClient.maxBufSize c) (SaslClient.secProps c) (SaslClient.extProps c)
       (SaslClient.needHTTP c) (SaslClient.channelBindings c) (SaslClient.extraProps c),
     None).

Definition WithMaxSSF (ssf : Z) : SaslClientOption :=
  fun c =>
    (SaslClient.mk (SaslClient.mech c) (SaslClient.service c) (SaslClient.mechList c)
       (SaslClient.serverFQDN c) (SaslClient.minSSF c) ssf
       (SaslClient.maxBufSize c) (SaslClient.secProps c) (SaslClient.extProps c)
       (SaslClient.needHTTP c) (SaslClient.channelBindings c) (SaslClient.extraProps c),
     None).

Definition WithNeedHTTP : SaslClientOption :=
  fun c =>
    (SaslClient.mk (SaslClient.mech c) (SaslClient.service c) (SaslClient.mechList c)
       (SaslClient.serverFQDN c) (SaslClient.minSSF c) (SaslClient.maxSSF c)
       (SaslClient.maxBufSize c) (SaslClient.secProps c) (SaslClient.extProps c)
       true (SaslClient.channelBindings c) (SaslClient.extraProps c),
     None).

Definition WithChannelBindings (cb : common.ChannelBinding.t) : SaslClientOption :=
  fun c =>
    (SaslClient.mk (SaslClient.mech c) (SaslClient.service c) (SaslClient.mechList c)
       (SaslClient.serverFQDN c) (SaslClient.minSSF c) (SaslClient.maxSSF c)
       (SaslClient.maxBufSize c) (SaslClient.secProps c) (SaslClient.extProps c)
       (SaslClient.needHTTP c) (Some cb) (SaslClient.extraProps c),
     None).

Definition WithMaxBufSize (size : Z) : SaslClientOption :=
  fun c =>
    (SaslClient.mk (SaslClient.mech c) (SaslClient.service c) (SaslClient.mechList c)
       (SaslClient.serverFQDN c) (SaslClient.minSSF c) (SaslClient.maxSSF c)
       size (SaslClient.secProps c) (SaslClient.extProps c)
       (SaslClient.needHTTP c) (SaslClient.channelBindings c) (SaslClient.extraProps c),
     None).

Definition WithSecurityProps (props : Z) : SaslClientOption :=
  fun c =>
    (SaslClient.mk (SaslClient.mech c) (SaslClient.service c) (SaslClient.mechList c)
       (SaslClient.serverFQDN c) (SaslClient.minSSF c) (SaslClient.maxSSF c)
       (SaslClient.maxBufSize c)
       (Z.land props
          (Z.lor common.SecNoPlainText (Z.lor common.SecNoActive
             (Z.lor common.SecNoDictionary (Z.lor common.SecForwardSecrecy
                (Z.lor common.SecNoAnonymous
                   (Z.lor common.SecPassCredentials common.SecMutualAuth)))))))
       (SaslClient.extProps c)
       (SaslClient.needHTTP c) (SaslClient.channelBindings c) (SaslClient.extraProps c),
     None).

Definition WithExtraProps (key value : string) : SaslClientOption :=
  fun c =>
    (SaslClient.mk (SaslClient.mech c) (SaslClient.service c) (SaslClient.mechList c)
       (SaslClient.serverFQDN c) (SaslClient.minSSF c) (SaslClient.maxSSF c)
       (SaslClient.maxBufSize c) (SaslClient.secProps c) (SaslClient.extProps c)
       (SaslClient.needHTTP c) (SaslClient.channelBindings c)
       (<[key := value]> (SaslClient.extraProps c)),
     None).

(** The loop over [opts]: it stops at the first option that returns an
    error, the client keeping what the options so far have written. *)
Fixpoint applyOptions (opts : list SaslClientOption) (client : SaslClient.t M)
  : SaslClient.t M * option common.error :=
  match opts with
  | [] => (client, None)
  | o :: rest =>
      match o client with
      | (client', Some err) => (client', Some err)
      | (client', None) => applyOptions rest client'
      end
  end.

(** [NewSaslClient]; [allMechs] is what the call of [registry.Mechs()] on
    line 84 returns, one of the lists [registry.Mechs mechs] allows. *)
Definition NewSaslClient (service : string) (opts : list SaslClientOption)
    (allMechs : list string) : SaslClient.t M * option common.error :=
  let client :=
    SaslClient.mk None service [] "" 0 (uintSize - 1) 65536
      (Z.lor common.SecNoAnonymous common.SecNoPlainText)
      (externalProperties.mk 0) false None ∅ in
  match applyOptions opts client with
  | (client, Some err) => (client, Some err)
  | (client, None) =>
      let newMechList :=
        if (0 <? length (SaslClient.mechList client))%nat
        then List.filter (registry.IsRegistered mechs) (SaslClient.mechList client)
        else allMechs in
      let client :=
        SaslClient.mk (SaslClient.mech client) (SaslClient.service client) newMechList
          (SaslClient.serverFQDN client) (SaslClient.minSSF client) (SaslClient.maxSSF client)
          (SaslClient.maxBufSize client) (SaslClient.secProps client)
          (SaslClient.extProps client) (SaslClient.needHTTP client)
          (SaslClient.channelBindings client) (SaslClient.extraProps client) in
      if (length (SaslClient.mechList client) =? 0)%nat
      then (client, Some common.ErrNoMech)
      else (client, None)
  end.

End Construction.
End sasl.

(** ** The GSSAPI library (package go-gssapi/v2) *)

Module gogssapi.

(** Modelled from the spec: package github.com/golang-auth/go-gssapi/v2 is
    not among the sources.  Its interface [Mech] is the external
    security-context collaborator of the spec (initiate, continue,
    isEstablished, negotiatedFlags, wrap, unwrap, strength, wrapSizeLimit),
    here over the type [C] of the context's state; the four context-flag
    constants the handshake uses are taken as parameters.  [SSF] returns a
    [uint]. *)
Class Mech (C : Type) : Type := {
  ContextFlagMutual : Z;
  ContextFlagSequence : Z;
  ContextFlagInteg : Z;
  ContextFlagConf : Z;
  NewMech : string -> C;
  Initiate : C -> string -> Z -> option slice -> C * option string;
  ContextFlags : C -> Z;
  Continue : C -> slice -> C * (slice * option string);
  IsEstablished : C -> bool;
  Unwrap : C -> slice -> C * (slice * bool * option string);
  Wrap : C -> slice -> bool -> C * (slice * option string);
  SSF : C -> Z;
  SSF_uint : forall c, isUint (SSF c);
  WrapSizeLimit : C -> Z -> bool -> Z
}.

End gogssapi.

(** ** Package gssapi *)

Module gssapi.

Definition mechName : string := "GSSAPI".

(** The properties [init] registers the mechanism with. *)
Definition registeredProps : common.MechProps.t :=
  common.MechProps.mk 256
    (Z.lor common.SecNoPlainText (Z.lor common.SecNoActive
       (Z.lor common.SecNoAnonymous (Z.lor common.SecMutualAuth common.SecPassCredentials))))
    (Z.lor common.FeatNeedServerFQDN
       (Z.lor common.FeatWantClientFirst common.FeatChannelBindings)).

(** [type qop uint8], [1 << iota]. *)
Definition layerNone : Z := 1.
Definition layerIntegrity : Z := 2.
Definition layerConfidentiality : Z := 4.

(** [type state uint8] with its three constants, the only values the field
    [state] is ever given; the last [return] of [Step], for any other value,
    is not reached. *)
Inductive state : Type :=
| stateAuthenticating
| stateSSFCap
| stateAuthenticated.

Definition isTrue (val : string) : bool :=
  (val =? "1")%string || (val =? "y")%string || (val =? "on")%string || (val =? "t")%string.

Definition minUint (a b : Z) : Z := if a <? b then a else b.

Module GSSAPIMech.

Record t (C : Type) : Type := mk {
  config : common.MechConfig.t;
  client : C;
  qop : Z;
  ssf : Z;
  state : gssapi.state;
  maxOutputBufferSz : Z
}.
Arguments mk {C}.
Arguments config {C}.
Arguments client {C}.
Arguments qop {C}.
Arguments ssf {C}.
Arguments state {C}.
Arguments maxOutputBufferSz {C}.

Section Methods.
Context {C : Type} {GSS : gogssapi.Mech C}.

Definition set_client (m : t C) (cl : C) : t C :=
  mk (config m) cl (qop m) (ssf m) (state m) (maxOutputBufferSz m).
Definition set_qop (m : t C) (q : Z) : t C :=
  mk (config m) (client m) q (ssf m) (state m) (maxOutputBufferSz m).
Definition set_ssf (m : t C) (s : Z) : t C :=
  mk (config m) (client m) (qop m) s (state m) (maxOutputBufferSz m).
Definition set_state (m : t C) (st : gssapi.state) : t C :=
  mk (config m) (client m) (qop m) (ssf m) st (maxOutputBufferSz m).
Definition set_maxOutputBufferSz (m : t C) (sz : Z) : t C :=
  mk (config m) (client m) (qop m) (ssf m) (state m) sz.

Definition Name (m : t C) : string := mechName.

Definition stepAuthenticating (m : t C) (inToken : slice)
  : t C * (slice * option common.error) :=
  (* only the first time: either an early return, or the mechanism and the
     token the rest of the function goes on with *)
  let first : (t C * (slice * option common.error)) + (t C * slice) :=
    match inToken with
    | None =>
        if (String.length (common.MechConfig.ServerFQDN (config m)) =? 0)%nat
        then inl (m, (None, Some (common.errorNew "server FQDN not provided")))
        else
          let princName :=
            common.MechConfig.Service (config m) +:+ "/"
            +:+ common.MechConfig.ServerFQDN (config m) in
          let flags := Z.lor gogssapi.ContextFlagMutual gogssapi.ContextFlagSequence in
          let flags :=
            if common.MechConfig.MaxSSF (config m) >? common.MechConfig.ExternalSSF (config m)
            then
              let flags := Z.lor flags gogssapi.ContextFlagInteg in
              if usub (common.MechConfig.MaxSSF (config m))
                      (common.MechConfig.ExternalSSF (config m)) >? 1
              then Z.lor flags gogssapi.ContextFlagConf
              else flags
            else flags in
          let gsscb :=
            match common.MechConfig.ChannelBinding (config m) with
            | Some cb => Some (common.ChannelBinding.Data cb)
            | None => None
            end in
          match gogssapi.Initiate (client m) princName flags gsscb with
          | (cl, Some err) => inl (set_client m cl, (None, Some (common.errorGSS err)))
          | (cl, None) =>
              let m := set_client m cl in
              let m :=
                if Z.land (gogssapi.ContextFlags cl) gogssapi.ContextFlagInteg =? 0
                then set_qop m layerNone
                else if Z.land (gogssapi.ContextFlags cl) gogssapi.ContextFlagConf =? 0
                then set_qop m (Z.lor layerNone layerIntegrity)
                else set_qop m (Z.lor (Z.lor layerNone layerIntegrity) layerConfidentiality) in
              inr (m, Some [])
          end
    | Some _ => inr (m, inToken)
    end in
  match first with
  | inl r => r
  | inr (m, inToken) =>
      let '(cl, (outToken, err)) := gogssapi.Continue (client m) inToken in
      let m := set_client m cl in
      let err := option_map common.errorGSS err in
      if gogssapi.IsEstablished cl then
        if common.MechConfig.HTTPMode (config m)
        then (set_state m stateAuthenticated, (outToken, err))
        else
          (set_state m stateSSFCap,
           (match outToken with None => Some [] | Some _ => outToken end, err))
      else (m, (outToken, err))
  end.

(** Lines 246-252 of [stepSSFCap]: what the step does with the result [r]
    of the call [m.client.Wrap(dataOut, false)]. *)
Definition wrapped (m : t C) (r : C * (slice * option string))
  : t C * (slice * option common.error) :=
  match r with
  | (cl, (_, Some err)) => (set_client m cl, (None, Some (common.errorGSS err)))
  | (cl, (outToken, None)) => (set_state (set_client m cl) stateAuthenticated, (outToken, None))
  end.

(** Lines 223-252 of [stepSSFCap], once the [switch] has set [qopChoice] and
    [m.ssf]: the peer's buffer size is read from bytes 1-3 of [data], the
    reply is built, wrapped and returned. *)
Definition replySSFCap (m : t C) (qopChoice : Z) (d1 d2 d3 : byte)
  : t C * (slice * option common.error) :=
  (* max message size the server will accept *)
  let m :=
    set_maxOutputBufferSz m
      (u32 (Z.lor (u32 (Z.shiftl (byteVal d1) 16)) (u32 (Z.shiftl (byteVal d2) 8))
            + byteVal d3)) in
  let m :=
    if ssf m >? 0
    then set_maxOutputBufferSz m
           (gogssapi.WrapSizeLimit (client m) (maxOutputBufferSz m) (ssf m >? 1))
    else m in
  let dataOut : list byte :=
    if qopChoice >? 1 then
      let max := minUint (common.MechConfig.MaxBufSize (config m)) 16777215 in
      [ toByte qopChoice;
        toByte (Z.land (Z.shiftr max 16) 255);
        toByte (Z.land (Z.shiftr max 8) 255);
        toByte (Z.land (Z.shiftr max 0) 255) ]
    else [ toByte qopChoice; x00; x00; x00 ] in
  (* Create the wrapped token to send to the server *)
  wrapped m (gogssapi.Wrap (client m) (Some dataOut) false).

Definition stepSSFCap (m : t C) (inToken : slice) : t C * (slice * option common.error) :=
  (* read the server's quality-of-protection offer *)
  match gogssapi.Unwrap (client m) inToken with
  | (cl, (_, _, Some err)) => (set_client m cl, (None, Some (common.errorGSS err)))
  | (cl, (data, _, None)) =>
      let m := set_client m cl in
      match data with
      | Some [d0; d1; d2; d3] =>
          let serverQOPOffer := byteVal d0 in
          let channelSSF := gogssapi.SSF (client m) in
          if common.MechConfig.MinSSF (config m)
             >? uadd channelSSF (common.MechConfig.ExternalSSF (config m))
          then
            (m, (None, Some (common.ErrTooWeak channelSSF
                               (common.MechConfig.ExternalSSF (config m))
                               (common.MechConfig.MinSSF (config m)))))
          else
            (* how much 'SSF' is the mech allowed to provide and how much
               does it have to provide? *)
            let allowedSSF :=
              if common.MechConfig.MaxSSF (config m) >=? common.MechConfig.ExternalSSF (config m)
              then usub (common.MechConfig.MaxSSF (config m))
                        (common.MechConfig.ExternalSSF (config m))
              else 0 in
            let needSSF :=
              if common.MechConfig.MinSSF (config m) >=? common.MechConfig.ExternalSSF (config m)
              then usub (common.MechConfig.MinSSF (config m))
                        (common.MechConfig.ExternalSSF (config m))
              else 0 in
            if (Z.land (qop m) layerConfidentiality >? 0)
               && (Z.land serverQOPOffer layerConfidentiality >? 0)
               && (allowedSSF >=? channelSSF) && (needSSF <=? channelSSF)
            then
              let m := set_ssf m channelSSF in
              (* AD explicitly requires integrity when requesting confidentiality *)
              let qopChoice :=
                match common.MechConfig.ExtraProps (config m) !! "ad_compat" with
                | Some val =>
                    if isTrue val then Z.lor layerConfidentiality layerIntegrity
                    else layerConfidentiality
                | None => layerConfidentiality
                end in
              replySSFCap m qopChoice d1 d2 d3
            else if (Z.land (qop m) layerIntegrity >? 0)
                    && (Z.land serverQOPOffer layerIntegrity >? 0)
                    && (allowedSSF >=? 1) && (needSSF <=? 2)
            then replySSFCap (set_ssf m 1) layerIntegrity d1 d2 d3
            else if (Z.land (qop m) layerNone >? 0)
                    && (Z.land serverQOPOffer layerNone >? 0)
                    && (needSSF <=? 0)
            then replySSFCap (set_ssf m 0) layerNone d1 d2 d3
            else (m, (None, Some (common.errorNew "no suitable security layer available")))
      | _ =>
          (* len(data) != 4 *)
          (m, (None, Some (common.errorNew
                             ("gssapi: bad SSF negotiate token (" +:+ fmtD (len data)
                              +:+ " bytes, wanted 4)"))))
      end
  end.

Definition Step (m : t C) (inToken : slice) : t C * (slice * option common.error) :=
  match state m with
  | stateAuthenticating => stepAuthenticating m inToken
  | stateSSFCap => stepSSFCap m inToken
  | stateAuthenticated => (m, (None, Some common.ErrAlreadyEstablished))
  end.

Definition IsEstablished (m : t C) : bool :=
  match state m with
  | stateAuthenticated => true
  | _ => false
  end.

Definition ContextParams (m : t C) : common.ContextParams.t :=
  common.ContextParams.mk (ssf m) (maxOutputBufferSz m).

Definition Encode (m : t C) (input : slice) : t C * (slice * option common.error) :=
  if ssf m =? 0
  then (m, (None, Some (common.errorNew "can't encode data: no security layer negotiated")))
  else
    let '(cl, (outToken, err)) := gogssapi.Wrap (client m) input (ssf m >? 1) in
    (set_client m cl, (outToken, option_map common.errorGSS err)).

Definition Decode (m : t C) (inputToken : slice) : t C * (slice * option common.error) :=
  if ssf m =? 0
  then (m, (None, Some (common.errorNew "can't decode data: no security layer negotiated")))
  else
    let '(cl, (output, _, err)) := gogssapi.Unwrap (client m) inputToken in
    (set_client m cl, (output, option_map common.errorGSS err)).

(** [MechProperties] looks the mechanism up in the registry. *)
Definition MechProperties {M : Type} (mechs : gmap string (registry.mech.t M)) (m : t C)
  : common.MechProps.t :=
  registry.Properties mechs mechName.

End Methods.
End GSSAPIMech.

Section Construction.
Context {C : Type} {GSS : gogssapi.Mech C}.

Definition NewMech (cfg : common.MechConfig.t) : GSSAPIMech.t C :=
  GSSAPIMech.mk cfg (gogssapi.NewMech "kerberos_v5") 0 0 stateAuthenticating 0.

(** [init]: the registration of the mechanism, in a registry of GSSAPI
    mechanisms. *)
Definition init (mechs : gmap string (registry.mech.t (GSSAPIMech.t C)))
  : result (gmap string (registry.mech.t (GSSAPIMech.t C))) :=
  registry.Register mechName NewMech registeredProps mechs.

(** [*GSSAPIMech] implements [common.Mech]. *)
Definition Mech_GSSAPIMech {M : Type} (mechs : gmap string (registry.mech.t M))
  : common.Mech (GSSAPIMech.t C) :=
  {| common.Name := GSSAPIMech.Name;
     common.MechProperties := GSSAPIMech.MechProperties mechs;
     common.IsEstablished := GSSAPIMech.IsEstablished;
     common.ContextParams := GSSAPIMech.ContextParams;
     common.Step := GSSAPIMech.Step;
     common.Encode := GSSAPIMech.Encode;
     common.Decode := GSSAPIMech.Decode |}.

End Construction.
End gssapi.

(** ** Test doubles

    The mechanisms and the registrations of sasl_test.go and of the registry's
    tests, and a loop-back GSSAPI context, used to run the model on concrete
    sessions. *)

Module sasl_test.

(** [mockMech1], [mockMech2], [mockMech3]: three types that embed
    [mockMech] and differ in nothing but their identity. *)
Inductive mockMech : Type :=
| mockMech1
| mockMech2
| mockMech3.

#[global] Instance Mech_mockMech : common.Mech mockMech :=
  {| common.Name := fun _ => "MOCK";
     common.MechProperties := fun _ => common.MechProps.zero;
     common.IsEstablished := fun _ => false;
     common.ContextParams := fun _ => common.ContextParams.zero;
     common.Step := fun m _ => (m, (None, None));
     common.Encode := fun m _ => (m, (None, None));
     common.Decode := fun m _ => (m, (None, None)) |}.

Definition propsMECH1 : common.MechProps.t :=
  common.MechProps.mk 256
    (Z.lor common.SecNoPlainText (Z.lor common.SecNoActive
       (Z.lor common.SecNoAnonymous (Z.lor common.SecMutualAuth common.SecPassCredentials))))
    (Z.lor common.FeatWantClientFirst common.FeatDontUseUserPassword).

Definition propsMECH2 : common.MechProps.t :=
  common.MechProps.mk 0
    (Z.lor common.SecNoAnonymous common.SecPassCredentials)
    common.FeatWantClientFirst.

Definition propsMECH3 : common.MechProps.t :=
  common.MechProps.mk 10
    (Z.lor common.SecNoPlainText (Z.lor common.SecNoAnonymous common.SecPassCredentials))
    common.FeatWantClientFirst.

(** Successive calls of [registry.Register], the first panic ending them. *)
Fixpoint registerAll {M : Type}
    (l : list (string * (common.MechConfig.t -> M) * common.MechProps.t))
    (mechs : gmap string (registry.mech.t M)) : result (gmap string (registry.mech.t M)) :=
  match l with
  | [] => Ok mechs
  | (name, f, props) :: rest =>
      match registry.Register name f props mechs with
      | Ok mechs' => registerAll rest mechs'
      | Panic msg => Panic msg
      end
  end.

(** The registry after the three registrations of [TestSaslClientStart]. *)
Definition mechs : gmap string (registry.mech.t mockMech) :=
  <["MECH3" := registry.mech.mk (fun _ => mockMech3) propsMECH3]>
    (<["MECH2" := registry.mech.mk (fun _ => mockMech2) propsMECH2]>
       (<["MECH1" := registry.mech.mk (fun _ => mockMech1) propsMECH1]> ∅)).

(** [cli.mech] after [cli.Start()], when the call returns. *)
Definition started (r : result (sasl.SaslClient.t mockMech * (slice * option common.error)))
  : option mockMech :=
  match r with
  | Ok (c, _) => sasl.SaslClient.mech c
  | Panic _ => None
  end.

(** [NewSaslClient("imap", WithMechList(l), opts...)] followed by the
    assignment [cli.extProps.ssf = ext]. *)
Definition client (l : list string) (opts : list (sasl.SaslClientOption (M := mockMech)))
    (ext : Z) : sasl.SaslClient.t mockMech :=
  sasl.SaslClient.set_extSSF
    (fst (sasl.NewSaslClient mechs "imap" (sasl.WithMechList l :: opts) [])) ext.

End sasl_test.

Module registry_test.

(** [dummyMech] of the registry's tests. *)
Record dummyMech : Type := mkDummy { rand : Z }.

#[global] Instance Mech_dummyMech : common.Mech dummyMech :=
  {| common.Name := fun _ => "MOCK";
     common.MechProperties := fun _ => common.MechProps.zero;
     common.IsEstablished := fun _ => false;
     common.ContextParams := fun _ => common.ContextParams.zero;
     common.Step := fun m _ => (m, (None, None));
     common.Encode := fun m _ => (m, (None, None));
     common.Decode := fun m _ => (m, (None, None)) |}.

(** The registry of [TestMechs]: emptied, then TEST2 and TEST3 registered. *)
Definition mechs : gmap string (registry.mech.t dummyMech) :=
  <["TEST3" := registry.mech.mk (fun _ => mkDummy 789) common.MechProps.zero]>
    (<["TEST2" := registry.mech.mk (fun _ => mkDummy 789) common.MechProps.zero]> ∅).

End registry_test.

Module gssapi_test.

(** A loop-back security context: it is established by the first
    [Continue], reports the flags it was created with, and wraps and unwraps
    a message by returning it unchanged. *)
Module loopback.
Record t : Type := mk {
  flags : Z;
  established : bool;
  strength : Z
}.
End loopback.

#[global] Instance Mech_loopback : gogssapi.Mech loopback.t.
Proof.
  refine
    {| gogssapi.ContextFlagMutual := 2;
       gogssapi.ContextFlagSequence := 8;
       gogssapi.ContextFlagConf := 16;
       gogssapi.ContextFlagInteg := 32;
       gogssapi.NewMech := fun _ => loopback.mk 0 false 0;
       gogssapi.Initiate := fun c _ _ _ => (c, None);
       gogssapi.ContextFlags := loopback.flags;
       gogssapi.Continue := fun c _ =>
         (loopback.mk (loopback.flags c) true (loopback.strength c), (None, None));
       gogssapi.IsEstablished := loopback.established;
       gogssapi.Unwrap := fun c tok => (c, (tok, false, None));
       gogssapi.Wrap := fun c data _ => (c, (data, None));
       gogssapi.SSF := fun c => loopback.strength c mod uintSize;
       gogssapi.SSF_uint := _;
       gogssapi.WrapSizeLimit := fun _ limit _ => limit |}.
  intros c. unfold isUint. apply Z.mod_pos_bound. reflexivity.
Defined.

(** A mechanism in the SSFCapability state over a loop-back context of
    strength [chan] that negotiated the layers [q]. *)
Definition negotiating (cfg : common.MechConfig.t) (q chan : Z)
  : gssapi.GSSAPIMech.t loopback.t :=
  gssapi.GSSAPIMech.mk cfg (loopback.mk 50 true chan) q 0 gssapi.stateSSFCap 0.

(** A configuration with the given SSF bounds and buffer size and nothing
    else set. *)
Definition config (minSSF maxSSF externalSSF maxBufSize : Z) : common.MechConfig.t :=
  common.MechConfig.mk "imap" "mail.example.org" minSSF maxSSF maxBufSize externalSSF
    0 false ∅ None.

(** A recording security context: [Initiate] stores the principal, the
    flags and the channel binding it is called with; the context grants the
    flags it was asked for and is established by the first [Continue]. *)
Module recorder.
Record t : Type := mk {
  principal : string;
  requested : Z;
  binding : option slice;
  established : bool
}.
End recorder.

#[global] Instance Mech_recorder : gogssapi.Mech recorder.t.
Proof.
  refine
    {| gogssapi.ContextFlagMutual := 2;
       gogssapi.ContextFlagSequence := 8;
       gogssapi.ContextFlagConf := 16;
       gogssapi.ContextFlagInteg := 32;
       gogssapi.NewMech := fun _ => recorder.mk "" 0 None false;
       gogssapi.Initiate := fun c name flags cb =>
         (recorder.mk name flags cb (recorder.established c), None);
       gogssapi.ContextFlags := recorder.requested;
       gogssapi.Continue := fun c _ =>
         (recorder.mk (recorder.principal c) (recorder.requested c) (recorder.binding c) true,
          (None, None));
       gogssapi.IsEstablished := recorder.established;
       gogssapi.Unwrap := fun c tok => (c, (tok, false, None));
       gogssapi.Wrap := fun c data _ => (c, (data, None));
       gogssapi.SSF := fun _ => 56;
       gogssapi.SSF_uint := _;
       gogssapi.WrapSizeLimit := fun _ limit _ => limit |}.
  intros c. unfold isUint, uintSize. lia.
Defined.

End gssapi_test.

(** ** The specification's vocabulary

    The quantities and conditions of the specification, written as it words
    them; the theorems below relate the code to them. *)

Module spec.

(** Bit [k] of a flag set. *)
Definition hasBit (flags k : Z) : bool := Z.testbit flags k.

Section Selection.
Context {M : Type}.

(** Effective minimum additional SSF, [max(0, minSSF - externalSSF)]. *)
Definition neededAdditionalSSF (c : sasl.SaslClient.t M) : Z :=
  Z.max 0 (sasl.SaslClient.minSSF c
           - sasl.externalProperties.ssf (sasl.SaslClient.extProps c)).

(** The waiver applies when the external layer supplies strength greater
    than the configured minimum and greater than 1. *)
Definition waiver (c : sasl.SaslClient.t M) : bool :=
  (sasl.SaslClient.minSSF c <? sasl.externalProperties.ssf (sasl.SaslClient.extProps c))
  && (1 <? sasl.externalProperties.ssf (sasl.SaslClient.extProps c)).

(** Property [k] (bit [k] of the flag set) is required of a mechanism: it is
    in the configured set, and it is not the no-plaintext property (bit 0)
    under the waiver. *)
Definition requires (c : sasl.SaslClient.t M) (k : Z) : bool :=
  hasBit (sasl.SaslClient.secProps c) k && negb ((k =? 0) && waiver c).

(** The five filters on a candidate's descriptor [p]. *)
Definition passesFilters (c : sasl.SaslClient.t M)
    (d : sasl.channelBindingDisposition) (p : common.MechProps.t) : Prop :=
  neededAdditionalSSF c <= common.MechProps.MaxSSF p
  /\ (forall k, 0 <= k -> requires c k = true ->
                hasBit (common.MechProps.SecurityProperties p) k = true)
  /\ (d = sasl.channelBindingDispMust -> hasBit (common.MechProps.Fearures p) 6 = true)
  /\ (sasl.SaslClient.serverFQDN c = "" -> hasBit (common.MechProps.Fearures p) 0 = false)
  /\ (sasl.SaslClient.needHTTP c = true -> hasBit (common.MechProps.Fearures p) 5 = true).

(** [name] is the first candidate of [l] whose descriptor passes. *)
Definition firstFit (mechs : gmap string (registry.mech.t M)) (c : sasl.SaslClient.t M)
    (d : sasl.channelBindingDisposition) (l : list string) (i : nat) (name : string) : Prop :=
  l !! i = Some name
  /\ passesFilters c d (registry.Properties mechs name)
  /\ forall j other, (j < i)%nat -> l !! j = Some other ->
       ~ passesFilters c d (registry.Properties mechs other).

(** The candidate list holds registered names only. *)
Definition trimmed (mechs : gmap string (registry.mech.t M)) (l : list string) : Prop :=
  forall name, In name l -> registry.IsRegistered mechs name = true.

End Selection.

Section Negotiation.

(** [allowedSSF = max(0, configuredMaxSSF - externalSSF)]. *)
Definition allowedSSF (cfg : common.MechConfig.t) : Z :=
  Z.max 0 (common.MechConfig.MaxSSF cfg - common.MechConfig.ExternalSSF cfg).

(** [neededSSF = max(0, minSSF - externalSSF)]. *)
Definition neededSSF (cfg : common.MechConfig.t) : Z :=
  Z.max 0 (common.MechConfig.MinSSF cfg - common.MechConfig.ExternalSSF cfg).

(** The three SSF bounds of a configuration are [uint] values. *)
Definition boundsUint (cfg : common.MechConfig.t) : Prop :=
  isUint (common.MechConfig.MinSSF cfg) /\ isUint (common.MechConfig.MaxSSF cfg)
  /\ isUint (common.MechConfig.ExternalSSF cfg).

(** The conditions of the three priorities, for the locally supported set
    [local], the peer's offer [offer] and the channel strength [chan]:
    bit 0 is none, bit 1 integrity, bit 2 confidentiality. *)
Definition confidentialityOK (cfg : common.MechConfig.t) (local offer chan : Z) : bool :=
  hasBit local 2 && hasBit offer 2 && (chan <=? allowedSSF cfg) && (neededSSF cfg <=? chan).

Definition integrityOK (cfg : common.MechConfig.t) (local offer : Z) : bool :=
  hasBit local 1 && hasBit offer 1 && (1 <=? allowedSSF cfg) && (neededSSF cfg <=? 2).

Definition noneOK (cfg : common.MechConfig.t) (local offer : Z) : bool :=
  hasBit local 0 && hasBit offer 0 && (neededSSF cfg <=? 0).

(** The extra property "ad_compat" is present with one of the four values
    that count as true. *)
Definition adCompat (cfg : common.MechConfig.t) : Prop :=
  exists val, common.MechConfig.ExtraProps cfg !! "ad_compat" = Some val
              /\ In val ["1"; "y"; "on"; "t"].

(** The chosen layer: bit [k] of the QOP sets, the QOP byte [q] of the reply
    and the SSF [s], for a channel of strength [chan]. *)
Definition layerChoice (chan k q s : Z) : Prop :=
  (k = 2 /\ (q = 4 \/ q = 6) /\ s = chan)
  \/ (k = 1 /\ q = 2 /\ s = 1)
  \/ (k = 0 /\ q = 1 /\ s = 0).

(** A big-endian 24-bit unsigned integer. *)
Definition bigEndian24 (b1 b2 b3 : Z) : Z := 65536 * b1 + 256 * b2 + b3.

(** The order of the handshake states. *)
Definition rank (s : gssapi.state) : nat :=
  match s with
  | gssapi.stateAuthenticating => 0
  | gssapi.stateSSFCap => 1
  | gssapi.stateAuthenticated => 2
  end.

(** The transitions the handshake allows, [http] being the HTTP mode. *)
Inductive transition (http : bool) : gssapi.state -> gssapi.state -> Prop :=
| stays s : transition http s s
| toSSFCap : http = false -> transition http gssapi.stateAuthenticating gssapi.stateSSFCap
| toAuthenticatedHTTP :
    http = true -> transition http gssapi.stateAuthenticating gssapi.stateAuthenticated
| toAuthenticated : transition http gssapi.stateSSFCap gssapi.stateAuthenticated.

End Negotiation.

(** A letter or a digit, and the characters a host name is made of. *)
Definition alnum (a : ascii) : bool := regexp.lower a || regexp.upper a || regexp.digit a.


End spec.

(** A session driven through a sequence of input tokens. *)
Fixpoint steps {C : Type} {GSS : gogssapi.Mech C} (m : gssapi.GSSAPIMech.t C)
    (tokens : list slice) : gssapi.GSSAPIMech.t C :=
  match tokens with
  | [] => m
  | tok :: rest => steps (fst (gssapi.GSSAPIMech.Step m tok)) rest
  end.

(** ** The test registries are what the calls of [Register] build *)

Example sasl_test_registered :
  sasl_test.registerAll
    [ ("MECH1", fun _ => sasl_test.mockMech1, sasl_test.propsMECH1);
      ("MECH2", fun _ => sasl_test.mockMech2, sasl_test.propsMECH2);
      ("MECH3", fun _ => sasl_test.mockMech3, sasl_test.propsMECH3) ] ∅
  = Ok sasl_test.mechs.
Proof. reflexivity. Qed.

Example registry_test_registered :
  sasl_test.registerAll
    [ ("TEST2", fun _ => registry_test.mkDummy 789, common.MechProps.zero);
      ("TEST3", fun _ => registry_test.mkDummy 789, common.MechProps.zero) ] ∅
  = Ok registry_test.mechs.
Proof. reflexivity. Qed.

(** A second registration of a name, and a lower-case name, panic. *)
Example Register_panics :
  registry.Register "MECH1" (fun _ => sasl_test.mockMech1) sasl_test.propsMECH1 sasl_test.mechs
  = Panic "Cannot have two mechs named MECH1"
  /\ registry.Register "bad-mech-name" (fun _ => sasl_test.mockMech1) sasl_test.propsMECH1
       sasl_test.mechs
     = Panic "Bad mech name: bad-mech-name".
Proof. split; reflexivity. Qed.

(** The whole handshake over the loop-back context: the first step
    establishes the context, the second negotiates confidentiality. *)
Example handshake_loopback :
  let m0 := gssapi.GSSAPIMech.mk (gssapi_test.config 0 256 0 65536)
              (gssapi_test.loopback.mk 50 false 56) 0 0 gssapi.stateAuthenticating 0 in
  let m1 := fst (gssapi.GSSAPIMech.Step m0 None) in
  let r2 := gssapi.GSSAPIMech.Step m1 (Some [x07; x00; x10; x00]) in
  gssapi.GSSAPIMech.state m1 = gssapi.stateSSFCap
  /\ gssapi.GSSAPIMech.qop m1 = 7
  /\ gssapi.GSSAPIMech.state (fst r2) = gssapi.stateAuthenticated
  /\ gssapi.GSSAPIMech.ContextParams (fst r2) = common.ContextParams.mk 56 4096
  /\ snd r2 = (Some [x04; x01; x00; x00], None).
Proof. vm_compute. repeat split; reflexivity. Qed.

(** ** Machine arithmetic and flag sets *)

Arguments spec.hasBit : simpl never.

Lemma usub_small (a b : Z) : 0 <= b <= a -> a < uintSize -> usub a b = a - b.
Proof. intros Hb Ha. unfold usub. apply Z.mod_small. lia. Qed.

Lemma uadd_small (a b : Z) : 0 <= a -> 0 <= b -> a + b < uintSize -> uadd a b = a + b.
Proof. intros Ha Hb Hs. unfold uadd. apply Z.mod_small. lia. Qed.

(** Masking with a single flag [2^k] leaves [2^k] or nothing. *)
Lemma land_flag (x k : Z) :
  0 <= k -> Z.land x (2 ^ k) = if Z.testbit x k then 2 ^ k else 0.
Proof.
  intros Hk. apply Z.bits_inj'. intros n Hn.
  rewrite Z.land_spec, Z.pow2_bits_eqb by assumption.
  destruct (Z.eqb_spec k n) as [->|Hne].
  - destruct (Z.testbit x n); simpl.
    + rewrite Z.pow2_bits_eqb, Z.eqb_refl by assumption. reflexivity.
    + rewrite Z.bits_0. reflexivity.
  - rewrite andb_false_r. destruct (Z.testbit x k).
    + rewrite Z.pow2_bits_eqb by assumption.
      symmetry. apply Z.eqb_neq. assumption.
    + rewrite Z.bits_0. reflexivity.
Qed.

Lemma flag_set (x k : Z) : 0 <= k -> (Z.land x (2 ^ k) >? 0) = spec.hasBit x k.
Proof.
  intros Hk. rewrite land_flag by assumption. unfold spec.hasBit.
  destruct (Z.testbit x k); [|reflexivity].
  rewrite Z.gtb_ltb. apply Z.ltb_lt. apply Z.pow_pos_nonneg; lia.
Qed.

Lemma flag_clear (x k : Z) : 0 <= k -> (Z.land x (2 ^ k) =? 0) = negb (spec.hasBit x k).
Proof.
  intros Hk. rewrite land_flag by assumption. unfold spec.hasBit.
  destruct (Z.testbit x k); [|reflexivity].
  apply Z.eqb_neq. assert (0 < 2 ^ k) by (apply Z.pow_pos_nonneg; lia). lia.
Qed.

(** The mismatch test of the selection loop, [((want ^ have) & want) != 0],
    fails exactly when every bit of [want] is a bit of [have]. *)
Lemma mismatch_subset (want have : Z) :
  Z.land (Z.lxor want have) want = 0
  <-> forall k, 0 <= k -> Z.testbit want k = true -> Z.testbit have k = true.
Proof.
  split.
  - intros H k Hk Hw.
    assert (Hb : Z.testbit (Z.land (Z.lxor want have) want) k = false)
      by (rewrite H; apply Z.bits_0).
    rewrite Z.land_spec, Z.lxor_spec, Hw in Hb.
    destruct (Z.testbit have k); [reflexivity | discriminate].
  - intros H. apply Z.bits_inj'. intros k Hk.
    rewrite Z.land_spec, Z.lxor_spec, Z.bits_0.
    destruct (Z.testbit want k) eqn:Hw; [|apply andb_false_r].
    rewrite (H k Hk Hw). reflexivity.
Qed.

(** Clearing the no-plaintext flag clears bit 0 and nothing else. *)
Lemma ldiff_NoPlainText (x k : Z) :
  0 <= k ->
  Z.testbit (Z.ldiff x common.SecNoPlainText) k = Z.testbit x k && negb (k =? 0).
Proof.
  intros Hk. rewrite Z.ldiff_spec.
  change common.SecNoPlainText with (2 ^ 0).
  rewrite Z.pow2_bits_eqb by lia. rewrite (Z.eqb_sym 0 k). reflexivity.
Qed.

(** ** Mechanism selection *)

Section SelectionProofs.
Context {M : Type} {MechM : common.Mech M}.
Variable mechs : gmap string (registry.mech.t M).

(** The set the loop matches against, [wantSecProps], holds exactly the
    required properties. *)
Lemma wantSecProps_requires (c : sasl.SaslClient.t M) (k : Z) :
  0 <= k ->
  Z.testbit
    (if (sasl.externalProperties.ssf (sasl.SaslClient.extProps c) >? sasl.SaslClient.minSSF c)
        && (sasl.externalProperties.ssf (sasl.SaslClient.extProps c) >? 1)
     then Z.ldiff (sasl.SaslClient.secProps c) common.SecNoPlainText
     else sasl.SaslClient.secProps c) k
  = spec.requires c k.
Proof.
  intros Hk. unfold spec.requires, spec.waiver, spec.hasBit.
  rewrite !Z.gtb_ltb.
  destruct ((sasl.SaslClient.minSSF c <? _) && (1 <? _)).
  - rewrite ldiff_NoPlainText by assumption. rewrite andb_true_r. reflexivity.
  - rewrite andb_false_r. simpl. rewrite andb_true_r. reflexivity.
Qed.

(** One iteration of the loop: the candidate is taken when its descriptor
    passes the filters, and skipped otherwise. *)
Lemma chooseMech_cons (c : sasl.SaslClient.t M) (d : sasl.channelBindingDisposition)
    (mech : string) (rest : list string) :
  (spec.passesFilters c d (registry.Properties mechs mech)
   /\ sasl.SaslClient.chooseMech mechs c (spec.neededAdditionalSSF c) d (mech :: rest) = mech)
  \/ (~ spec.passesFilters c d (registry.Properties mechs mech)
      /\ sasl.SaslClient.chooseMech mechs c (spec.neededAdditionalSSF c) d (mech :: rest)
         = sasl.SaslClient.chooseMech mechs c (spec.neededAdditionalSSF c) d rest).
Proof.
  simpl. set (p := registry.Properties mechs mech).
  unfold spec.passesFilters.
  destruct (Z.gtb_spec (spec.neededAdditionalSSF c) (common.MechProps.MaxSSF p)) as [Hssf|Hssf].
  { right. split; [|reflexivity]. intros [H _]. lia. }
  match goal with |- context [Z.land (Z.lxor ?w _) ?w] => set (want := w) end.
  assert (Hwant : forall k, 0 <= k -> Z.testbit want k = spec.requires c k)
    by (intros k Hk; apply wantSecProps_requires; assumption).
  destruct (Z.eqb_spec (Z.land (Z.lxor want (common.MechProps.SecurityProperties p)) want) 0)
    as [Hsub|Hsub]; simpl.
  2:{ right. split; [|reflexivity]. intros (_ & H & _). apply Hsub.
      apply mismatch_subset. intros k Hk Hw. apply H; [assumption|].
      rewrite <- Hwant by assumption. assumption. }
  rewrite mismatch_subset in Hsub.
  change common.FeatChannelBindings with (2 ^ 6).
  change common.FeatNeedServerFQDN with (2 ^ 0).
  change common.FeatSupportsHTTP with (2 ^ 5).
  rewrite !flag_clear by lia.
  destruct (match d with sasl.channelBindingDispMust => true | _ => false end
            && negb (spec.hasBit (common.MechProps.Fearures p) 6)) eqn:Hcb.
  { right. split; [|reflexivity]. intros (_ & _ & H & _).
    apply andb_true_iff in Hcb as [Hd Hb]. destruct d; try discriminate.
    rewrite H in Hb by reflexivity. discriminate. }
  destruct (negb (negb (spec.hasBit (common.MechProps.Fearures p) 0))
            && (sasl.SaslClient.serverFQDN c =? "")%string) eqn:Hfqdn.
  { right. split; [|reflexivity]. intros (_ & _ & _ & H & _).
    apply andb_true_iff in Hfqdn as [Hb Hn]. apply String.eqb_eq in Hn.
    rewrite (H Hn) in Hb. discriminate. }
  destruct (sasl.SaslClient.needHTTP c
            && negb (spec.hasBit (common.MechProps.Fearures p) 5)) eqn:Hhttp.
  { right. split; [|reflexivity]. intros (_ & _ & _ & _ & H).
    apply andb_true_iff in Hhttp as [Hn Hb]. rewrite (H Hn) in Hb. discriminate. }
  left. split; [|reflexivity]. repeat split.
  - lia.
  - intros k Hk Hr. apply Hsub; [assumption|]. rewrite Hwant by assumption. assumption.
  - intros ->. simpl in Hcb. destruct (spec.hasBit _ 6); [reflexivity | discriminate].
  - intros Hn. rewrite Hn in Hfqdn. simpl in Hfqdn.
    destruct (spec.hasBit _ 0); [discriminate | reflexivity].
  - intros Hn. rewrite Hn in Hhttp. simpl in Hhttp.
    destruct (spec.hasBit _ 5); [reflexivity | discriminate].
Qed.

(** The loop returns the first candidate that passes. *)
Lemma chooseMech_firstFit (c : sasl.SaslClient.t M) (d : sasl.channelBindingDisposition)
    (l : list string) :
  forall i name, spec.firstFit mechs c d l i name ->
    sasl.SaslClient.chooseMech mechs c (spec.neededAdditionalSSF c) d l = name.
Proof.
  induction l as [|mech rest IH]; intros i name (Hi & Hpass & Hbefore).
  - rewrite lookup_nil in Hi. discriminate.
  - destruct (chooseMech_cons c d mech rest) as [[Hp ->]|[Hn ->]].
    + destruct i as [|i].
      * simpl in Hi. congruence.
      * exfalso. apply (Hbefore 0%nat mech); [lia | reflexivity | assumption].
    + destruct i as [|i].
      * simpl in Hi. injection Hi as ->. contradiction.
      * apply (IH i). split; [exact Hi|]. split; [exact Hpass|].
        intros j other Hj Hl. apply (Hbefore (S j) other); [lia | exact Hl].
Qed.

(** The loop leaves [chosenMech] empty when no candidate passes. *)
Lemma chooseMech_noFit (c : sasl.SaslClient.t M) (d : sasl.channelBindingDisposition)
    (l : list string) :
  (forall name, In name l -> ~ spec.passesFilters c d (registry.Properties mechs name)) ->
  sasl.SaslClient.chooseMech mechs c (spec.neededAdditionalSSF c) d l = "".
Proof.
  induction l as [|mech rest IH]; intros Hnone; [reflexivity|].
  destruct (chooseMech_cons c d mech rest) as [[Hp _]|[_ ->]].
  - exfalso. apply (Hnone mech); [left; reflexivity | assumption].
  - apply IH. intros name Hin. apply Hnone. right. assumption.
Qed.

(** The additional SSF [Start] computes is [max(0, minSSF - externalSSF)]. *)
Lemma Start_minSSF (c : sasl.SaslClient.t M) :
  isUint (sasl.SaslClient.minSSF c) ->
  isUint (sasl.externalProperties.ssf (sasl.SaslClient.extProps c)) ->
  (if sasl.SaslClient.minSSF c <? sasl.externalProperties.ssf (sasl.SaslClient.extProps c)
   then 0
   else usub (sasl.SaslClient.minSSF c)
             (sasl.externalProperties.ssf (sasl.SaslClient.extProps c)))
  = spec.neededAdditionalSSF c.
Proof.
  unfold isUint, spec.neededAdditionalSSF. intros Hmin Hext.
  destruct (Z.ltb_spec (sasl.SaslClient.minSSF c)
              (sasl.externalProperties.ssf (sasl.SaslClient.extProps c))).
  - lia.
  - rewrite usub_small by lia. lia.
Qed.

(** A registered name is not the empty string. *)
Lemma registered_nonempty (name : string) :
  registry.namesValid mechs -> registry.IsRegistered mechs name = true ->
  (name =? "")%string = false.
Proof.
  intros Hvalid Hreg. unfold registry.IsRegistered in Hreg.
  destruct (mechs !! name) as [e|] eqn:He; [|discriminate].
  apply Hvalid in He. apply String.eqb_neq. intros ->. discriminate.
Qed.

End SelectionProofs.

Section StartProofs.
Context {M : Type} {MechM : common.Mech M}.
Variable mechs : gmap string (registry.mech.t M).

(** Running the loop on a single candidate decides the filters. *)
Lemma passesFilters_run (c : sasl.SaslClient.t M) (d : sasl.channelBindingDisposition)
    (mech : string) :
  mech <> "" ->
  sasl.SaslClient.chooseMech mechs c (spec.neededAdditionalSSF c) d [mech] = mech ->
  spec.passesFilters c d (registry.Properties mechs mech).
Proof.
  intros Hne Hrun. destruct (chooseMech_cons mechs c d mech []) as [[Hp _]|[_ Hskip]].
  - exact Hp.
  - rewrite Hskip in Hrun. simpl in Hrun. congruence.
Qed.

Lemma failsFilters_run (c : sasl.SaslClient.t M) (d : sasl.channelBindingDisposition)
    (mech : string) :
  mech <> "" ->
  sasl.SaslClient.chooseMech mechs c (spec.neededAdditionalSSF c) d [mech] = "" ->
  ~ spec.passesFilters c d (registry.Properties mechs mech).
Proof.
  intros Hne Hrun. destruct (chooseMech_cons mechs c d mech []) as [[_ Htake]|[Hn _]].
  - rewrite Htake in Hrun. congruence.
  - exact Hn.
Qed.

(** The loop does not read [c.mech]. *)
Lemma chooseMech_set_mech (c : sasl.SaslClient.t M) (m : option M) (n : Z)
    (d : sasl.channelBindingDisposition) (l : list string) :
  sasl.SaslClient.chooseMech mechs (sasl.SaslClient.set_mech c m) n d l
  = sasl.SaslClient.chooseMech mechs c n d l.
Proof.
  induction l as [|mech rest IH]; [reflexivity|].
  simpl. rewrite IH. reflexivity.
Qed.

(** [Start] on a session whose channel-binding disposition is [d]: the
    mechanism it constructs is the first fit, and it fails with [ErrNoMech]
    when there is none. *)
Lemma Start_selects (c : sasl.SaslClient.t M) (d : sasl.channelBindingDisposition) :
  registry.namesValid mechs ->
  spec.trimmed mechs (sasl.SaslClient.mechList c) ->
  isUint (sasl.SaslClient.minSSF c) ->
  isUint (sasl.externalProperties.ssf (sasl.SaslClient.extProps c)) ->
  sasl.SaslClient.channelBindingDisposition mechs c = (d, None) ->
  (forall i name,
     spec.firstFit mechs c d (sasl.SaslClient.mechList c) i name ->
     exists e,
       mechs !! name = Some e
       /\ sasl.SaslClient.Start mechs c
          = Ok (let m := registry.mech.factory e (sasl.SaslClient.mechConfig c) in
                let c' := sasl.SaslClient.set_mech c (Some m) in
                if spec.hasBit (common.MechProps.Fearures (common.MechProperties m)) 2
                then (c', (None, None))
                else sasl.SaslClient.Step c' None))
  /\ ((forall name, In name (sasl.SaslClient.mechList c) ->
         ~ spec.passesFilters c d (registry.Properties mechs name)) ->
      sasl.SaslClient.Start mechs c
      = Ok (sasl.SaslClient.set_mech c None, (None, Some common.ErrNoMech))).
Proof.
  intros Hvalid Htrim Hmin Hext Hdisp.
  assert (Hstart : sasl.SaslClient.Start mechs c
    = let c0 := sasl.SaslClient.set_mech c None in
      let chosenMech :=
        sasl.SaslClient.chooseMech mechs c (spec.neededAdditionalSSF c) d
          (sasl.SaslClient.mechList c) in
      if (chosenMech =? "")%string then Ok (c0, (None, Some common.ErrNoMech))
      else
        match registry.NewMech mechs chosenMech (sasl.SaslClient.mechConfig c) with
        | None => Panic "invalid memory address or nil pointer dereference"
        | Some m =>
            let c1 := sasl.SaslClient.set_mech c (Some m) in
            if negb (Z.land (common.MechProps.Fearures (common.MechProperties m))
                            common.FeatServerFirst =? 0)
            then Ok (c1, (None, None))
            else Ok (sasl.SaslClient.Step c1 None)
        end).
  { unfold sasl.SaslClient.Start.
    change (sasl.SaslClient.channelBindingDisposition mechs (sasl.SaslClient.set_mech c None))
      with (sasl.SaslClient.channelBindingDisposition mechs c).
    rewrite Hdisp. cbv zeta.
    change (sasl.SaslClient.minSSF (sasl.SaslClient.set_mech c None))
      with (sasl.SaslClient.minSSF c).
    change (sasl.SaslClient.extProps (sasl.SaslClient.set_mech c None))
      with (sasl.SaslClient.extProps c).
    rewrite (Start_minSSF c Hmin Hext).
    change (sasl.SaslClient.mechList (sasl.SaslClient.set_mech c None))
      with (sasl.SaslClient.mechList c).
    rewrite chooseMech_set_mech.
    destruct c; reflexivity. }
  split.
  - intros i name Hfit.
    pose proof (chooseMech_firstFit mechs c d _ i name Hfit) as Hchosen.
    destruct Hfit as (Hi & _).
    assert (Hreg : registry.IsRegistered mechs name = true).
    { apply Htrim. apply list_elem_of_In. apply list_elem_of_lookup. eauto. }
    pose proof (registered_nonempty mechs name Hvalid Hreg) as Hne.
    unfold registry.IsRegistered in Hreg.
    destruct (mechs !! name) as [e|] eqn:He; [|discriminate].
    exists e. split; [reflexivity|].
    rewrite Hstart. cbv zeta. rewrite Hchosen, Hne.
    unfold registry.NewMech. rewrite He.
    change common.FeatServerFirst with (2 ^ 2). rewrite flag_clear by lia.
    rewrite negb_involutive.
    destruct (spec.hasBit _ 2); reflexivity.
  - intros Hnone. rewrite Hstart. cbv zeta.
    rewrite (chooseMech_noFit mechs c d _ Hnone). reflexivity.
Qed.

(** When the disposition cannot be computed (a critical channel binding is
    requested and no candidate supports channel bindings), [Start] fails
    with [ErrNoMech]; no candidate would pass under the disposition must. *)
Lemma supportsChannelBindings_false (l : list string) :
  sasl.supportsChannelBindings mechs l = false ->
  forall name, In name l ->
    spec.hasBit (common.MechProps.Fearures (registry.Properties mechs name)) 6 = false.
Proof.
  induction l as [|mech rest IH]; intros Hsup name Hin; [destruct Hin|].
  cbn in Hsup. change common.FeatChannelBindings with (2 ^ 6) in Hsup.
  rewrite flag_set in Hsup by lia.
  destruct (spec.hasBit (common.MechProps.Fearures (registry.Properties mechs mech)) 6)
    eqn:Hbit; [discriminate|].
  destruct Hin as [<-|Hin]; [exact Hbit | apply IH; assumption].
Qed.

Lemma Start_disposition_error (c : sasl.SaslClient.t M) (d : sasl.channelBindingDisposition)
    (err : common.error) :
  sasl.SaslClient.channelBindingDisposition mechs c = (d, Some err) ->
  sasl.SaslClient.Start mechs c
  = Ok (sasl.SaslClient.set_mech c None, (None, Some common.ErrNoMech))
  /\ forall name, In name (sasl.SaslClient.mechList c) ->
       ~ spec.passesFilters c sasl.channelBindingDispMust (registry.Properties mechs name).
Proof.
  intros Hdisp. split.
  - unfold sasl.SaslClient.Start.
    change (sasl.SaslClient.channelBindingDisposition mechs (sasl.SaslClient.set_mech c None))
      with (sasl.SaslClient.channelBindingDisposition mechs c).
    rewrite Hdisp. cbv zeta. f_equal. f_equal. f_equal. f_equal.
    unfold sasl.SaslClient.channelBindingDisposition in Hdisp.
    destruct (sasl.SaslClient.channelBindings c) as [cb|]; [|discriminate].
    destruct (0 <? length (sasl.SaslClient.mechList c))%nat;
      [destruct (negb _ && _)|destruct (common.ChannelBinding.Critical cb)];
      congruence.
  - intros name Hin (_ & _ & Hcb & _).
    unfold sasl.SaslClient.channelBindingDisposition in Hdisp.
    destruct (sasl.SaslClient.channelBindings c) as [cb|]; [|discriminate].
    destruct (0 <? length (sasl.SaslClient.mechList c))%nat;
      [|destruct (common.ChannelBinding.Critical cb); discriminate].
    destruct (sasl.supportsChannelBindings mechs (sasl.SaslClient.mechList c)) eqn:Hsup;
      [discriminate|].
    rewrite (supportsChannelBindings_false _ Hsup name Hin) in Hcb.
    specialize (Hcb eq_refl). discriminate.
Qed.

End StartProofs.

(** [Register] keeps every registered name within the pattern. *)
Lemma namesValid_empty {M : Type} : registry.namesValid (∅ : gmap string (registry.mech.t M)).
Proof. intros name e H. rewrite lookup_empty in H. discriminate. Qed.

Lemma Register_namesValid {M : Type} (name : string) (f : common.MechConfig.t -> M)
    (props : common.MechProps.t) (mechs mechs' : gmap string (registry.mech.t M)) :
  registry.namesValid mechs ->
  registry.Register name f props mechs = Ok mechs' ->
  registry.namesValid mechs'.
Proof.
  intros Hvalid. unfold registry.Register.
  destruct (registry.saslMechRegexp name) eqn:Hname; [|discriminate].
  cbn. destruct (mechs !! name) eqn:Hfree; [discriminate|].
  intros [= <-] other e. rewrite lookup_insert. case_decide.
  - subst. intros _. exact Hname.
  - apply Hvalid.
Qed.

(** C1.  [Start] picks the first candidate, in list order, whose registered
    descriptor passes the five filters (enough maximum SSF for the needed
    additional SSF, every required property with the waiver applied, channel
    binding under the disposition must, no need of a server name when none
    is configured, HTTP support in HTTP mode), constructs it and runs its
    first step; it fails with [ErrNoMech] when no candidate passes.  The
    candidates are registered names and the SSF bounds are [uint] values; [d]
    is the channel-binding disposition computed before the loop; when it
    cannot be computed, because a critical channel binding is requested and
    no candidate supports channel bindings, [Start] fails with [ErrNoMech]
    as well, and no candidate passes under the disposition must.  A
    candidate after a passing one is never chosen, so the order decides: of
    the three mechanisms of the package's tests, MECH1 is chosen from
    [MECH1, MECH2, MECH3] and MECH3 from [MECH2, MECH3, MECH1]. *)
Theorem Start_first_fit :
  (forall (M : Type) (MechM : common.Mech M) (mechs : gmap string (registry.mech.t M))
          (c : sasl.SaslClient.t M) (d : sasl.channelBindingDisposition),
     registry.namesValid mechs ->
     spec.trimmed mechs (sasl.SaslClient.mechList c) ->
     isUint (sasl.SaslClient.minSSF c) ->
     isUint (sasl.externalProperties.ssf (sasl.SaslClient.extProps c)) ->
     sasl.SaslClient.channelBindingDisposition mechs c = (d, None) ->
     (forall i name,
        spec.firstFit mechs c d (sasl.SaslClient.mechList c) i name ->
        exists e,
          mechs !! name = Some e
          /\ sasl.SaslClient.Start mechs c
             = Ok (let m := registry.mech.factory e (sasl.SaslClient.mechConfig c) in
                   let c' := sasl.SaslClient.set_mech c (Some m) in
                   if spec.hasBit (common.MechProps.Fearures (common.MechProperties m)) 2
                   then (c', (None, None))
                   else sasl.SaslClient.Step c' None))
     /\ ((forall name, In name (sasl.SaslClient.mechList c) ->
            ~ spec.passesFilters c d (registry.Properties mechs name)) ->
         sasl.SaslClient.Start mechs c
         = Ok (sasl.SaslClient.set_mech c None, (None, Some common.ErrNoMech))))
  /\ (forall (M : Type) (MechM : common.Mech M) (mechs : gmap string (registry.mech.t M))
             (c : sasl.SaslClient.t M) (d : sasl.channelBindingDisposition)
             (err : common.error),
        sasl.SaslClient.channelBindingDisposition mechs c = (d, Some err) ->
        sasl.SaslClient.Start mechs c
        = Ok (sasl.SaslClient.set_mech c None, (None, Some common.ErrNoMech))
        /\ forall name, In name (sasl.SaslClient.mechList c) ->
             ~ spec.passesFilters c sasl.channelBindingDispMust
                 (registry.Properties mechs name))
  /\ sasl_test.started
       (sasl.SaslClient.Start sasl_test.mechs
          (sasl_test.client ["MECH1"; "MECH2"; "MECH3"] [] 0))
     = Some sasl_test.mockMech1
  /\ sasl_test.started
       (sasl.SaslClient.Start sasl_test.mechs
          (sasl_test.client ["MECH2"; "MECH3"; "MECH1"] [] 0))
     = Some sasl_test.mockMech3.
Proof.
  split; [|split; [|split]].
  - intros M MechM mechs c d. apply Start_selects.
  - intros M MechM mechs c d err. apply Start_disposition_error.
  - vm_compute. reflexivity.
  - vm_compute. reflexivity.
Qed.

(** Closed side conditions on concrete sessions. *)
Ltac concrete_uint :=
  unfold isUint, uintSize;
  match goal with
  | |- _ <= ?x < _ =>
      let v := eval vm_compute in x in
      replace x with v by (vm_compute; reflexivity); lia
  end.

Lemma sasl_test_namesValid : registry.namesValid sasl_test.mechs.
Proof.
  intros name e. unfold sasl_test.mechs.
  rewrite !lookup_insert. repeat case_decide; subst; try (intros _; reflexivity).
  rewrite lookup_empty. discriminate.
Qed.

Lemma Start_first_fit_witness :
  exists e,
    sasl_test.mechs !! "MECH3" = Some e
    /\ sasl.SaslClient.Start sasl_test.mechs
         (sasl_test.client ["MECH2"; "MECH3"; "MECH1"] [] 0)
       = Ok (let c := sasl_test.client ["MECH2"; "MECH3"; "MECH1"] [] 0 in
             let m := registry.mech.factory e (sasl.SaslClient.mechConfig c) in
             let c' := sasl.SaslClient.set_mech c (Some m) in
             if spec.hasBit (common.MechProps.Fearures (common.MechProperties m)) 2
             then (c', (None, None))
             else sasl.SaslClient.Step c' None).
Proof.
  refine (proj1 (proj1 Start_first_fit _ _ sasl_test.mechs
                   (sasl_test.client ["MECH2"; "MECH3"; "MECH1"] [] 0)
                   sasl.channelBindingDispNone _ _ _ _ _) 1%nat "MECH3" _).
  - exact sasl_test_namesValid.
  - intros name [<-|[<-|[<-|[]]]]; reflexivity.
  - concrete_uint.
  - concrete_uint.
  - reflexivity.
  - split; [reflexivity|]. split.
    + apply passesFilters_run; [discriminate | vm_compute; reflexivity].
    + intros j other Hj Hl. destruct j as [|j]; [|lia].
      injection Hl as <-.
      apply failsFilters_run; [discriminate | vm_compute; reflexivity].
Defined.

(** A property is required when it is configured, the no-plaintext property
    only when the external layer is not stronger than both the configured
    minimum and 1. *)
Lemma requires_iff {M : Type} (c : sasl.SaslClient.t M) (k : Z) :
  spec.requires c k = true
  <-> Z.testbit (sasl.SaslClient.secProps c) k = true
      /\ ~ (k = 0
            /\ sasl.SaslClient.minSSF c < sasl.externalProperties.ssf (sasl.SaslClient.extProps c)
            /\ 1 < sasl.externalProperties.ssf (sasl.SaslClient.extProps c)).
Proof.
  unfold spec.requires, spec.waiver, spec.hasBit.
  rewrite andb_true_iff, negb_true_iff, andb_false_iff, andb_false_iff.
  rewrite Z.eqb_neq, !Z.ltb_ge. split; intros [Hbit Hw]; (split; [exact Hbit|]); lia.
Qed.

(** C4.  In the selection loop the no-plaintext property (bit 0) is left out
    of the required set exactly when the external SSF is greater than the
    configured minimum SSF and greater than 1; every other configured
    property, and no-plaintext itself in all other configurations, must be a
    property of the mechanism.  For a candidate that passes the other
    filters, the loop takes it when each such property is one of its
    properties and skips it otherwise.  With minSSF = 20 and external SSF =
    25 the session of the package's tests selects MECH2, which lacks the
    no-plaintext property. *)
Theorem Start_plaintext_waiver :
  (forall (M : Type) (mechs : gmap string (registry.mech.t M)) (c : sasl.SaslClient.t M)
          (d : sasl.channelBindingDisposition) (mech : string) (rest : list string),
     let p := registry.Properties mechs mech in
     let ext := sasl.externalProperties.ssf (sasl.SaslClient.extProps c) in
     let propsOK :=
       forall k, 0 <= k ->
         Z.testbit (sasl.SaslClient.secProps c) k = true ->
         ~ (k = 0 /\ sasl.SaslClient.minSSF c < ext /\ 1 < ext) ->
         Z.testbit (common.MechProps.SecurityProperties p) k = true in
     spec.neededAdditionalSSF c <= common.MechProps.MaxSSF p ->
     (d = sasl.channelBindingDispMust -> spec.hasBit (common.MechProps.Fearures p) 6 = true) ->
     (sasl.SaslClient.serverFQDN c = "" -> spec.hasBit (common.MechProps.Fearures p) 0 = false) ->
     (sasl.SaslClient.needHTTP c = true -> spec.hasBit (common.MechProps.Fearures p) 5 = true) ->
     (propsOK ->
      sasl.SaslClient.chooseMech mechs c (spec.neededAdditionalSSF c) d (mech :: rest) = mech)
     /\ (~ propsOK ->
         sasl.SaslClient.chooseMech mechs c (spec.neededAdditionalSSF c) d (mech :: rest)
         = sasl.SaslClient.chooseMech mechs c (spec.neededAdditionalSSF c) d rest))
  /\ spec.hasBit (common.MechProps.SecurityProperties sasl_test.propsMECH2) 0 = false
  /\ sasl_test.started
       (sasl.SaslClient.Start sasl_test.mechs
          (sasl_test.client ["MECH2"; "MECH3"; "MECH1"] [sasl.WithMinSSF 20] 25))
     = Some sasl_test.mockMech2
  /\ sasl_test.started
       (sasl.SaslClient.Start sasl_test.mechs
          (sasl_test.client ["MECH2"; "MECH3"; "MECH1"] [sasl.WithMinSSF 20] 15))
     = Some sasl_test.mockMech3.
Proof.
  split; [|repeat split; vm_compute; reflexivity].
  intros M mechs c d mech rest p ext propsOK Hssf Hcb Hfqdn Hhttp.
  assert (Hiff : spec.passesFilters c d p <-> propsOK).
  { unfold spec.passesFilters, propsOK. fold p. split.
    - intros (_ & H & _) k Hk Hbit Hw. apply H; [assumption|].
      apply requires_iff. split; assumption.
    - intros H. repeat split; try assumption.
      intros k Hk Hr. apply requires_iff in Hr as [Hbit Hw]. apply H; assumption. }
  destruct (chooseMech_cons mechs c d mech rest) as [[Hp Htake]|[Hn Hskip]].
  - split; [intros _; exact Htake|]. intros Hno. exfalso. apply Hno, Hiff, Hp.
  - split; [|intros _; exact Hskip]. intros Hok. exfalso. apply Hn, Hiff, Hok.
Qed.

Lemma Start_plaintext_waiver_witness :
  sasl.SaslClient.chooseMech sasl_test.mechs
    (sasl_test.client ["MECH2"; "MECH3"; "MECH1"] [sasl.WithMinSSF 20] 25)
    (spec.neededAdditionalSSF
       (sasl_test.client ["MECH2"; "MECH3"; "MECH1"] [sasl.WithMinSSF 20] 25))
    sasl.channelBindingDispNone ("MECH2" :: ["MECH3"; "MECH1"])
  = "MECH2".
Proof.
  refine (proj1 (proj1 Start_plaintext_waiver _ sasl_test.mechs
                   (sasl_test.client ["MECH2"; "MECH3"; "MECH1"] [sasl.WithMinSSF 20] 25)
                   sasl.channelBindingDispNone "MECH2" ["MECH3"; "MECH1"] _ _ _ _) _).
  - vm_compute. discriminate.
  - discriminate.
  - intros _. vm_compute. reflexivity.
  - intros H. vm_compute in H. discriminate.
  - intros k Hk Hbit Hw.
    assert (Hpass : spec.passesFilters
              (sasl_test.client ["MECH2"; "MECH3"; "MECH1"] [sasl.WithMinSSF 20] 25)
              sasl.channelBindingDispNone (registry.Properties sasl_test.mechs "MECH2"))
      by (apply passesFilters_run; [discriminate | vm_compute; reflexivity]).
    destruct Hpass as (_ & Hprops & _). apply Hprops; [assumption|].
    apply requires_iff. split; assumption.
Defined.

(** ** The security-layer negotiation *)

Section NegotiationProofs.
Context {C : Type} {GSS : gogssapi.Mech C}.

Lemma allowedSSF_code (cfg : common.MechConfig.t) :
  spec.boundsUint cfg ->
  (if common.MechConfig.MaxSSF cfg >=? common.MechConfig.ExternalSSF cfg
   then usub (common.MechConfig.MaxSSF cfg) (common.MechConfig.ExternalSSF cfg)
   else 0)
  = spec.allowedSSF cfg.
Proof.
  unfold spec.boundsUint, isUint, spec.allowedSSF. intros (Hmin & Hmax & Hext).
  rewrite Z.geb_leb.
  destruct (Z.leb_spec (common.MechConfig.ExternalSSF cfg) (common.MechConfig.MaxSSF cfg)).
  - rewrite usub_small by lia. lia.
  - lia.
Qed.

Lemma neededSSF_code (cfg : common.MechConfig.t) :
  spec.boundsUint cfg ->
  (if common.MechConfig.MinSSF cfg >=? common.MechConfig.ExternalSSF cfg
   then usub (common.MechConfig.MinSSF cfg) (common.MechConfig.ExternalSSF cfg)
   else 0)
  = spec.neededSSF cfg.
Proof.
  unfold spec.boundsUint, isUint, spec.neededSSF. intros (Hmin & Hmax & Hext).
  rewrite Z.geb_leb.
  destruct (Z.leb_spec (common.MechConfig.ExternalSSF cfg) (common.MechConfig.MinSSF cfg)).
  - rewrite usub_small by lia. lia.
  - lia.
Qed.

(** The [switch] of [stepSSFCap], on a token that unwraps to four bytes and
    a channel that is not too weak: the three cases in their order, each
    followed by the reply, and the failure when none applies. *)
Lemma stepSSFCap_negotiates (m : gssapi.GSSAPIMech.t C) (tok : slice) (cl : C)
    (d0 d1 d2 d3 : byte) (conf : bool) :
  gogssapi.Unwrap (gssapi.GSSAPIMech.client m) tok = (cl, (Some [d0; d1; d2; d3], conf, None)) ->
  spec.boundsUint (gssapi.GSSAPIMech.config m) ->
  common.MechConfig.MinSSF (gssapi.GSSAPIMech.config m)
  <= uadd (gogssapi.SSF cl) (common.MechConfig.ExternalSSF (gssapi.GSSAPIMech.config m)) ->
  let cfg := gssapi.GSSAPIMech.config m in
  let m1 := gssapi.GSSAPIMech.set_client m cl in
  let chan := gogssapi.SSF cl in
  gssapi.GSSAPIMech.stepSSFCap m tok
  = if spec.confidentialityOK cfg (gssapi.GSSAPIMech.qop m) (byteVal d0) chan then
      gssapi.GSSAPIMech.replySSFCap (gssapi.GSSAPIMech.set_ssf m1 chan)
        (match common.MechConfig.ExtraProps cfg !! "ad_compat" with
         | Some val =>
             if gssapi.isTrue val
             then Z.lor gssapi.layerConfidentiality gssapi.layerIntegrity
             else gssapi.layerConfidentiality
         | None => gssapi.layerConfidentiality
         end) d1 d2 d3
    else if spec.integrityOK cfg (gssapi.GSSAPIMech.qop m) (byteVal d0) then
      gssapi.GSSAPIMech.replySSFCap (gssapi.GSSAPIMech.set_ssf m1 1)
        gssapi.layerIntegrity d1 d2 d3
    else if spec.noneOK cfg (gssapi.GSSAPIMech.qop m) (byteVal d0) then
      gssapi.GSSAPIMech.replySSFCap (gssapi.GSSAPIMech.set_ssf m1 0)
        gssapi.layerNone d1 d2 d3
    else (m1, (None, Some (common.errorNew "no suitable security layer available"))).
Proof.
  intros Hunwrap Hbounds Hnotweak cfg m1 chan.
  unfold gssapi.GSSAPIMech.stepSSFCap. rewrite Hunwrap.
  cbv zeta.
  change (gssapi.GSSAPIMech.config (gssapi.GSSAPIMech.set_client m cl)) with cfg.
  change (gssapi.GSSAPIMech.client (gssapi.GSSAPIMech.set_client m cl)) with cl.
  change (gssapi.GSSAPIMech.qop (gssapi.GSSAPIMech.set_client m cl))
    with (gssapi.GSSAPIMech.qop m).
  fold m1. fold chan.
  rewrite (allowedSSF_code cfg Hbounds), (neededSSF_code cfg Hbounds).
  replace (common.MechConfig.MinSSF cfg >? uadd chan (common.MechConfig.ExternalSSF cfg))
    with false by (symmetry; rewrite Z.gtb_ltb; apply Z.ltb_ge; exact Hnotweak).
  unfold spec.confidentialityOK, spec.integrityOK, spec.noneOK.
  change gssapi.layerConfidentiality with (2 ^ 2).
  change gssapi.layerIntegrity with (2 ^ 1).
  change gssapi.layerNone with (2 ^ 0).
  rewrite !flag_set by lia. rewrite !Z.geb_leb.
  reflexivity.
Qed.

End NegotiationProofs.

(** ** The four-byte negotiation token *)

Lemma byteVal_range (b : byte) : 0 <= byteVal b < 256.
Proof. unfold byteVal. pose proof (Byte.to_N_bounded b). lia. Qed.

Lemma byteVal_toByte (z : Z) : byteVal (toByte z) = z mod 256.
Proof.
  unfold byteVal, toByte.
  assert (Hr : 0 <= z mod 256 < 256) by (apply Z.mod_pos_bound; lia).
  destruct (Byte.of_N (Z.to_N (z mod 256))) as [b|] eqn:Hb.
  - apply Byte.to_of_N in Hb. rewrite Hb. lia.
  - apply Byte.of_N_None_iff in Hb. lia.
Qed.

Lemma byteVal_toByte_small (z : Z) : 0 <= z < 256 -> byteVal (toByte z) = z.
Proof. intros H. rewrite byteVal_toByte. apply Z.mod_small. exact H. Qed.

(** A value below [2^n] has no bit at or above [n]. *)
Lemma testbit_above (a n k : Z) : 0 <= a < 2 ^ n -> n <= k -> Z.testbit a k = false.
Proof.
  intros [Ha Hlt] Hk.
  destruct (Z.eq_dec a 0) as [->|Hne]; [apply Z.bits_0|].
  apply Z.bits_above_log2; [assumption|].
  assert (Z.log2 a < n) by (apply Z.log2_lt_pow2; lia). lia.
Qed.

(** The expression of line 226, [b1<<16 | b2<<8 + b3] in [uint32], is the
    big-endian reading of the three bytes. *)
Lemma decode_bigEndian24 (b1 b2 b3 : Z) :
  0 <= b1 < 256 -> 0 <= b2 < 256 -> 0 <= b3 < 256 ->
  u32 (Z.lor (u32 (Z.shiftl b1 16)) (u32 (Z.shiftl b2 8)) + b3) = spec.bigEndian24 b1 b2 b3.
Proof.
  intros H1 H2 H3. unfold u32, uint32Size, spec.bigEndian24.
  rewrite !Z.shiftl_mul_pow2 by lia.
  rewrite (Z.mod_small (b1 * 2 ^ 16)) by lia.
  rewrite (Z.mod_small (b2 * 2 ^ 8)) by lia.
  assert (Hdisj : Z.land (b1 * 2 ^ 16) (b2 * 2 ^ 8) = 0).
  { apply Z.bits_inj'. intros k Hk. rewrite Z.land_spec, Z.bits_0.
    destruct (Z.lt_ge_cases k 16) as [Hlow|Hhigh].
    - rewrite Z.mul_pow2_bits_low by lia. reflexivity.
    - rewrite (testbit_above (b2 * 2 ^ 8) 16 k) by lia. apply andb_false_r. }
  rewrite <- Z.lxor_lor, <- Z.add_nocarry_lxor by exact Hdisj.
  rewrite Z.mod_small by lia. lia.
Qed.

(** The three size bytes of the reply, [max>>16 & 0xff], [max>>8 & 0xff]
    and [max>>0 & 0xff], are the big-endian digits of [max]. *)
Lemma encode_bigEndian24 (n : Z) :
  0 <= n < 2 ^ 24 ->
  byteVal (toByte (Z.land (Z.shiftr n 16) 255)) = n / 65536
  /\ byteVal (toByte (Z.land (Z.shiftr n 8) 255)) = (n / 256) mod 256
  /\ byteVal (toByte (Z.land (Z.shiftr n 0) 255)) = n mod 256.
Proof.
  intros Hn. change 255 with (Z.ones 8).
  rewrite !Z.land_ones, !Z.shiftr_div_pow2 by lia.
  rewrite !byteVal_toByte, !Z.mod_mod by lia.
  change (2 ^ 16) with 65536. change (2 ^ 8) with 256. change (2 ^ 0) with 1.
  rewrite Z.div_1_r.
  repeat split. apply Z.mod_small.
  split; [apply Z.div_pos; lia | apply Z.div_lt_upper_bound; lia].
Qed.

Lemma bigEndian24_digits (n : Z) :
  spec.bigEndian24 (n / 65536) ((n / 256) mod 256) (n mod 256) = n.
Proof.
  unfold spec.bigEndian24.
  pose proof (Z.div_mod n 256 ltac:(lia)) as H1.
  pose proof (Z.div_mod (n / 256) 256 ltac:(lia)) as H2.
  replace (n / 65536) with (n / 256 / 256)
    by (rewrite Z.div_div by lia; reflexivity).
  lia.
Qed.

Section ReplyProofs.
Context {C : Type} {GSS : gogssapi.Mech C}.

(** The mechanism as the reply leaves it before the call of [Wrap]: the
    peer's size recorded, clamped by [WrapSizeLimit] under a security layer. *)
Lemma replySSFCap_wraps (m : gssapi.GSSAPIMech.t C) (q : Z) (d1 d2 d3 : byte) :
  isUint (common.MechConfig.MaxBufSize (gssapi.GSSAPIMech.config m)) ->
  0 <= q < 256 ->
  let size := spec.bigEndian24 (byteVal d1) (byteVal d2) (byteVal d3) in
  let n := Z.min (common.MechConfig.MaxBufSize (gssapi.GSSAPIMech.config m)) 16777215 in
  exists payload,
    gssapi.GSSAPIMech.replySSFCap m q d1 d2 d3
    = gssapi.GSSAPIMech.wrapped
        (gssapi.GSSAPIMech.set_maxOutputBufferSz m
           (if 0 <? gssapi.GSSAPIMech.ssf m
            then gogssapi.WrapSizeLimit (gssapi.GSSAPIMech.client m) size
                   (1 <? gssapi.GSSAPIMech.ssf m)
            else size))
        (gogssapi.Wrap (gssapi.GSSAPIMech.client m) (Some payload) false)
    /\ map byteVal payload
       = if 1 <? q then [q; n / 65536; (n / 256) mod 256; n mod 256] else [q; 0; 0; 0].
Proof.
  intros Hbuf Hq size n.
  assert (Hmin : gssapi.minUint
            (common.MechConfig.MaxBufSize (gssapi.GSSAPIMech.config m)) 16777215 = n).
  { unfold gssapi.minUint, n. destruct (Z.ltb_spec
      (common.MechConfig.MaxBufSize (gssapi.GSSAPIMech.config m)) 16777215); lia. }
  assert (Hn : 0 <= n < 2 ^ 24) by (unfold isUint in Hbuf; unfold n; lia).
  destruct (encode_bigEndian24 n Hn) as (E1 & E2 & E3).
  unfold gssapi.GSSAPIMech.replySSFCap. cbv zeta.
  rewrite decode_bigEndian24 by apply byteVal_range. fold size.
  change (gssapi.GSSAPIMech.ssf (gssapi.GSSAPIMech.set_maxOutputBufferSz m size))
    with (gssapi.GSSAPIMech.ssf m).
  rewrite !Z.gtb_ltb.
  destruct (0 <? gssapi.GSSAPIMech.ssf m) eqn:Hs; destruct (1 <? q) eqn:Hq1;
    cbn [gssapi.GSSAPIMech.config gssapi.GSSAPIMech.set_maxOutputBufferSz
         gssapi.GSSAPIMech.client gssapi.GSSAPIMech.maxOutputBufferSz];
    rewrite ?Hmin; eexists; (split; [reflexivity|]); cbn [map];
    rewrite ?E1, ?E2, ?E3, byteVal_toByte_small by exact Hq; reflexivity.
Qed.

End ReplyProofs.

Section StepProofs.
Context {C : Type} {GSS : gogssapi.Mech C}.

(** What [wrapped] returns: the error of [Wrap] with the state unchanged, or
    its token with the state [stateAuthenticated]; nothing else of the
    mechanism changes but the context. *)
Lemma wrapped_cases (m : gssapi.GSSAPIMech.t C) (r : C * (slice * option string)) :
  (exists cl out e,
     r = (cl, (out, Some e))
     /\ gssapi.GSSAPIMech.wrapped m r
        = (gssapi.GSSAPIMech.set_client m cl, (None, Some (common.errorGSS e))))
  \/ (exists cl out,
        r = (cl, (out, None))
        /\ gssapi.GSSAPIMech.wrapped m r
           = (gssapi.GSSAPIMech.set_state (gssapi.GSSAPIMech.set_client m cl)
                gssapi.stateAuthenticated, (out, None))).
Proof.
  destruct r as [cl [out [e|]]]; [left | right]; eauto.
Qed.

(** The reply changes neither the configuration, nor the negotiated SSF,
    and the state only to [stateAuthenticated]. *)
Lemma replySSFCap_fields (m : gssapi.GSSAPIMech.t C) (q : Z) (d1 d2 d3 : byte) :
  let m' := fst (gssapi.GSSAPIMech.replySSFCap m q d1 d2 d3) in
  gssapi.GSSAPIMech.config m' = gssapi.GSSAPIMech.config m
  /\ gssapi.GSSAPIMech.ssf m' = gssapi.GSSAPIMech.ssf m
  /\ gssapi.GSSAPIMech.qop m' = gssapi.GSSAPIMech.qop m
  /\ (gssapi.GSSAPIMech.state m' = gssapi.GSSAPIMech.state m
      \/ gssapi.GSSAPIMech.state m' = gssapi.stateAuthenticated).
Proof.
  unfold gssapi.GSSAPIMech.replySSFCap. cbv zeta.
  match goal with |- context [gssapi.GSSAPIMech.wrapped ?m2 ?r] =>
    destruct (wrapped_cases m2 r) as [(cl & out & e & _ & ->)|(cl & out & _ & ->)]
  end; cbn [fst];
    destruct (gssapi.GSSAPIMech.ssf _ >? 0); cbn; auto.
Qed.

(** Every way [stepSSFCap] can go. *)
Lemma stepSSFCap_cases (m : gssapi.GSSAPIMech.t C) (tok : slice) (cl : C) (data : slice)
    (conf : bool) (uerr : option string) :
  gogssapi.Unwrap (gssapi.GSSAPIMech.client m) tok = (cl, (data, conf, uerr)) ->
  let m1 := gssapi.GSSAPIMech.set_client m cl in
  let cfg := gssapi.GSSAPIMech.config m in
  (exists e, uerr = Some e
     /\ gssapi.GSSAPIMech.stepSSFCap m tok = (m1, (None, Some (common.errorGSS e))))
  \/ (uerr = None /\ len data <> 4
      /\ gssapi.GSSAPIMech.stepSSFCap m tok
         = (m1, (None, Some (common.errorNew
                               ("gssapi: bad SSF negotiate token (" +:+ fmtD (len data)
                                +:+ " bytes, wanted 4)")))))
  \/ (uerr = None
      /\ exists d0 d1 d2 d3,
           data = Some [d0; d1; d2; d3]
           /\ ((common.MechConfig.MinSSF cfg
                > uadd (gogssapi.SSF cl) (common.MechConfig.ExternalSSF cfg)
                /\ gssapi.GSSAPIMech.stepSSFCap m tok
                   = (m1, (None, Some (common.ErrTooWeak (gogssapi.SSF cl)
                                         (common.MechConfig.ExternalSSF cfg)
                                         (common.MechConfig.MinSSF cfg)))))
               \/ (common.MechConfig.MinSSF cfg
                   <= uadd (gogssapi.SSF cl) (common.MechConfig.ExternalSSF cfg)
                   /\ (gssapi.GSSAPIMech.stepSSFCap m tok
                       = (m1, (None, Some (common.errorNew
                                             "no suitable security layer available")))
                       \/ exists k q s,
                            spec.layerChoice (gogssapi.SSF cl) k q s
                            /\ spec.hasBit (byteVal d0) k = true
                            /\ spec.hasBit (gssapi.GSSAPIMech.qop m) k = true
                            /\ gssapi.GSSAPIMech.stepSSFCap m tok
                               = gssapi.GSSAPIMech.replySSFCap
                                   (gssapi.GSSAPIMech.set_ssf m1 s) q d1 d2 d3)))).
Proof.
  intros Hunwrap m1 cfg. unfold gssapi.GSSAPIMech.stepSSFCap. rewrite Hunwrap.
  destruct uerr as [e|]; [left; eauto|right].
  destruct data as [[|d0 [|d1 [|d2 [|d3 [|d4 rest]]]]]|];
    try (left; split; [reflexivity | split; [cbn; lia | reflexivity]]).
  right. split; [reflexivity|]. exists d0, d1, d2, d3. split; [reflexivity|].
  cbv zeta.
  change (gssapi.GSSAPIMech.config (gssapi.GSSAPIMech.set_client m cl)) with cfg.
  change (gssapi.GSSAPIMech.client (gssapi.GSSAPIMech.set_client m cl)) with cl.
  change (gssapi.GSSAPIMech.qop (gssapi.GSSAPIMech.set_client m cl))
    with (gssapi.GSSAPIMech.qop m).
  fold m1.
  destruct (Z.gtb_spec (common.MechConfig.MinSSF cfg)
              (uadd (gogssapi.SSF cl) (common.MechConfig.ExternalSSF cfg))) as [Hweak|Hok].
  { left. split; [lia | reflexivity]. }
  right. split; [exact Hok|].
  change gssapi.layerConfidentiality with (2 ^ 2).
  change gssapi.layerIntegrity with (2 ^ 1).
  change gssapi.layerNone with (2 ^ 0).
  rewrite !flag_set by lia.
  destruct (spec.hasBit (gssapi.GSSAPIMech.qop m) 2 && spec.hasBit (byteVal d0) 2
            && _ && _) eqn:Hconf.
  { right. apply andb_true_iff in Hconf as [Hconf _].
    apply andb_true_iff in Hconf as [Hconf _].
    apply andb_true_iff in Hconf as [Hl Ho].
    change (common.MechConfig.ExtraProps
              (gssapi.GSSAPIMech.config (gssapi.GSSAPIMech.set_ssf m1 (gogssapi.SSF cl))))
      with (common.MechConfig.ExtraProps cfg).
    destruct (common.MechConfig.ExtraProps cfg !! "ad_compat") as [val|];
      [destruct (gssapi.isTrue val)|].
    - exists 2, 6, (gogssapi.SSF cl). unfold spec.layerChoice.
      split; [left; auto | split; [exact Ho | split; [exact Hl | reflexivity]]].
    - exists 2, 4, (gogssapi.SSF cl). unfold spec.layerChoice.
      split; [left; auto | split; [exact Ho | split; [exact Hl | reflexivity]]].
    - exists 2, 4, (gogssapi.SSF cl). unfold spec.layerChoice.
      split; [left; auto | split; [exact Ho | split; [exact Hl | reflexivity]]]. }
  destruct (spec.hasBit (gssapi.GSSAPIMech.qop m) 1 && spec.hasBit (byteVal d0) 1
            && _ && _) eqn:Hint.
  { right. apply andb_true_iff in Hint as [Hint _].
    apply andb_true_iff in Hint as [Hint _].
    apply andb_true_iff in Hint as [Hl Ho].
    exists 1, 2, 1. unfold spec.layerChoice.
    split; [right; left; auto | split; [exact Ho | split; [exact Hl | reflexivity]]]. }
  destruct (spec.hasBit (gssapi.GSSAPIMech.qop m) 0 && spec.hasBit (byteVal d0) 0
            && _) eqn:Hnone.
  { right. apply andb_true_iff in Hnone as [Hnone _].
    apply andb_true_iff in Hnone as [Hl Ho].
    exists 0, 1, 0. unfold spec.layerChoice.
    split; [right; right; auto | split; [exact Ho | split; [exact Hl | reflexivity]]]. }
  left. reflexivity.
Qed.

End StepProofs.

(** C2.  In the SSFCapability state, on a token that unwraps to four bytes
    and a channel that is not too weak, the quality of protection is chosen
    by fixed priority.  Confidentiality is chosen when it is locally
    supported, offered by the peer (byte 0 of the token), [allowedSSF >=
    channelSSF] and [neededSSF <= channelSSF]; the reply then carries the
    confidentiality bit (4, or 6 with the integrity bit) and the SSF is the
    channel's.  Otherwise integrity is chosen when it is supported, offered,
    [allowedSSF >= 1] and [neededSSF <= 2], with SSF 1; otherwise none when it
    is supported, offered and [neededSSF <= 0], with SSF 0; otherwise the
    step fails with "no suitable security layer available".  In particular,
    when integrity is locally supported, the peer offers {none, integrity},
    [allowedSSF >= channelSSF] is false, [allowedSSF >= 1] and
    [neededSSF <= 2], integrity is chosen. *)
Theorem stepSSFCap_qop_priority :
  forall (C : Type) (GSS : gogssapi.Mech C) (m : gssapi.GSSAPIMech.t C) (tok : slice)
         (cl : C) (d0 d1 d2 d3 : byte) (conf : bool),
    gogssapi.Unwrap (gssapi.GSSAPIMech.client m) tok
    = (cl, (Some [d0; d1; d2; d3], conf, None)) ->
    spec.boundsUint (gssapi.GSSAPIMech.config m) ->
    common.MechConfig.MinSSF (gssapi.GSSAPIMech.config m)
    <= uadd (gogssapi.SSF cl) (common.MechConfig.ExternalSSF (gssapi.GSSAPIMech.config m)) ->
    let cfg := gssapi.GSSAPIMech.config m in
    let m1 := gssapi.GSSAPIMech.set_client m cl in
    let chan := gogssapi.SSF cl in
    let local := gssapi.GSSAPIMech.qop m in
    let offer := byteVal d0 in
    (spec.confidentialityOK cfg local offer chan = true ->
     exists q, (q = 4 \/ q = 6)
       /\ gssapi.GSSAPIMech.stepSSFCap m tok
          = gssapi.GSSAPIMech.replySSFCap (gssapi.GSSAPIMech.set_ssf m1 chan) q d1 d2 d3)
    /\ (spec.confidentialityOK cfg local offer chan = false ->
        spec.integrityOK cfg local offer = true ->
        gssapi.GSSAPIMech.stepSSFCap m tok
        = gssapi.GSSAPIMech.replySSFCap (gssapi.GSSAPIMech.set_ssf m1 1)
            gssapi.layerIntegrity d1 d2 d3)
    /\ (spec.confidentialityOK cfg local offer chan = false ->
        spec.integrityOK cfg local offer = false ->
        spec.noneOK cfg local offer = true ->
        gssapi.GSSAPIMech.stepSSFCap m tok
        = gssapi.GSSAPIMech.replySSFCap (gssapi.GSSAPIMech.set_ssf m1 0)
            gssapi.layerNone d1 d2 d3)
    /\ (spec.confidentialityOK cfg local offer chan = false ->
        spec.integrityOK cfg local offer = false ->
        spec.noneOK cfg local offer = false ->
        gssapi.GSSAPIMech.stepSSFCap m tok
        = (m1, (None, Some (common.errorNew "no suitable security layer available"))))
    /\ (forall q s,
          gssapi.GSSAPIMech.ssf
            (fst (gssapi.GSSAPIMech.replySSFCap (gssapi.GSSAPIMech.set_ssf m1 s) q d1 d2 d3))
          = s)
    /\ (spec.hasBit local 1 = true ->
        offer = 3 ->
        ~ chan <= spec.allowedSSF cfg ->
        1 <= spec.allowedSSF cfg ->
        spec.neededSSF cfg <= 2 ->
        gssapi.GSSAPIMech.stepSSFCap m tok
        = gssapi.GSSAPIMech.replySSFCap (gssapi.GSSAPIMech.set_ssf m1 1)
            gssapi.layerIntegrity d1 d2 d3).
Proof.
  intros C GSS m tok cl d0 d1 d2 d3 conf Hunwrap Hbounds Hnotweak cfg m1 chan local offer.
  pose proof (stepSSFCap_negotiates m tok cl d0 d1 d2 d3 conf Hunwrap Hbounds Hnotweak)
    as Hstep.
  cbv zeta in Hstep. fold cfg m1 chan local offer in Hstep.
  repeat split.
  - intros Hc. rewrite Hstep, Hc.
    destruct (common.MechConfig.ExtraProps cfg !! "ad_compat") as [val|];
      [destruct (gssapi.isTrue val)|].
    + exists 6. split; [right; reflexivity | reflexivity].
    + exists 4. split; [left; reflexivity | reflexivity].
    + exists 4. split; [left; reflexivity | reflexivity].
  - intros Hc Hi. rewrite Hstep, Hc, Hi. reflexivity.
  - intros Hc Hi Hn. rewrite Hstep, Hc, Hi, Hn. reflexivity.
  - intros Hc Hi Hn. rewrite Hstep, Hc, Hi, Hn. reflexivity.
  - intros q s.
    destruct (replySSFCap_fields (gssapi.GSSAPIMech.set_ssf m1 s) q d1 d2 d3)
      as (_ & Hssf & _).
    exact Hssf.
  - intros Hl Ho Hallowed Hone Hneed. rewrite Hstep.
    unfold spec.confidentialityOK, spec.integrityOK. rewrite Hl, Ho.
    replace (spec.hasBit 3 2) with false by reflexivity.
    replace (spec.hasBit 3 1) with true by reflexivity.
    rewrite andb_false_r. cbn [andb].
    replace (1 <=? spec.allowedSSF cfg) with true by (symmetry; apply Z.leb_le; lia).
    replace (spec.neededSSF cfg <=? 2) with true by (symmetry; apply Z.leb_le; lia).
    reflexivity.
Qed.

Lemma stepSSFCap_qop_priority_witness :
  gssapi.GSSAPIMech.stepSSFCap
    (gssapi_test.negotiating (gssapi_test.config 0 1 0 65536) 7 56)
    (Some [x03; x00; x10; x00])
  = gssapi.GSSAPIMech.replySSFCap
      (gssapi.GSSAPIMech.set_ssf
         (gssapi.GSSAPIMech.set_client
            (gssapi_test.negotiating (gssapi_test.config 0 1 0 65536) 7 56)
            (gssapi_test.loopback.mk 50 true 56)) 1)
      gssapi.layerIntegrity x00 x10 x00.
Proof.
  refine (proj2 (proj2 (proj2 (proj2 (proj2
            (stepSSFCap_qop_priority _ _
               (gssapi_test.negotiating (gssapi_test.config 0 1 0 65536) 7 56)
               (Some [x03; x00; x10; x00]) (gssapi_test.loopback.mk 50 true 56)
               x03 x00 x10 x00 false _ _ _))))) _ _ _ _ _).
  - reflexivity.
  - unfold spec.boundsUint, isUint, uintSize. cbn. lia.
  - vm_compute. discriminate.
  - reflexivity.
  - reflexivity.
  - vm_compute. intros H. apply H. reflexivity.
  - vm_compute. discriminate.
  - vm_compute. discriminate.
Defined.

Section ReplyOutcome.
Context {C : Type} {GSS : gogssapi.Mech C}.

(** The reply passes four bytes to [Wrap], the first the chosen QOP, and
    asks for no confidentiality. *)
Lemma replySSFCap_byte0 (m : gssapi.GSSAPIMech.t C) (q : Z) (d1 d2 d3 : byte) :
  exists m2 b1 b2 b3,
    gssapi.GSSAPIMech.replySSFCap m q d1 d2 d3
    = gssapi.GSSAPIMech.wrapped m2
        (gogssapi.Wrap (gssapi.GSSAPIMech.client m) (Some [toByte q; b1; b2; b3]) false).
Proof.
  unfold gssapi.GSSAPIMech.replySSFCap. cbv zeta.
  destruct (gssapi.GSSAPIMech.ssf _ >? 0); destruct (q >? 1);
    cbn [gssapi.GSSAPIMech.client gssapi.GSSAPIMech.set_maxOutputBufferSz];
    do 4 eexists; reflexivity.
Qed.

(** A reply that succeeds leaves the mechanism authenticated, with the
    peer's buffer size recorded. *)
Lemma replySSFCap_success (m m' : gssapi.GSSAPIMech.t C) (q : Z) (d1 d2 d3 : byte)
    (out : slice) :
  gssapi.GSSAPIMech.replySSFCap m q d1 d2 d3 = (m', (out, None)) ->
  let size := spec.bigEndian24 (byteVal d1) (byteVal d2) (byteVal d3) in
  gssapi.GSSAPIMech.state m' = gssapi.stateAuthenticated
  /\ gssapi.GSSAPIMech.ssf m' = gssapi.GSSAPIMech.ssf m
  /\ gssapi.GSSAPIMech.maxOutputBufferSz m'
     = (if 0 <? gssapi.GSSAPIMech.ssf m
        then gogssapi.WrapSizeLimit (gssapi.GSSAPIMech.client m) size
               (1 <? gssapi.GSSAPIMech.ssf m)
        else size).
Proof.
  intros Hreply size. revert Hreply.
  unfold gssapi.GSSAPIMech.replySSFCap. cbv zeta.
  rewrite decode_bigEndian24 by apply byteVal_range. fold size.
  change (gssapi.GSSAPIMech.ssf (gssapi.GSSAPIMech.set_maxOutputBufferSz m size))
    with (gssapi.GSSAPIMech.ssf m).
  rewrite !Z.gtb_ltb.
  match goal with |- gssapi.GSSAPIMech.wrapped ?m2 ?r = _ -> _ =>
    destruct (wrapped_cases m2 r) as [(cl & o & e & _ & ->)|(cl & o & _ & ->)]
  end; [discriminate|].
  intros H. injection H as <- _.
  destruct (0 <? gssapi.GSSAPIMech.ssf m); cbn; auto.
Qed.

End ReplyOutcome.

(** C3.  In the SSFCapability state the step unwraps its input; when the
    unwrapped payload is not exactly four bytes long it fails with the error
    "gssapi: bad SSF negotiate token (N bytes, wanted 4)" and changes nothing
    but the context.  On a four-byte payload that the step accepts, a layer
    is chosen whose bit is set in byte 0, the peer's offer, and bytes 1-3
    are read as a big-endian 24-bit unsigned size: it is the recorded
    maximum message size when no layer is negotiated, and what
    [WrapSizeLimit] is given otherwise.  The payload [1, 255, 255, 255]
    yields the size 65536*255 + 256*255 + 255. *)
Theorem stepSSFCap_token_format :
  (forall (C : Type) (GSS : gogssapi.Mech C) (m : gssapi.GSSAPIMech.t C) (tok : slice)
          (cl : C) (data : slice) (conf : bool),
     gogssapi.Unwrap (gssapi.GSSAPIMech.client m) tok = (cl, (data, conf, None)) ->
     (len data <> 4 ->
      gssapi.GSSAPIMech.stepSSFCap m tok
      = (gssapi.GSSAPIMech.set_client m cl,
         (None, Some (common.errorNew
                        ("gssapi: bad SSF negotiate token (" +:+ fmtD (len data)
                         +:+ " bytes, wanted 4)")))))
     /\ (forall d0 d1 d2 d3 m' out,
           data = Some [d0; d1; d2; d3] ->
           gssapi.GSSAPIMech.stepSSFCap m tok = (m', (out, None)) ->
           let size := spec.bigEndian24 (byteVal d1) (byteVal d2) (byteVal d3) in
           0 <= size < 2 ^ 24
           /\ gssapi.GSSAPIMech.maxOutputBufferSz m'
              = (if 0 <? gssapi.GSSAPIMech.ssf m'
                 then gogssapi.WrapSizeLimit cl size (1 <? gssapi.GSSAPIMech.ssf m')
                 else size)
           /\ exists k q,
                spec.layerChoice (gogssapi.SSF cl) k q (gssapi.GSSAPIMech.ssf m')
                /\ spec.hasBit (byteVal d0) k = true))
  /\ gssapi.GSSAPIMech.maxOutputBufferSz
       (fst (gssapi.GSSAPIMech.stepSSFCap
               (gssapi_test.negotiating (gssapi_test.config 0 0 0 65536) 1 0)
               (Some [x01; xff; xff; xff])))
     = 65536 * 255 + 256 * 255 + 255.
Proof.
  split; [|vm_compute; reflexivity].
  intros C GSS m tok cl data conf Hunwrap.
  pose proof (stepSSFCap_cases m tok cl data conf None Hunwrap) as Hcases.
  cbv zeta in Hcases. split.
  - intros Hlen.
    destruct Hcases as [(e & He & _)|[(_ & _ & Hstep)|(_ & d0 & d1 & d2 & d3 & -> & _)]].
    + discriminate.
    + exact Hstep.
    + exfalso. apply Hlen. reflexivity.
  - intros d0 d1 d2 d3 m' out -> Hok size.
    split.
    { unfold size, spec.bigEndian24.
      pose proof (byteVal_range d1). pose proof (byteVal_range d2).
      pose proof (byteVal_range d3). lia. }
    destruct Hcases as [(e & He & _)|[(_ & Hlen & _)|(_ & e0 & e1 & e2 & e3 & Hd & Hrest)]].
    + discriminate.
    + exfalso. apply Hlen. reflexivity.
    + injection Hd as <- <- <- <-.
      destruct Hrest as [[_ Hweak]|[_ [Hnone|(k & q & s & Hchoice & Hoffer & _ & Hstep)]]].
      * rewrite Hweak in Hok. discriminate.
      * rewrite Hnone in Hok. discriminate.
      * rewrite Hstep in Hok.
        destruct (replySSFCap_success _ _ _ _ _ _ _ Hok) as (_ & Hssf & Hsize).
        cbn in Hssf. rewrite Hssf. split; [exact Hsize|].
        exists k, q. split; assumption.
Qed.

Lemma stepSSFCap_token_format_witness :
  gssapi.GSSAPIMech.stepSSFCap
    (gssapi_test.negotiating (gssapi_test.config 0 0 0 65536) 1 0)
    (Some [x01; xff; xff])
  = (gssapi.GSSAPIMech.set_client
       (gssapi_test.negotiating (gssapi_test.config 0 0 0 65536) 1 0)
       (gssapi_test.loopback.mk 50 true 0),
     (None, Some (common.errorNew
                    ("gssapi: bad SSF negotiate token ("
                     +:+ fmtD (len (Some [x01; xff; xff])) +:+ " bytes, wanted 4)")))).
Proof.
  refine (proj1 (proj1 stepSSFCap_token_format _ _
                   (gssapi_test.negotiating (gssapi_test.config 0 0 0 65536) 1 0)
                   (Some [x01; xff; xff]) (gssapi_test.loopback.mk 50 true 0)
                   (Some [x01; xff; xff]) false _) _).
  - reflexivity.
  - cbn. lia.
Defined.

(** C6.  When the SSFCapability step succeeds, its output is what the
    context's [Wrap] returned for a four-byte reply, asked without
    confidentiality (integrity protection only).  Byte 0 of the reply is the
    chosen QOP (1 none, 2 integrity, 4 confidentiality, 6 both bits); when it
    is above none, bytes 1-3 are the big-endian 24-bit encoding of
    [min(MaxBufSize, 0xFFFFFF)], and they are zero otherwise.  With QOP 4 and
    a buffer size of 65793 the reply is [4, 1, 1, 1]. *)
Theorem stepSSFCap_reply :
  (forall (C : Type) (GSS : gogssapi.Mech C) (m m' : gssapi.GSSAPIMech.t C)
          (tok out : slice),
     isUint (common.MechConfig.MaxBufSize (gssapi.GSSAPIMech.config m)) ->
     gssapi.GSSAPIMech.stepSSFCap m tok = (m', (out, None)) ->
     let n := Z.min (common.MechConfig.MaxBufSize (gssapi.GSSAPIMech.config m)) 16777215 in
     exists cl data conf k q payload,
       gogssapi.Unwrap (gssapi.GSSAPIMech.client m) tok = (cl, (data, conf, None))
       /\ spec.layerChoice (gogssapi.SSF cl) k q (gssapi.GSSAPIMech.ssf m')
       /\ map byteVal payload
          = (if 1 <? q then [q; n / 65536; (n / 256) mod 256; n mod 256] else [q; 0; 0; 0])
       /\ spec.bigEndian24 (n / 65536) ((n / 256) mod 256) (n mod 256) = n
       /\ gogssapi.Wrap cl (Some payload) false = (gssapi.GSSAPIMech.client m', (out, None))
       /\ gssapi.GSSAPIMech.state m' = gssapi.stateAuthenticated)
  /\ snd (gssapi.GSSAPIMech.stepSSFCap
            (gssapi_test.negotiating (gssapi_test.config 0 256 0 65793) 7 56)
            (Some [x04; x00; x10; x00]))
     = (Some [x04; x01; x01; x01], None).
Proof.
  split; [|vm_compute; reflexivity].
  intros C GSS m m' tok out Hbuf Hok n.
  destruct (gogssapi.Unwrap (gssapi.GSSAPIMech.client m) tok) as [cl [[data conf] uerr]]
    eqn:Hunwrap.
  pose proof (stepSSFCap_cases m tok cl data conf uerr Hunwrap) as Hcases.
  cbv zeta in Hcases.
  destruct Hcases as [(e & _ & Hstep)|[(_ & _ & Hstep)|(-> & d0 & d1 & d2 & d3 & -> & Hrest)]];
    try (rewrite Hstep in Hok; discriminate).
  destruct Hrest as [[_ Hstep]|[_ [Hstep|(k & q & s & Hchoice & _ & _ & Hstep)]]];
    try (rewrite Hstep in Hok; discriminate).
  rewrite Hstep in Hok.
  assert (Hq : 0 <= q < 256) by (unfold spec.layerChoice in Hchoice; lia).
  destruct (replySSFCap_success _ _ _ _ _ _ _ Hok) as (Hstate & Hssf & _).
  destruct (replySSFCap_wraps (gssapi.GSSAPIMech.set_ssf (gssapi.GSSAPIMech.set_client m cl) s)
              q d1 d2 d3 Hbuf Hq) as (payload & Hreply & Hbytes).
  rewrite Hreply in Hok.
  match type of Hok with gssapi.GSSAPIMech.wrapped ?m2 ?r = _ =>
    destruct (wrapped_cases m2 r) as [(cl' & o & e & _ & Hw)|(cl' & o & Hwrap & Hw)]
  end; rewrite Hw in Hok; [discriminate|].
  injection Hok as <- <-.
  exists cl, (Some [d0; d1; d2; d3]), conf, k, q, payload.
  split; [reflexivity|]. split; [exact Hchoice|].
  split; [exact Hbytes|]. split; [apply bigEndian24_digits|].
  split; [exact Hwrap | reflexivity].
Qed.

Lemma stepSSFCap_reply_witness :
  exists cl data conf k q payload,
    gogssapi.Unwrap
      (gssapi.GSSAPIMech.client
         (gssapi_test.negotiating (gssapi_test.config 0 256 0 65793) 7 56))
      (Some [x04; x00; x10; x00])
    = (cl, (data, conf, None))
    /\ spec.layerChoice (gogssapi.SSF cl) k q 56
    /\ map byteVal payload
       = (if 1 <? q then [q; 65793 / 65536; (65793 / 256) mod 256; 65793 mod 256]
          else [q; 0; 0; 0])
    /\ spec.bigEndian24 (65793 / 65536) ((65793 / 256) mod 256) (65793 mod 256) = 65793
    /\ gogssapi.Wrap cl (Some payload) false
       = (gssapi_test.loopback.mk 50 true 56, (Some [x04; x01; x01; x01], None))
    /\ gssapi.stateAuthenticated = gssapi.stateAuthenticated.
Proof.
  refine (proj1 stepSSFCap_reply _ _
            (gssapi_test.negotiating (gssapi_test.config 0 256 0 65793) 7 56)
            (gssapi.GSSAPIMech.mk (gssapi_test.config 0 256 0 65793)
               (gssapi_test.loopback.mk 50 true 56) 7 56 gssapi.stateAuthenticated 4096)
            (Some [x04; x00; x10; x00]) (Some [x04; x01; x01; x01]) _ _).
  - unfold isUint, uintSize. cbn. lia.
  - vm_compute. reflexivity.
Defined.

(** C10.  When confidentiality is chosen, the reply carries the integrity
    bit next to the confidentiality bit (QOP 6) exactly when the extra
    property "ad_compat" is present with one of the values "1", "y", "on" or
    "t"; for every other value, and when the property is absent, it carries
    the confidentiality bit alone (QOP 4).  The values "true", "yes" and "Y"
    are among the others. *)
Theorem stepSSFCap_ad_compat :
  (forall (C : Type) (GSS : gogssapi.Mech C) (m : gssapi.GSSAPIMech.t C) (tok : slice)
          (cl : C) (d0 d1 d2 d3 : byte) (conf : bool),
     gogssapi.Unwrap (gssapi.GSSAPIMech.client m) tok
     = (cl, (Some [d0; d1; d2; d3], conf, None)) ->
     spec.boundsUint (gssapi.GSSAPIMech.config m) ->
     common.MechConfig.MinSSF (gssapi.GSSAPIMech.config m)
     <= uadd (gogssapi.SSF cl) (common.MechConfig.ExternalSSF (gssapi.GSSAPIMech.config m)) ->
     spec.confidentialityOK (gssapi.GSSAPIMech.config m) (gssapi.GSSAPIMech.qop m)
       (byteVal d0) (gogssapi.SSF cl) = true ->
     exists q m2 b1 b2 b3,
       gssapi.GSSAPIMech.stepSSFCap m tok
       = gssapi.GSSAPIMech.wrapped m2 (gogssapi.Wrap cl (Some [toByte q; b1; b2; b3]) false)
       /\ (spec.adCompat (gssapi.GSSAPIMech.config m) /\ q = 6
           \/ ~ spec.adCompat (gssapi.GSSAPIMech.config m) /\ q = 4))
  /\ (forall val, gssapi.isTrue val = true <-> In val ["1"; "y"; "on"; "t"])
  /\ gssapi.isTrue "true" = false
  /\ gssapi.isTrue "yes" = false
  /\ gssapi.isTrue "Y" = false.
Proof.
  assert (HisTrue : forall val, gssapi.isTrue val = true <-> In val ["1"; "y"; "on"; "t"]).
  { intros val. unfold gssapi.isTrue. split.
    - intros H. repeat (apply orb_true_iff in H as [H|H]);
        apply String.eqb_eq in H; subst; cbn; auto.
    - intros [<-|[<-|[<-|[<-|[]]]]]; reflexivity. }
  split; [|split; [exact HisTrue | repeat split; reflexivity]].
  intros C GSS m tok cl d0 d1 d2 d3 conf Hunwrap Hbounds Hnotweak Hconf.
  rewrite (stepSSFCap_negotiates m tok cl d0 d1 d2 d3 conf Hunwrap Hbounds Hnotweak).
  cbv zeta. rewrite Hconf.
  set (cfg := gssapi.GSSAPIMech.config m).
  set (m1 := gssapi.GSSAPIMech.set_ssf (gssapi.GSSAPIMech.set_client m cl) (gogssapi.SSF cl)).
  destruct (common.MechConfig.ExtraProps cfg !! "ad_compat") as [val|] eqn:Hprop;
    [destruct (gssapi.isTrue val) eqn:Hval|].
  - destruct (replySSFCap_byte0 m1 (Z.lor gssapi.layerConfidentiality gssapi.layerIntegrity)
                d1 d2 d3) as (m2 & b1 & b2 & b3 & Hreply).
    exists 6, m2, b1, b2, b3. split; [exact Hreply|]. left. split; [|reflexivity].
    exists val. split; [exact Hprop|]. apply HisTrue. exact Hval.
  - destruct (replySSFCap_byte0 m1 gssapi.layerConfidentiality d1 d2 d3)
      as (m2 & b1 & b2 & b3 & Hreply).
    exists 4, m2, b1, b2, b3. split; [exact Hreply|]. right. split; [|reflexivity].
    intros (val' & Hprop' & Hin).
    assert (Heq : Some val = Some val') by (rewrite <- Hprop; exact Hprop').
    injection Heq as <-. apply HisTrue in Hin. congruence.
  - destruct (replySSFCap_byte0 m1 gssapi.layerConfidentiality d1 d2 d3)
      as (m2 & b1 & b2 & b3 & Hreply).
    exists 4, m2, b1, b2, b3. split; [exact Hreply|]. right. split; [|reflexivity].
    intros (val' & Hprop' & _).
    assert (Heq : None = Some val') by (rewrite <- Hprop; exact Hprop').
    discriminate.
Qed.

Lemma stepSSFCap_ad_compat_witness :
  exists q m2 b1 b2 b3,
    gssapi.GSSAPIMech.stepSSFCap
      (gssapi_test.negotiating
         (common.MechConfig.mk "ldap" "dc.example.org" 0 256 65536 0 0 false
            (<["ad_compat" := "1"]> ∅) None) 7 56)
      (Some [x07; x00; x10; x00])
    = gssapi.GSSAPIMech.wrapped m2
        (gogssapi.Wrap (gssapi_test.loopback.mk 50 true 56)
           (Some [toByte q; b1; b2; b3]) false)
    /\ (spec.adCompat
          (common.MechConfig.mk "ldap" "dc.example.org" 0 256 65536 0 0 false
             (<["ad_compat" := "1"]> ∅) None) /\ q = 6
        \/ ~ spec.adCompat
               (common.MechConfig.mk "ldap" "dc.example.org" 0 256 65536 0 0 false
                  (<["ad_compat" := "1"]> ∅) None) /\ q = 4).
Proof.
  refine (proj1 stepSSFCap_ad_compat _ _
            (gssapi_test.negotiating
               (common.MechConfig.mk "ldap" "dc.example.org" 0 256 65536 0 0 false
                  (<["ad_compat" := "1"]> ∅) None) 7 56)
            (Some [x07; x00; x10; x00]) (gssapi_test.loopback.mk 50 true 56)
            x07 x00 x10 x00 false _ _ _ _).
  - reflexivity.
  - unfold spec.boundsUint, isUint, uintSize. cbn. lia.
  - vm_compute. discriminate.
  - vm_compute. reflexivity.
Defined.

(** ** The handshake state machine *)

Section StateProofs.
Context {C : Type} {GSS : gogssapi.Mech C}.

(** A step in the state [stateAuthenticating] keeps the configuration and
    the state, or moves to [stateSSFCap], or in HTTP mode to
    [stateAuthenticated]. *)
Lemma stepAuthenticating_state (m : gssapi.GSSAPIMech.t C) (tok : slice) :
  gssapi.GSSAPIMech.state m = gssapi.stateAuthenticating ->
  let m' := fst (gssapi.GSSAPIMech.stepAuthenticating m tok) in
  gssapi.GSSAPIMech.config m' = gssapi.GSSAPIMech.config m
  /\ spec.transition (common.MechConfig.HTTPMode (gssapi.GSSAPIMech.config m))
       gssapi.stateAuthenticating (gssapi.GSSAPIMech.state m').
Proof.
  intros Hstate. unfold gssapi.GSSAPIMech.stepAuthenticating.
  assert (Hcont : forall (m0 : gssapi.GSSAPIMech.t C) (t : slice),
    gssapi.GSSAPIMech.config m0 = gssapi.GSSAPIMech.config m ->
    gssapi.GSSAPIMech.state m0 = gssapi.stateAuthenticating ->
    let m' :=
      fst (let '(cl, (outToken, err)) :=
             gogssapi.Continue (gssapi.GSSAPIMech.client m0) t in
           let m1 := gssapi.GSSAPIMech.set_client m0 cl in
           let err := option_map common.errorGSS err in
           if gogssapi.IsEstablished cl then
             if common.MechConfig.HTTPMode (gssapi.GSSAPIMech.config m1)
             then (gssapi.GSSAPIMech.set_state m1 gssapi.stateAuthenticated, (outToken, err))
             else (gssapi.GSSAPIMech.set_state m1 gssapi.stateSSFCap,
                   (match outToken with None => Some [] | Some _ => outToken end, err))
           else (m1, (outToken, err))) in
    gssapi.GSSAPIMech.config m' = gssapi.GSSAPIMech.config m
    /\ spec.transition (common.MechConfig.HTTPMode (gssapi.GSSAPIMech.config m))
         gssapi.stateAuthenticating (gssapi.GSSAPIMech.state m')).
  { intros m0 t Hcfg Hst.
    destruct (gogssapi.Continue (gssapi.GSSAPIMech.client m0) t) as [cl [outToken err]].
    cbv zeta.
    change (gssapi.GSSAPIMech.config (gssapi.GSSAPIMech.set_client m0 cl))
      with (gssapi.GSSAPIMech.config m0).
    rewrite Hcfg.
    destruct (gogssapi.IsEstablished cl);
      [destruct (common.MechConfig.HTTPMode (gssapi.GSSAPIMech.config m)) eqn:Hhttp|];
      cbn; (split; [exact Hcfg|]).
    - apply spec.toAuthenticatedHTTP. reflexivity.
    - apply spec.toSSFCap. reflexivity.
    - rewrite Hst. apply spec.stays. }
  destruct tok as [t|].
  - apply Hcont; [reflexivity | exact Hstate].
  - destruct (String.length _ =? 0)%nat.
    + cbn. split; [reflexivity|]. rewrite Hstate. apply spec.stays.
    + destruct (gogssapi.Initiate _ _ _ _) as [cl [err|]].
      * cbn. split; [reflexivity|]. rewrite Hstate. apply spec.stays.
      * apply Hcont;
          destruct (Z.land (gogssapi.ContextFlags cl) gogssapi.ContextFlagInteg =? 0);
          [| destruct (Z.land (gogssapi.ContextFlags cl) gogssapi.ContextFlagConf =? 0)
           | | destruct (Z.land (gogssapi.ContextFlags cl) gogssapi.ContextFlagConf =? 0)];
          cbn; auto.
Qed.

(** A step in the state [stateSSFCap] keeps the configuration and the
    state, or moves to [stateAuthenticated]. *)
Lemma stepSSFCap_state (m : gssapi.GSSAPIMech.t C) (tok : slice) :
  let m' := fst (gssapi.GSSAPIMech.stepSSFCap m tok) in
  gssapi.GSSAPIMech.config m' = gssapi.GSSAPIMech.config m
  /\ (gssapi.GSSAPIMech.state m' = gssapi.GSSAPIMech.state m
      \/ gssapi.GSSAPIMech.state m' = gssapi.stateAuthenticated).
Proof.
  destruct (gogssapi.Unwrap (gssapi.GSSAPIMech.client m) tok) as [cl [[data conf] uerr]]
    eqn:Hunwrap.
  pose proof (stepSSFCap_cases m tok cl data conf uerr Hunwrap) as Hcases.
  cbv zeta in Hcases. cbv zeta.
  destruct Hcases as [(e & _ & ->)|[(_ & _ & ->)|(_ & d0 & d1 & d2 & d3 & _ & Hrest)]];
    [cbn; auto | cbn; auto |].
  destruct Hrest as [[_ ->]|[_ [->|(k & q & s & _ & _ & _ & ->)]]];
    [cbn; auto | cbn; auto |].
  destruct (replySSFCap_fields
              (gssapi.GSSAPIMech.set_ssf (gssapi.GSSAPIMech.set_client m cl) s) q d1 d2 d3)
    as (Hcfg & _ & _ & Hst).
  split; assumption.
Qed.

(** One step: the configuration is kept and the state makes an allowed
    transition. *)
Lemma Step_transition (m : gssapi.GSSAPIMech.t C) (tok : slice) :
  let m' := fst (gssapi.GSSAPIMech.Step m tok) in
  gssapi.GSSAPIMech.config m' = gssapi.GSSAPIMech.config m
  /\ spec.transition (common.MechConfig.HTTPMode (gssapi.GSSAPIMech.config m))
       (gssapi.GSSAPIMech.state m) (gssapi.GSSAPIMech.state m').
Proof.
  unfold gssapi.GSSAPIMech.Step.
  destruct (gssapi.GSSAPIMech.state m) eqn:Hstate.
  - apply stepAuthenticating_state. exact Hstate.
  - destruct (stepSSFCap_state m tok) as [Hcfg [Hst|Hst]]; (split; [exact Hcfg|]).
    + rewrite Hst, Hstate. apply spec.stays.
    + rewrite Hst. apply spec.toAuthenticated.
  - cbn. split; [reflexivity|]. rewrite Hstate. apply spec.stays.
Qed.

Lemma transition_rank (http : bool) (s s' : gssapi.state) :
  spec.transition http s s' -> (spec.rank s <= spec.rank s')%nat.
Proof. intros H. inversion H; subst; cbn; lia. Qed.

(** Any sequence of steps: the state never goes back. *)
Lemma steps_rank (tokens : list slice) :
  forall m : gssapi.GSSAPIMech.t C,
    (spec.rank (gssapi.GSSAPIMech.state m)
     <= spec.rank (gssapi.GSSAPIMech.state (steps m tokens)))%nat.
Proof.
  induction tokens as [|tok rest IH]; intros m; cbn [steps]; [lia|].
  destruct (Step_transition m tok) as [_ Htr].
  apply transition_rank in Htr.
  specialize (IH (fst (gssapi.GSSAPIMech.Step m tok))). lia.
Qed.

End StateProofs.

(** C7.  A step of the GSSAPI handshake keeps the state or advances it:
    from Authenticating to SSFCapability (outside HTTP mode), from
    Authenticating to Authenticated (in HTTP mode), or from SSFCapability to
    Authenticated; so the state never goes back to an earlier one, whatever
    the sequence of steps.  In the state Authenticated a step fails with
    [ErrAlreadyEstablished] for every input token, and leaves the mechanism,
    its state and its negotiated parameters, as it was. *)
Theorem Step_monotonic :
  forall (C : Type) (GSS : gogssapi.Mech C) (m : gssapi.GSSAPIMech.t C) (tok : slice),
    spec.transition (common.MechConfig.HTTPMode (gssapi.GSSAPIMech.config m))
      (gssapi.GSSAPIMech.state m)
      (gssapi.GSSAPIMech.state (fst (gssapi.GSSAPIMech.Step m tok)))
    /\ (spec.rank (gssapi.GSSAPIMech.state m)
        <= spec.rank (gssapi.GSSAPIMech.state (fst (gssapi.GSSAPIMech.Step m tok))))%nat
    /\ (forall tokens,
          (spec.rank (gssapi.GSSAPIMech.state m)
           <= spec.rank (gssapi.GSSAPIMech.state (steps m tokens)))%nat)
    /\ (gssapi.GSSAPIMech.state m = gssapi.stateAuthenticated ->
        gssapi.GSSAPIMech.Step m tok = (m, (None, Some common.ErrAlreadyEstablished))
        /\ gssapi.GSSAPIMech.ContextParams (fst (gssapi.GSSAPIMech.Step m tok))
           = gssapi.GSSAPIMech.ContextParams m).
Proof.
  intros C GSS m tok.
  destruct (Step_transition m tok) as [_ Htr].
  split; [exact Htr|]. split; [exact (transition_rank _ _ _ Htr)|].
  split; [intros tokens; apply steps_rank|].
  intros Hstate. unfold gssapi.GSSAPIMech.Step. rewrite Hstate. split; reflexivity.
Qed.

Lemma Step_monotonic_witness :
  gssapi.GSSAPIMech.Step
    (gssapi.GSSAPIMech.mk (gssapi_test.config 0 256 0 65536)
       (gssapi_test.loopback.mk 50 true 56) 7 56 gssapi.stateAuthenticated 4096)
    (Some [x00])
  = (gssapi.GSSAPIMech.mk (gssapi_test.config 0 256 0 65536)
       (gssapi_test.loopback.mk 50 true 56) 7 56 gssapi.stateAuthenticated 4096,
     (None, Some common.ErrAlreadyEstablished)).
Proof.
  refine (proj1 (proj2 (proj2 (proj2
            (Step_monotonic _ _
               (gssapi.GSSAPIMech.mk (gssapi_test.config 0 256 0 65536)
                  (gssapi_test.loopback.mk 50 true 56) 7 56 gssapi.stateAuthenticated 4096)
               (Some [x00])))) _)).
  reflexivity.
Defined.

(** ** Wrapping application data *)

(** C9.  Once the session is established with a negotiated SSF of 0, the
    session's [Encode] and [Decode] return their input unchanged, for every
    byte sequence, and leave the session and its mechanism as they were: the
    mechanism is not called.  The GSSAPI mechanism's own [Encode] and
    [Decode] fail whenever its SSF is 0, with the errors "can't encode data:
    no security layer negotiated" and "can't decode data: no security layer
    negotiated". *)
Theorem Encode_Decode_without_layer :
  (forall (M : Type) (MechM : common.Mech M) (c : sasl.SaslClient.t M) (m : M)
          (input : slice),
     sasl.SaslClient.mech c = Some m ->
     common.IsEstablished m = true ->
     common.ContextParams.SSF (common.ContextParams m) = 0 ->
     sasl.SaslClient.Encode c input = (c, (input, None))
     /\ sasl.SaslClient.Decode c input = (c, (input, None)))
  /\ (forall (C : Type) (GSS : gogssapi.Mech C) (m : gssapi.GSSAPIMech.t C) (input : slice),
        gssapi.GSSAPIMech.ssf m = 0 ->
        gssapi.GSSAPIMech.Encode m input
        = (m, (None, Some (common.errorNew
                             "can't encode data: no security layer negotiated")))
        /\ gssapi.GSSAPIMech.Decode m input
           = (m, (None, Some (common.errorNew
                                "can't decode data: no security layer negotiated")))).
Proof.
  split.
  - intros M MechM c m input Hmech Hest Hssf.
    unfold sasl.SaslClient.Encode, sasl.SaslClient.Decode, sasl.SaslClient.IsEstablished.
    rewrite Hmech, Hest, Hssf. split; reflexivity.
  - intros C GSS m input Hssf.
    unfold gssapi.GSSAPIMech.Encode, gssapi.GSSAPIMech.Decode.
    rewrite Hssf. split; reflexivity.
Qed.

Lemma Encode_Decode_without_layer_witness :
  (sasl.SaslClient.Encode (MechM := gssapi.Mech_GSSAPIMech sasl_test.mechs)
     (sasl.SaslClient.mk
        (Some (gssapi.GSSAPIMech.mk (gssapi_test.config 0 256 0 65536)
                 (gssapi_test.loopback.mk 2 true 0) 1 0 gssapi.stateAuthenticated 4096))
        "imap" ["GSSAPI"] "mail.example.org" 0 256 65536 17
        (sasl.externalProperties.mk 0) false None ∅)
     (Some [x68; x69])
   = (sasl.SaslClient.mk
        (Some (gssapi.GSSAPIMech.mk (gssapi_test.config 0 256 0 65536)
                 (gssapi_test.loopback.mk 2 true 0) 1 0 gssapi.stateAuthenticated 4096))
        "imap" ["GSSAPI"] "mail.example.org" 0 256 65536 17
        (sasl.externalProperties.mk 0) false None ∅,
      (Some [x68; x69], None))
   /\ sasl.SaslClient.Decode (MechM := gssapi.Mech_GSSAPIMech sasl_test.mechs)
        (sasl.SaslClient.mk
           (Some (gssapi.GSSAPIMech.mk (gssapi_test.config 0 256 0 65536)
                    (gssapi_test.loopback.mk 2 true 0) 1 0 gssapi.stateAuthenticated 4096))
           "imap" ["GSSAPI"] "mail.example.org" 0 256 65536 17
           (sasl.externalProperties.mk 0) false None ∅)
        (Some [x68; x69])
      = (sasl.SaslClient.mk
           (Some (gssapi.GSSAPIMech.mk (gssapi_test.config 0 256 0 65536)
                    (gssapi_test.loopback.mk 2 true 0) 1 0 gssapi.stateAuthenticated 4096))
           "imap" ["GSSAPI"] "mail.example.org" 0 256 65536 17
           (sasl.externalProperties.mk 0) false None ∅,
         (Some [x68; x69], None)))
  /\ (gssapi.GSSAPIMech.Encode
        (gssapi.GSSAPIMech.mk (gssapi_test.config 0 256 0 65536)
           (gssapi_test.loopback.mk 2 true 0) 1 0 gssapi.stateAuthenticated 4096)
        (Some [x68; x69])
      = (gssapi.GSSAPIMech.mk (gssapi_test.config 0 256 0 65536)
           (gssapi_test.loopback.mk 2 true 0) 1 0 gssapi.stateAuthenticated 4096,
         (None, Some (common.errorNew "can't encode data: no security layer negotiated")))
      /\ gssapi.GSSAPIMech.Decode
           (gssapi.GSSAPIMech.mk (gssapi_test.config 0 256 0 65536)
              (gssapi_test.loopback.mk 2 true 0) 1 0 gssapi.stateAuthenticated 4096)
           (Some [x68; x69])
         = (gssapi.GSSAPIMech.mk (gssapi_test.config 0 256 0 65536)
              (gssapi_test.loopback.mk 2 true 0) 1 0 gssapi.stateAuthenticated 4096,
            (None, Some (common.errorNew "can't decode data: no security layer negotiated")))).
Proof.
  split.
  - refine (proj1 Encode_Decode_without_layer _ (gssapi.Mech_GSSAPIMech sasl_test.mechs)
              _ _ (Some [x68; x69]) _ _ _); reflexivity.
  - refine (proj2 Encode_Decode_without_layer _ _ _ (Some [x68; x69]) _). reflexivity.
Defined.

(** ** The strength check *)

Section TooWeakProofs.
Context {C : Type} {GSS : gogssapi.Mech C}.

(** On a token that unwraps to four bytes, and as long as the sum of the
    channel's SSF and the external SSF is itself a [uint], the step fails
    with [ErrTooWeak] exactly when that sum is below the required minimum,
    and the error carries the three values. *)
Lemma stepSSFCap_TooWeak_iff (m : gssapi.GSSAPIMech.t C) (tok : slice) (cl : C)
    (d0 d1 d2 d3 : byte) (conf : bool) :
  gogssapi.Unwrap (gssapi.GSSAPIMech.client m) tok
  = (cl, (Some [d0; d1; d2; d3], conf, None)) ->
  isUint (common.MechConfig.ExternalSSF (gssapi.GSSAPIMech.config m)) ->
  gogssapi.SSF cl + common.MechConfig.ExternalSSF (gssapi.GSSAPIMech.config m) < uintSize ->
  let cfg := gssapi.GSSAPIMech.config m in
  ((exists a b c,
      snd (snd (gssapi.GSSAPIMech.stepSSFCap m tok)) = Some (common.ErrTooWeak a b c))
   <-> gogssapi.SSF cl + common.MechConfig.ExternalSSF cfg < common.MechConfig.MinSSF cfg)
  /\ (gogssapi.SSF cl + common.MechConfig.ExternalSSF cfg < common.MechConfig.MinSSF cfg ->
      gssapi.GSSAPIMech.stepSSFCap m tok
      = (gssapi.GSSAPIMech.set_client m cl,
         (None, Some (common.ErrTooWeak (gogssapi.SSF cl)
                        (common.MechConfig.ExternalSSF cfg)
                        (common.MechConfig.MinSSF cfg))))).
Proof.
  intros Hunwrap Hext Hsum cfg. subst cfg.
  pose proof (gogssapi.SSF_uint cl) as Hchan. unfold isUint in Hext, Hchan.
  pose proof (stepSSFCap_cases m tok cl _ conf None Hunwrap) as Hcases.
  cbv zeta in Hcases.
  rewrite !uadd_small in Hcases by lia.
  destruct Hcases as [(e & He & _)|[(_ & Hlen & _)|(_ & e0 & e1 & e2 & e3 & Hd & Hrest)]].
  - discriminate.
  - exfalso. apply Hlen. reflexivity.
  - injection Hd as <- <- <- <-.
    destruct Hrest as [[Hweak Hstep]|[Hok Hrest]].
    + split; [|intros _; exact Hstep].
      split; [intros _; lia|]. intros _. rewrite Hstep. cbn. eauto.
    + split; [|intros Hlt; lia].
      split; [|intros Hlt; lia].
      intros (a & b & c & Herr). exfalso.
      destruct Hrest as [Hstep|(k & q & s & _ & _ & _ & Hstep)];
        rewrite Hstep in Herr; [discriminate|].
      destruct (replySSFCap_byte0
                  (gssapi.GSSAPIMech.set_ssf (gssapi.GSSAPIMech.set_client m cl) s)
                  q d1 d2 d3) as (m2 & b1 & b2 & b3 & Hreply).
      rewrite Hreply in Herr.
      match type of Herr with context [gssapi.GSSAPIMech.wrapped ?m3 ?r] =>
        destruct (wrapped_cases m3 r) as [(? & ? & ? & _ & Hw)|(? & ? & _ & Hw)]
      end; rewrite Hw in Herr; discriminate.
Qed.

End TooWeakProofs.

(** C5.  The strength check compares the required minimum with the sum of
    the channel's SSF and the external SSF computed in [uint], which wraps
    around: with a channel SSF of 1, an external SSF of 2^64 - 1 and a
    required minimum of 1 the sum is 0, and the step fails with [ErrTooWeak]
    although 1 + (2^64 - 1) is not less than 1.  The error carries the three
    values, and its message states an inequality that does not hold. *)
Theorem stepSSFCap_TooWeak_wraps_around :
  gssapi.GSSAPIMech.stepSSFCap
    (gssapi_test.negotiating (gssapi_test.config 1 256 (2 ^ 64 - 1) 65536) 7 1)
    (Some [x07; x00; x10; x00])
  = (gssapi_test.negotiating (gssapi_test.config 1 256 (2 ^ 64 - 1) 65536) 7 1,
     (None, Some (common.ErrTooWeak 1 (2 ^ 64 - 1) 1)))
  /\ 1 <= 1 + (2 ^ 64 - 1)
  /\ isUint (2 ^ 64 - 1)
  /\ common.Error (common.ErrTooWeak 1 (2 ^ 64 - 1) 1)
     = "negotiated SSF (1) + external SSF (18446744073709551615) is less than required SSF (1)".
Proof.
  split; [vm_compute; reflexivity|].
  split; [lia|]. split; [unfold isUint, uintSize; lia | vm_compute; reflexivity].
Qed.

(** ** The default candidate list *)

(** The lists [Mechs] may return: each registered name once, in any order. *)
Lemma Mechs_spec {M : Type} (mechs : gmap string (registry.mech.t M)) (l : list string) :
  registry.Mechs mechs l
  <-> NoDup l /\ forall name, name ∈ l <-> registry.IsRegistered mechs name = true.
Proof.
  assert (Hkeys : forall name,
            name ∈ (map_to_list mechs).*1 <-> registry.IsRegistered mechs name = true).
  { intros name. unfold registry.IsRegistered. rewrite list_elem_of_fmap. split.
    - intros ([k e] & -> & Hin). apply elem_of_map_to_list in Hin.
      cbn. rewrite Hin. reflexivity.
    - destruct (mechs !! name) as [e|] eqn:He; [|discriminate]. intros _.
      exists (name, e). split; [reflexivity|]. apply elem_of_map_to_list. exact He. }
  unfold registry.Mechs. split.
  - intros Hperm. split.
    + rewrite Hperm. apply NoDup_fst_map_to_list.
    + intros name. rewrite Hperm. apply Hkeys.
  - intros [Hnodup Hmem]. apply NoDup_Permutation.
    + exact Hnodup.
    + apply NoDup_fst_map_to_list.
    + intros name. rewrite Hmem. symmetry. apply Hkeys.
Qed.

(** C8.  [registry.Mechs] returns the registered names in the order of a
    [range] over a Go map, which the language does not fix: over the
    registry of the package's own test, which expects [TEST2, TEST3], the
    result [TEST3, TEST2] is possible as well.  The default candidate list of
    [NewSaslClient] inherits the order, and with it the selection: over the
    three mechanisms of the session tests, two orders of the same registry
    make [Start] choose MECH1 and MECH3. *)
Theorem Mechs_order_unspecified :
  registry.Mechs registry_test.mechs ["TEST2"; "TEST3"]
  /\ registry.Mechs registry_test.mechs ["TEST3"; "TEST2"]
  /\ registry.Mechs sasl_test.mechs ["MECH1"; "MECH2"; "MECH3"]
  /\ registry.Mechs sasl_test.mechs ["MECH3"; "MECH2"; "MECH1"]
  /\ sasl_test.started
       (sasl.SaslClient.Start sasl_test.mechs
          (fst (sasl.NewSaslClient sasl_test.mechs "imap" [] ["MECH1"; "MECH2"; "MECH3"])))
     = Some sasl_test.mockMech1
  /\ sasl_test.started
       (sasl.SaslClient.Start sasl_test.mechs
          (fst (sasl.NewSaslClient sasl_test.mechs "imap" [] ["MECH3"; "MECH2"; "MECH1"])))
     = Some sasl_test.mockMech3.
Proof.
  unfold registry.Mechs.
  repeat split; try (apply (bool_decide_unpack _); vm_compute; exact I);
    vm_compute; reflexivity.
Qed.

(** ** Regular expressions: matching by derivatives decides the language *)

Local Open Scope list_scope.

Lemma nullable_matches (r : regexp.re) :
  regexp.nullable r = true <-> regexp.matches r [].
Proof.
  split.
  - induction r; cbn; intros H; try discriminate.
    + constructor.
    + apply andb_true_iff in H as [H1 H2].
      change (@nil ascii) with (@nil ascii ++ @nil ascii). constructor; auto.
    + apply orb_true_iff in H as [H|H]; [apply regexp.MAltL | apply regexp.MAltR]; auto.
    + constructor.
  - intros H. remember (@nil ascii) as s eqn:Hs.
    induction H; cbn; try reflexivity; try discriminate.
    + apply app_eq_nil in Hs as [-> ->]. rewrite IHmatches1, IHmatches2; reflexivity.
    + rewrite IHmatches by assumption. reflexivity.
    + rewrite IHmatches by assumption. apply orb_true_r.
Qed.

Lemma matches_eps_inv (s : list ascii) : regexp.matches regexp.Eps s -> s = [].
Proof. intros H. inversion H. reflexivity. Qed.

Lemma matches_cat_inv (r1 r2 : regexp.re) (s : list ascii) :
  regexp.matches (regexp.Cat r1 r2) s ->
  exists s1 s2, s = s1 ++ s2 /\ regexp.matches r1 s1 /\ regexp.matches r2 s2.
Proof. intros H. inversion H; subst. eauto. Qed.

Lemma matches_alt_inv (r1 r2 : regexp.re) (s : list ascii) :
  regexp.matches (regexp.Alt r1 r2) s -> regexp.matches r1 s \/ regexp.matches r2 s.
Proof. intros H. inversion H; subst; auto. Qed.

Lemma matches_cons_cat (r1 r2 : regexp.re) (a : ascii) (s1 s2 : list ascii) :
  regexp.matches r1 (a :: s1) -> regexp.matches r2 s2 ->
  regexp.matches (regexp.Cat r1 r2) (a :: s1 ++ s2).
Proof.
  intros H1 H2. change (a :: s1 ++ s2) with ((a :: s1) ++ s2). constructor; assumption.
Qed.

(** A non-empty match of a star begins with a non-empty match of its body. *)
Lemma matches_star_cons (r : regexp.re) (a : ascii) (s : list ascii) :
  regexp.matches (regexp.Star r) (a :: s) ->
  exists s1 s2, s = s1 ++ s2 /\ regexp.matches r (a :: s1)
                /\ regexp.matches (regexp.Star r) s2.
Proof.
  intros H. remember (regexp.Star r) as r' eqn:Hr. remember (a :: s) as l eqn:Hl.
  induction H; try discriminate.
  injection Hr as ->.
  destruct s1 as [|b s1].
  - cbn in Hl. apply IHmatches2; [reflexivity | assumption].
  - cbn in Hl. injection Hl as -> <-. exists s1, s2. auto.
Qed.

Lemma matches_deriv (r : regexp.re) :
  forall (a : ascii) (s : list ascii),
    regexp.matches (regexp.deriv a r) s <-> regexp.matches r (a :: s).
Proof.
  induction r as [| |p|r1 IH1 r2 IH2|r1 IH1 r2 IH2|r IH]; intros a s; cbn.
  - split; intros H; inversion H.
  - split; intros H; inversion H.
  - destruct (p a) eqn:Hp; split; intros H; inversion H; subst.
    + constructor. assumption.
    + constructor.
    + congruence.
  - assert (Hcat : regexp.matches (regexp.Cat (regexp.deriv a r1) r2) s
                   -> regexp.matches (regexp.Cat r1 r2) (a :: s)).
    { intros H. apply matches_cat_inv in H as (s1 & s2 & -> & H1 & H2).
      apply matches_cons_cat; [apply IH1|]; assumption. }
    assert (Hinv : regexp.matches (regexp.Cat r1 r2) (a :: s)
                   -> regexp.matches (regexp.Cat (regexp.deriv a r1) r2) s
                      \/ (regexp.matches r1 [] /\ regexp.matches r2 (a :: s))).
    { intros H. apply matches_cat_inv in H as (s1 & s2 & Heq & H1 & H2).
      destruct s1 as [|b s1]; cbn in Heq.
      - right. subst. auto.
      - injection Heq as <- ->. left. constructor; [apply IH1|]; assumption. }
    destruct (regexp.nullable r1) eqn:Hn.
    + split.
      * intros H. apply matches_alt_inv in H as [H|H]; [apply Hcat; assumption|].
        change (a :: s) with ([] ++ a :: s). constructor.
        -- apply nullable_matches. assumption.
        -- apply IH2. assumption.
      * intros H. destruct (Hinv H) as [Hl|[_ Hr]].
        -- apply regexp.MAltL. assumption.
        -- apply regexp.MAltR. apply IH2. assumption.
    + split; [exact Hcat|].
      intros H. destruct (Hinv H) as [Hl|[He _]]; [assumption|].
      apply nullable_matches in He. congruence.
  - split; intros H; apply matches_alt_inv in H as [H|H].
    + apply regexp.MAltL. apply IH1. assumption.
    + apply regexp.MAltR. apply IH2. assumption.
    + apply regexp.MAltL. apply IH1. assumption.
    + apply regexp.MAltR. apply IH2. assumption.
  - split.
    + intros H. apply matches_cat_inv in H as (s1 & s2 & -> & H1 & H2).
      change (a :: s1 ++ s2) with ((a :: s1) ++ s2). constructor; [apply IH|]; assumption.
    + intros H. destruct (matches_star_cons r a s H) as (s1 & s2 & -> & H1 & H2).
      constructor; [apply IH|]; assumption.
Qed.

Lemma matchList_matches (s : list ascii) :
  forall r, regexp.matchList r s = true <-> regexp.matches r s.
Proof.
  induction s as [|a s IH]; intros r; cbn.
  - apply nullable_matches.
  - rewrite IH. apply matches_deriv.
Qed.

(** A class repeated: the words of the right length over the class. *)
Lemma matches_class (p : ascii -> bool) (s : list ascii) :
  regexp.matches (regexp.Class p) s <-> exists a, s = [a] /\ p a = true.
Proof.
  split.
  - intros H. inversion H; subst. eauto.
  - intros (a & -> & Hp). constructor. assumption.
Qed.

Lemma matches_times_class (p : ascii -> bool) (n : nat) :
  forall s, regexp.matches (regexp.times n (regexp.Class p)) s
            <-> length s = n /\ forallb p s = true.
Proof.
  induction n as [|n IH]; intros s; cbn.
  - split.
    + intros H. apply matches_eps_inv in H as ->. auto.
    + intros [Hlen _]. destruct s; [constructor | discriminate].
  - split.
    + intros H. apply matches_cat_inv in H as (s1 & s2 & -> & H1 & H2).
      apply matches_class in H1 as (a & -> & Hp). apply IH in H2 as [Hlen Hall].
      cbn. rewrite Hp, Hall, Hlen. auto.
    + intros [Hlen Hall]. destruct s as [|a s]; [discriminate|].
      cbn in Hall. apply andb_true_iff in Hall as [Hp Hall].
      change (a :: s) with ([a] ++ s). constructor.
      * constructor. assumption.
      * apply IH. cbn in Hlen. auto.
Qed.

Lemma matches_upto_class (p : ascii -> bool) (n : nat) :
  forall s, regexp.matches (regexp.upto n (regexp.Class p)) s
            <-> (length s <= n)%nat /\ forallb p s = true.
Proof.
  induction n as [|n IH]; intros s; cbn.
  - split.
    + intros H. apply matches_eps_inv in H as ->. auto.
    + intros [Hlen _]. destruct s; [constructor | cbn in Hlen; lia].
  - split.
    + intros H. apply matches_alt_inv in H as [He|Hc].
      * apply matches_eps_inv in He as ->. cbn. split; [lia | reflexivity].
      * apply matches_cat_inv in Hc as (s1 & s2 & -> & H1 & H2).
        apply matches_class in H1 as (a & -> & Hp). apply IH in H2 as [Hlen Hall].
        cbn. rewrite Hp, Hall. split; [lia | reflexivity].
    + intros [Hlen Hall]. destruct s as [|a s].
      * apply regexp.MAltL. constructor.
      * cbn in Hall. apply andb_true_iff in Hall as [Hp Hall].
        apply regexp.MAltR. change (a :: s) with ([a] ++ s). constructor.
        -- constructor. assumption.
        -- apply IH. cbn in Hlen. split; [lia | assumption].
Qed.

Lemma matches_Repeat_class (p : ascii -> bool) (min max : nat) (s : list ascii) :
  (min <= max)%nat ->
  regexp.matches (regexp.Repeat (regexp.Class p) min max) s
  <-> (min <= length s <= max)%nat /\ forallb p s = true.
Proof.
  intros Hmm. unfold regexp.Repeat. split.
  - intros H. apply matches_cat_inv in H as (s1 & s2 & -> & H1 & H2).
    apply matches_times_class in H1 as [Hl1 Ha1].
    apply matches_upto_class in H2 as [Hl2 Ha2].
    rewrite length_app, forallb_app, Ha1, Ha2. split; [lia | reflexivity].
  - intros [Hlen Hall].
    rewrite <- (firstn_skipn min s). constructor.
    + apply matches_times_class. split.
      * rewrite length_firstn. lia.
      * rewrite <- (firstn_skipn min s), forallb_app in Hall.
        apply andb_true_iff in Hall as [H _]. exact H.
    + apply matches_upto_class. split.
      * rewrite length_skipn. lia.
      * rewrite <- (firstn_skipn min s), forallb_app in Hall.
        apply andb_true_iff in Hall as [_ H]. exact H.
Qed.

Lemma length_list_ascii_of_string (s : string) :
  length (list_ascii_of_string s) = String.length s.
Proof. induction s as [|a s IH]; cbn; [reflexivity | rewrite IH; reflexivity]. Qed.

(** ** Mechanism names and host names *)

(** X1.  The pattern of mechanism names, [^[A-Z0-9-_]{1,20}$], read as a
    regular expression and matched by derivatives, accepts exactly the names
    of one to twenty characters that are upper-case letters, digits, hyphens
    or underscores; it is the test [Register] applies. *)
Theorem saslMechPattern_Match :
  forall name : string,
    (regexp.Match registry.saslMechPattern name = true
     <-> (1 <= String.length name <= 20)%nat
         /\ forallb registry.mechNameChar (list_ascii_of_string name) = true)
    /\ regexp.Match registry.saslMechPattern name = registry.saslMechRegexp name.
Proof.
  intros name.
  assert (Hiff : regexp.Match registry.saslMechPattern name = true
                 <-> (1 <= String.length name <= 20)%nat
                     /\ forallb registry.mechNameChar (list_ascii_of_string name) = true).
  { unfold regexp.Match, registry.saslMechPattern.
    rewrite matchList_matches, matches_Repeat_class by lia.
    rewrite length_list_ascii_of_string. reflexivity. }
  split; [exact Hiff|].
  apply eq_true_iff_eq. rewrite Hiff. unfold registry.saslMechRegexp.
  rewrite !andb_true_iff, !Nat.leb_le. tauto.
Qed.







(** The names of [TestWithServerFQDN]. *)
Example WithServerFQDN_test :
  regexp.Match sasl.validHostnameRegex "foo.bar.com" = true
  /\ regexp.Match sasl.validHostnameRegex "foo" = true
  /\ regexp.Match sasl.validHostnameRegex "invalid-.hostname" = false.
Proof. repeat split; vm_compute; reflexivity. Qed.


(** ** The registry *)

(** X3.  After a successful [Register] the name is registered, [Properties]
    returns the descriptor it was given and [NewMech] calls the factory it
    was given; for every other name the three operations answer as before.
    [Register] neither replaces nor removes an entry. *)
Theorem Register_lookup :
  forall (M : Type) (name : string) (f : common.MechConfig.t -> M)
         (props : common.MechProps.t) (mechs mechs' : gmap string (registry.mech.t M)),
    registry.Register name f props mechs = Ok mechs' ->
    registry.IsRegistered mechs name = false
    /\ registry.IsRegistered mechs' name = true
    /\ registry.Properties mechs' name = props
    /\ (forall cfg, registry.NewMech mechs' name cfg = Some (f cfg))
    /\ (forall other, other <> name ->
          registry.IsRegistered mechs' other = registry.IsRegistered mechs other
          /\ registry.Properties mechs' other = registry.Properties mechs other
          /\ forall cfg, registry.NewMech mechs' other cfg = registry.NewMech mechs other cfg).
Proof.
  intros M name f props mechs mechs'. unfold registry.Register.
  destruct (registry.saslMechRegexp name); [|discriminate]. cbn.
  destruct (mechs !! name) eqn:Hfree; [discriminate|]. intros [= <-].
  unfold registry.IsRegistered, registry.Properties, registry.NewMech.
  rewrite Hfree, lookup_insert_eq. repeat split; try reflexivity.
  all: rewrite lookup_insert_ne by congruence; reflexivity.
Qed.

Lemma Register_lookup_witness :
  registry.IsRegistered (∅ : gmap string (registry.mech.t sasl_test.mockMech)) "MECH1" = false
  /\ registry.IsRegistered
       (<["MECH1" := registry.mech.mk (fun _ => sasl_test.mockMech1) sasl_test.propsMECH1]> ∅)
       "MECH1" = true
  /\ registry.Properties
       (<["MECH1" := registry.mech.mk (fun _ => sasl_test.mockMech1) sasl_test.propsMECH1]> ∅)
       "MECH1" = sasl_test.propsMECH1
  /\ (forall cfg,
        registry.NewMech
          (<["MECH1" := registry.mech.mk (fun _ => sasl_test.mockMech1) sasl_test.propsMECH1]> ∅)
          "MECH1" cfg = Some sasl_test.mockMech1)
  /\ (forall other, other <> "MECH1" ->
        registry.IsRegistered
          (<["MECH1" := registry.mech.mk (fun _ => sasl_test.mockMech1) sasl_test.propsMECH1]> ∅)
          other
        = registry.IsRegistered (∅ : gmap string (registry.mech.t sasl_test.mockMech)) other
        /\ registry.Properties
             (<["MECH1" := registry.mech.mk (fun _ => sasl_test.mockMech1) sasl_test.propsMECH1]> ∅)
             other
           = registry.Properties (∅ : gmap string (registry.mech.t sasl_test.mockMech)) other
        /\ forall cfg,
             registry.NewMech
               (<["MECH1" := registry.mech.mk (fun _ => sasl_test.mockMech1)
                               sasl_test.propsMECH1]> ∅) other cfg
             = registry.NewMech (∅ : gmap string (registry.mech.t sasl_test.mockMech))
                 other cfg).
Proof.
  exact (Register_lookup sasl_test.mockMech "MECH1" (fun _ => sasl_test.mockMech1)
           sasl_test.propsMECH1 ∅ _ eq_refl).
Defined.

(** X4.  [Register] returns, rather than panics, exactly when the name
    matches the pattern and is not registered yet; in particular a second
    registration of a name panics whatever factory and descriptor it is
    given, with the message "Cannot have two mechs named" and the name. *)
Theorem Register_ok_iff :
  forall (M : Type) (name : string) (f : common.MechConfig.t -> M)
         (props : common.MechProps.t) (mechs : gmap string (registry.mech.t M)),
    ((exists mechs', registry.Register name f props mechs = Ok mechs')
     <-> registry.saslMechRegexp name = true /\ registry.IsRegistered mechs name = false)
    /\ (forall mechs' f' props',
          registry.Register name f props mechs = Ok mechs' ->
          registry.Register name f' props' mechs'
          = Panic ("Cannot have two mechs named " +:+ name)).
Proof.
  intros M name f props mechs. split.
  - unfold registry.Register, registry.IsRegistered.
    destruct (registry.saslMechRegexp name); cbn.
    + destruct (mechs !! name); split.
      * intros [? ?]. discriminate.
      * intros [_ ?]. discriminate.
      * auto.
      * eauto.
    + split; [intros [? ?]; discriminate | intros [? _]; discriminate].
  - intros mechs' f' props' Hok.
    destruct (Register_lookup _ _ _ _ _ _ Hok) as (_ & Hreg & _).
    unfold registry.Register in *.
    destruct (registry.saslMechRegexp name); [|discriminate]. cbn.
    unfold registry.IsRegistered in Hreg.
    destruct (mechs' !! name); [reflexivity | discriminate].
Qed.

Lemma Register_ok_iff_witness :
  registry.Register "MECH1" (fun _ => sasl_test.mockMech2) sasl_test.propsMECH2
    (<["MECH1" := registry.mech.mk (fun _ => sasl_test.mockMech1) sasl_test.propsMECH1]> ∅)
  = Panic ("Cannot have two mechs named " +:+ "MECH1").
Proof.
  exact (proj2 (Register_ok_iff sasl_test.mockMech "MECH1" (fun _ => sasl_test.mockMech1)
                  sasl_test.propsMECH1 ∅) _ (fun _ => sasl_test.mockMech2)
           sasl_test.propsMECH2 eq_refl).
Defined.

Lemma registerAll_namesValid {M : Type}
    (l : list (string * (common.MechConfig.t -> M) * common.MechProps.t)) :
  forall mechs mechs' : gmap string (registry.mech.t M),
    registry.namesValid mechs ->
    sasl_test.registerAll l mechs = Ok mechs' ->
    registry.namesValid mechs'.
Proof.
  induction l as [|[[name f] props] rest IH]; intros mechs mechs' Hvalid; cbn.
  - intros [= <-]. exact Hvalid.
  - destruct (registry.Register name f props mechs) as [mechs1|msg] eqn:Hreg; [|discriminate].
    apply IH. exact (Register_namesValid _ _ _ _ _ Hvalid Hreg).
Qed.

(** X5.  Every registry built from the empty one by calls of [Register]
    that return holds names of the pattern only: each registered name has
    between one and twenty characters, so none is the empty string that
    [Start] uses for "nothing chosen". *)
Theorem registered_names_valid :
  forall (M : Type) (l : list (string * (common.MechConfig.t -> M) * common.MechProps.t))
         (mechs : gmap string (registry.mech.t M)),
    sasl_test.registerAll l ∅ = Ok mechs ->
    registry.namesValid mechs
    /\ forall name, registry.IsRegistered mechs name = true ->
         (1 <= String.length name <= 20)%nat /\ name <> "".
Proof.
  intros M l mechs Hall.
  assert (Hvalid : registry.namesValid mechs)
    by exact (registerAll_namesValid l ∅ mechs namesValid_empty Hall).
  split; [exact Hvalid|].
  intros name Hreg. unfold registry.IsRegistered in Hreg.
  destruct (mechs !! name) as [e|] eqn:He; [|discriminate].
  apply Hvalid in He. unfold registry.saslMechRegexp in He.
  apply andb_true_iff in He as [He _]. apply andb_true_iff in He as [H1 H2].
  apply Nat.leb_le in H1, H2. split; [lia|]. intros ->. cbn in H1. lia.
Qed.

Lemma registered_names_valid_witness :
  registry.namesValid sasl_test.mechs
  /\ forall name, registry.IsRegistered sasl_test.mechs name = true ->
       (1 <= String.length name <= 20)%nat /\ name <> "".
Proof.
  exact (registered_names_valid sasl_test.mockMech
           [ ("MECH1", fun _ => sasl_test.mockMech1, sasl_test.propsMECH1);
             ("MECH2", fun _ => sasl_test.mockMech2, sasl_test.propsMECH2);
             ("MECH3", fun _ => sasl_test.mockMech3, sasl_test.propsMECH3) ]
           sasl_test.mechs eq_refl).
Defined.



(** ** Session construction *)

(** X7.  A session that [NewSaslClient] returns without error has a
    non-empty candidate list of registered names only, whatever the options
    and whichever order [registry.Mechs] gave: the condition under which
    [Start] selects by first fit. *)
Theorem NewSaslClient_trimmed :
  forall (M : Type) (mechs : gmap string (registry.mech.t M)) (service : string)
         (opts : list (sasl.SaslClientOption (M := M))) (allMechs : list string)
         (c : sasl.SaslClient.t M),
    registry.Mechs mechs allMechs ->
    sasl.NewSaslClient mechs service opts allMechs = (c, None) ->
    spec.trimmed mechs (sasl.SaslClient.mechList c)
    /\ sasl.SaslClient.mechList c <> [].
Proof.
  intros M mechs service opts allMechs c Hall. unfold sasl.NewSaslClient.
  destruct (sasl.applyOptions _ _) as [c0 [e|]]; [discriminate|]. cbv zeta.
  cbn [sasl.SaslClient.mechList].
  destruct (length _ =? 0)%nat eqn:Hlen; [discriminate|].
  intros [= <-]. cbn [sasl.SaslClient.mechList]. split.
  - intros name Hin. destruct (0 <? length (sasl.SaslClient.mechList c0))%nat.
    + apply filter_In in Hin as [_ Hreg]. exact Hreg.
    + apply (proj1 (Mechs_spec mechs allMechs) Hall). apply list_elem_of_In. exact Hin.
  - intros Hnil. rewrite Hnil in Hlen. discriminate.
Qed.

Lemma NewSaslClient_trimmed_witness :
  spec.trimmed sasl_test.mechs
    (sasl.SaslClient.mechList
       (fst (sasl.NewSaslClient sasl_test.mechs "imap"
               [sasl.WithMechList ["MECH2"; "foo"; "MECH1"]] ["MECH3"; "MECH2"; "MECH1"])))
  /\ sasl.SaslClient.mechList
       (fst (sasl.NewSaslClient sasl_test.mechs "imap"
               [sasl.WithMechList ["MECH2"; "foo"; "MECH1"]] ["MECH3"; "MECH2"; "MECH1"]))
     <> [].
Proof.
  refine (NewSaslClient_trimmed sasl_test.mockMech sasl_test.mechs "imap"
            [sasl.WithMechList ["MECH2"; "foo"; "MECH1"]] ["MECH3"; "MECH2"; "MECH1"] _ _ _).
  - unfold registry.Mechs. apply (bool_decide_unpack _). vm_compute. exact I.
  - vm_compute. reflexivity.
Defined.

(** X8.  With a non-empty list from the caller, the candidate list of the
    new session is that list without its unregistered names, in the
    caller's order; when none of its names is registered the call fails
    with [ErrNoMech] and does not fall back to the registered mechanisms.
    Without a list the candidates are what [registry.Mechs] returned. *)
Theorem NewSaslClient_mechList :
  forall (M : Type) (mechs : gmap string (registry.mech.t M)) (service : string)
         (l allMechs : list string),
    let r := sasl.NewSaslClient mechs service [sasl.WithMechList l] allMechs in
    (l <> [] ->
     sasl.SaslClient.mechList (fst r) = List.filter (registry.IsRegistered mechs) l
     /\ (snd r = Some common.ErrNoMech
         <-> forall name, In name l -> registry.IsRegistered mechs name = false)
     /\ (snd r = None
         <-> exists name, In name l /\ registry.IsRegistered mechs name = true))
    /\ (l = [] ->
        sasl.SaslClient.mechList (fst r) = allMechs
        /\ (snd r = Some common.ErrNoMech <-> allMechs = [])
        /\ (snd r = None <-> allMechs <> [])).
Proof.
  intros M mechs service l allMechs r. subst r. unfold sasl.NewSaslClient.
  split.
  - intros Hne. destruct l as [|x l]; [contradiction|].
    cbn [sasl.applyOptions sasl.WithMechList length Nat.ltb Nat.leb
         sasl.SaslClient.mechList fst snd].
    set (kept := List.filter (registry.IsRegistered mechs) (x :: l)).
    assert (Hkept : kept = [] <-> forall name, In name (x :: l) ->
                                   registry.IsRegistered mechs name = false).
    { unfold kept. split.
      - intros Hnil name Hin.
        destruct (registry.IsRegistered mechs name) eqn:Hreg; [|reflexivity].
        assert (Hk : In name (List.filter (registry.IsRegistered mechs) (x :: l)))
          by (apply filter_In; auto).
        rewrite Hnil in Hk. destruct Hk.
      - intros Hnone.
        destruct (List.filter (registry.IsRegistered mechs) (x :: l)) as [|y k] eqn:Hf;
          [reflexivity|].
        assert (Hy : In y (List.filter (registry.IsRegistered mechs) (x :: l)))
          by (rewrite Hf; left; reflexivity).
        apply filter_In in Hy as [Hin Hreg]. rewrite (Hnone y Hin) in Hreg. discriminate. }
    destruct kept as [|y k] eqn:Hk; cbn [length Nat.eqb fst snd sasl.SaslClient.mechList].
    + split; [reflexivity|]. split.
      * split; [intros _; apply Hkept; reflexivity | reflexivity].
      * split; [discriminate|]. intros (name & Hin & Hreg).
        rewrite (proj1 Hkept eq_refl name Hin) in Hreg. discriminate.
    + split; [reflexivity|]. split.
      * split; [discriminate|]. intros Hnone. apply Hkept in Hnone. discriminate.
      * split; [|reflexivity]. intros _.
        assert (Hy : In y (List.filter (registry.IsRegistered mechs) (x :: l)))
          by (fold kept; rewrite Hk; left; reflexivity).
        apply filter_In in Hy as [Hin Hreg]. eauto.
  - intros ->.
    cbn [sasl.applyOptions sasl.WithMechList length Nat.ltb Nat.leb
         sasl.SaslClient.mechList fst snd].
    destruct allMechs as [|y k]; cbn [length Nat.eqb fst snd sasl.SaslClient.mechList].
    + split; [reflexivity|]. split; split; try reflexivity; try discriminate.
      intros H. contradiction.
    + split; [reflexivity|]. split; split; try reflexivity; try discriminate.
Qed.

Lemma NewSaslClient_mechList_witness :
  sasl.SaslClient.mechList
    (fst (sasl.NewSaslClient sasl_test.mechs "imap" [sasl.WithMechList ["foo"; "bar"]]
            ["MECH1"; "MECH2"; "MECH3"]))
  = List.filter (registry.IsRegistered sasl_test.mechs) ["foo"; "bar"]
  /\ (snd (sasl.NewSaslClient sasl_test.mechs "imap" [sasl.WithMechList ["foo"; "bar"]]
             ["MECH1"; "MECH2"; "MECH3"]) = Some common.ErrNoMech
      <-> forall name, In name ["foo"; "bar"] ->
            registry.IsRegistered sasl_test.mechs name = false)
  /\ (snd (sasl.NewSaslClient sasl_test.mechs "imap" [sasl.WithMechList ["foo"; "bar"]]
             ["MECH1"; "MECH2"; "MECH3"]) = None
      <-> exists name, In name ["foo"; "bar"]
                       /\ registry.IsRegistered sasl_test.mechs name = true).
Proof.
  refine (proj1 (NewSaslClient_mechList sasl_test.mockMech sasl_test.mechs "imap"
                   ["foo"; "bar"] ["MECH1"; "MECH2"; "MECH3"]) _).
  discriminate.
Defined.

(** X9.  [WithSecurityProps] keeps of its argument the seven defined
    properties (bits 0 to 6) and drops every other bit, so the stored value
    is below 128; it never fails, and it leaves the candidate list and the
    minimum SSF as they are. *)
Theorem WithSecurityProps_mask :
  forall (M : Type) (props : Z) (c : sasl.SaslClient.t M),
    snd (sasl.WithSecurityProps props c) = None
    /\ (forall k, 0 <= k ->
          Z.testbit (sasl.SaslClient.secProps (fst (sasl.WithSecurityProps props c))) k
          = Z.testbit props k && (k <? 7))
    /\ 0 <= sasl.SaslClient.secProps (fst (sasl.WithSecurityProps props c)) < 128
    /\ sasl.SaslClient.mechList (fst (sasl.WithSecurityProps props c))
       = sasl.SaslClient.mechList c
    /\ sasl.SaslClient.minSSF (fst (sasl.WithSecurityProps props c))
       = sasl.SaslClient.minSSF c.
Proof.
  intros M props c. cbn [sasl.WithSecurityProps fst snd sasl.SaslClient.secProps
                         sasl.SaslClient.mechList sasl.SaslClient.minSSF].
  replace (Z.lor common.SecNoPlainText
             (Z.lor common.SecNoActive
                (Z.lor common.SecNoDictionary
                   (Z.lor common.SecForwardSecrecy
                      (Z.lor common.SecNoAnonymous
                         (Z.lor common.SecPassCredentials common.SecMutualAuth))))))
    with (Z.ones 7) by reflexivity.
  split; [reflexivity|]. split; [|split; [|split; reflexivity]].
  - intros k Hk. rewrite Z.land_spec. f_equal.
    destruct (Z.ltb_spec k 7).
    + apply Z.ones_spec_low. lia.
    + apply Z.ones_spec_high. lia.
  - rewrite Z.land_ones by lia. apply Z.mod_pos_bound. reflexivity.
Qed.

(** X10.  The options are applied in order and the first one that returns
    an error ends the loop: the options after it are not applied, and the
    client keeps what the options before it, and the failing one, wrote. *)
Theorem applyOptions_app :
  forall (M : Type) (pre post : list (sasl.SaslClientOption (M := M)))
         (c c1 : sasl.SaslClient.t M),
    (sasl.applyOptions pre c = (c1, None) ->
     sasl.applyOptions (pre ++ post) c = sasl.applyOptions post c1)
    /\ (forall e, sasl.applyOptions pre c = (c1, Some e) ->
          sasl.applyOptions (pre ++ post) c = (c1, Some e)).
Proof.
  intros M pre post. induction pre as [|o pre IH]; intros c c1; cbn.
  - split; [intros [= <-]; reflexivity | discriminate].
  - destruct (o c) as [c' [e'|]].
    + split; [discriminate | intros e [= <- <-]; reflexivity].
    + apply IH.
Qed.

Lemma applyOptions_app_witness :
  sasl.applyOptions
    ([sasl.WithMinSSF 20; sasl.WithServerFQDN "invalid-.hostname"] ++ [sasl.WithMinSSF 30])
    (sasl_test.client ["MECH1"] [] 0)
  = (fst (sasl.WithMinSSF 20 (sasl_test.client ["MECH1"] [] 0)),
     Some (common.errorNew "bad hostname")).
Proof.
  refine (proj2 (applyOptions_app sasl_test.mockMech
                   [sasl.WithMinSSF 20; sasl.WithServerFQDN "invalid-.hostname"]
                   [sasl.WithMinSSF 30] (sasl_test.client ["MECH1"] [] 0) _) _ _).
  vm_compute. reflexivity.
Defined.

(** ** Channel bindings and the candidates *)

(** X11.  [supportsChannelBindings] holds exactly when some name of the
    list has the channel-binding feature in its registered descriptor. *)
Theorem supportsChannelBindings_iff :
  forall (M : Type) (mechs : gmap string (registry.mech.t M)) (l : list string),
    sasl.supportsChannelBindings mechs l = true
    <-> exists name,
          In name l
          /\ spec.hasBit (common.MechProps.Fearures (registry.Properties mechs name)) 6 = true.
Proof.
  intros M mechs l. induction l as [|mech rest IH]; cbn.
  - split; [discriminate | intros (? & [] & _)].
  - change common.FeatChannelBindings with (2 ^ 6). rewrite flag_set by lia.
    destruct (spec.hasBit (common.MechProps.Fearures (registry.Properties mechs mech)) 6)
      eqn:Hbit.
    + split; [intros _; exists mech; auto | reflexivity].
    + rewrite IH. split.
      * intros (name & Hin & Hname). exists name. auto.
      * intros (name & [<-|Hin] & Hname); [congruence | eauto].
Qed.

(** X12.  The channel-binding disposition.  Without a channel-binding
    request it is none.  It fails, with [ErrNoMech], exactly when the
    request is critical, the candidate list is not empty and no candidate
    supports channel bindings.  It is must only when the candidate list is
    empty, and [Start] then fails with [ErrNoMech] before any candidate is
    looked at: the channel-binding filter of the selection loop never
    rejects a candidate. *)
Theorem channelBindingDisposition_cases :
  forall (M : Type) (MechM : common.Mech M) (mechs : gmap string (registry.mech.t M))
         (c : sasl.SaslClient.t M),
    let r := sasl.SaslClient.channelBindingDisposition mechs c in
    (sasl.SaslClient.channelBindings c = None -> r = (sasl.channelBindingDispNone, None))
    /\ ((exists e, snd r = Some e)
        <-> exists cb,
              sasl.SaslClient.channelBindings c = Some cb
              /\ common.ChannelBinding.Critical cb = true
              /\ sasl.SaslClient.mechList c <> []
              /\ sasl.supportsChannelBindings mechs (sasl.SaslClient.mechList c) = false)
    /\ (forall e, snd r = Some e -> e = common.ErrNoMech)
    /\ (fst r = sasl.channelBindingDispMust ->
        sasl.SaslClient.mechList c = []
        /\ sasl.SaslClient.Start mechs c
           = Ok (sasl.SaslClient.set_mech c None, (None, Some common.ErrNoMech))).
Proof.
  intros M MechM mechs c r. subst r.
  unfold sasl.SaslClient.Start.
  change (sasl.SaslClient.channelBindingDisposition mechs (sasl.SaslClient.set_mech c None))
    with (sasl.SaslClient.channelBindingDisposition mechs c).
  change (sasl.SaslClient.mechList (sasl.SaslClient.set_mech c None))
    with (sasl.SaslClient.mechList c).
  unfold sasl.SaslClient.channelBindingDisposition.
  destruct (sasl.SaslClient.channelBindings c) as [cb|].
  2:{ split; [reflexivity|]. split; [|split; [discriminate|discriminate]].
      split; [intros [? ?]; discriminate | intros (? & ? & _); discriminate]. }
  split; [discriminate|].
  destruct (sasl.SaslClient.mechList c) as [|x l] eqn:Hl; cbn [length Nat.ltb Nat.leb].
  - destruct (common.ChannelBinding.Critical cb) eqn:Hcrit; cbn [fst snd].
    + split; [|split; [discriminate|]].
      * split; [intros [? ?]; discriminate | intros (? & _ & _ & Hne & _); contradiction].
      * intros _. split; reflexivity.
    + split; [|split; [discriminate|discriminate]].
      split; [intros [? ?]; discriminate | intros (? & _ & _ & Hne & _); contradiction].
  - destruct (sasl.supportsChannelBindings mechs (x :: l)) eqn:Hsup;
      destruct (common.ChannelBinding.Critical cb) eqn:Hcrit; cbn [negb andb fst snd].
    + split; [|split; [discriminate|discriminate]].
      split; [intros [? ?]; discriminate | intros (? & _ & _ & _ & ?); discriminate].
    + split; [|split; [discriminate|discriminate]].
      split; [intros [? ?]; discriminate | intros (? & _ & _ & _ & ?); discriminate].
    + split; [|split; [intros e [= <-]; reflexivity | discriminate]].
      split; [|eauto]. intros _. exists cb. repeat split; [exact Hcrit | discriminate].
    + split; [|split; [discriminate|discriminate]].
      split; [intros [? ?]; discriminate|].
      intros (cb' & [= <-] & Hc & _). congruence.
Qed.

Lemma channelBindingDisposition_cases_witness :
  sasl.SaslClient.channelBindingDisposition sasl_test.mechs
    (sasl_test.client ["MECH1"] [] 0)
  = (sasl.channelBindingDispNone, None).
Proof.
  refine (proj1 (channelBindingDisposition_cases sasl_test.mockMech _ sasl_test.mechs
                   (sasl_test.client ["MECH1"] [] 0)) _).
  reflexivity.
Defined.

Lemma chooseMech_skips_GSSAPI {M : Type} (mechs : gmap string (registry.mech.t M))
    (c : sasl.SaslClient.t M) (minSSF : Z) (d : sasl.channelBindingDisposition)
    (l : list string) :
  registry.Properties mechs gssapi.mechName = gssapi.registeredProps ->
  sasl.SaslClient.serverFQDN c = "" \/ sasl.SaslClient.needHTTP c = true ->
  sasl.SaslClient.chooseMech mechs c minSSF d l <> gssapi.mechName.
Proof.
  intros Hprops Hcase. induction l as [|mech rest IH]; [discriminate|].
  cbn [sasl.SaslClient.chooseMech]. cbv zeta.
  destruct (String.eqb_spec mech gssapi.mechName) as [->|Hne].
  - rewrite Hprops.
    repeat match goal with
           | |- context [if ?b then sasl.SaslClient.chooseMech _ _ _ _ rest else _] =>
               destruct b eqn:?; [exact IH|]
           end.
    exfalso. destruct Hcase as [Hfqdn|Hhttp].
    + rewrite Hfqdn in *. cbn in *. discriminate.
    + rewrite Hhttp in *. cbn in *. discriminate.
  - repeat match goal with
           | |- context [if ?b then sasl.SaslClient.chooseMech _ _ _ _ rest else _] =>
               destruct b; [exact IH|]
           end.
    exact Hne.
Qed.

(** X13.  When the selection loop chooses a mechanism registered with the
    descriptor of GSSAPI, the session has a server name and does not need
    HTTP: the descriptor requires the server name and does not declare HTTP
    support.  So the configuration [Start] hands to a GSSAPI mechanism has a
    non-empty [ServerFQDN] and never has [HTTPMode] set. *)
Theorem chooseMech_GSSAPI_config :
  forall (M : Type) (mechs : gmap string (registry.mech.t M)) (c : sasl.SaslClient.t M)
         (minSSF : Z) (d : sasl.channelBindingDisposition) (l : list string),
    registry.Properties mechs gssapi.mechName = gssapi.registeredProps ->
    sasl.SaslClient.chooseMech mechs c minSSF d l = gssapi.mechName ->
    common.MechConfig.ServerFQDN (sasl.SaslClient.mechConfig c) <> ""
    /\ common.MechConfig.HTTPMode (sasl.SaslClient.mechConfig c) = false.
Proof.
  intros M mechs c minSSF d l Hprops Hchosen.
  cbn [sasl.SaslClient.mechConfig common.MechConfig.ServerFQDN common.MechConfig.HTTPMode].
  split.
  - intros Hfqdn.
    apply (chooseMech_skips_GSSAPI mechs c minSSF d l Hprops (or_introl Hfqdn) Hchosen).
  - destruct (sasl.SaslClient.needHTTP c) eqn:Hhttp; [|reflexivity]. exfalso.
    apply (chooseMech_skips_GSSAPI mechs c minSSF d l Hprops (or_intror Hhttp) Hchosen).
Qed.

Lemma chooseMech_GSSAPI_config_witness :
  common.MechConfig.ServerFQDN
    (sasl.SaslClient.mechConfig
       (fst (sasl.WithServerFQDN "mail.example.org"
               (sasl_test.client ["MECH2"; "MECH1"] [] 0)))) <> ""
  /\ common.MechConfig.HTTPMode
       (sasl.SaslClient.mechConfig
          (fst (sasl.WithServerFQDN "mail.example.org"
                  (sasl_test.client ["MECH2"; "MECH1"] [] 0)))) = false.
Proof.
  refine (chooseMech_GSSAPI_config sasl_test.mockMech
            (<[gssapi.mechName :=
                 registry.mech.mk (fun _ => sasl_test.mockMech1) gssapi.registeredProps]>
               sasl_test.mechs)
            _ 0 sasl.channelBindingDispNone ["MECH2"; "GSSAPI"; "MECH1"] _ _).
  - reflexivity.
  - vm_compute. reflexivity.
Defined.

(** ** The negotiated layer *)

Section LayerProofs.
Context {C : Type} {GSS : gogssapi.Mech C}.

(** The reply records the peer's size whether or not [Wrap] succeeds, and
    ends established exactly when it returns no error. *)
Lemma replySSFCap_outcome (m : gssapi.GSSAPIMech.t C) (q : Z) (d1 d2 d3 : byte) :
  let r := gssapi.GSSAPIMech.replySSFCap m q d1 d2 d3 in
  let size := spec.bigEndian24 (byteVal d1) (byteVal d2) (byteVal d3) in
  gssapi.GSSAPIMech.maxOutputBufferSz (fst r)
  = (if 0 <? gssapi.GSSAPIMech.ssf m
     then gogssapi.WrapSizeLimit (gssapi.GSSAPIMech.client m) size
            (1 <? gssapi.GSSAPIMech.ssf m)
     else size)
  /\ ((snd (snd r) = None /\ gssapi.GSSAPIMech.state (fst r) = gssapi.stateAuthenticated)
      \/ (exists e, snd r = (None, Some e)
                    /\ gssapi.GSSAPIMech.state (fst r) = gssapi.GSSAPIMech.state m)).
Proof.
  cbv zeta. unfold gssapi.GSSAPIMech.replySSFCap. cbv zeta.
  rewrite decode_bigEndian24 by apply byteVal_range.
  change (gssapi.GSSAPIMech.ssf (gssapi.GSSAPIMech.set_maxOutputBufferSz m _))
    with (gssapi.GSSAPIMech.ssf m).
  rewrite !Z.gtb_ltb.
  match goal with |- context [gssapi.GSSAPIMech.wrapped ?m2 ?r] =>
    destruct (wrapped_cases m2 r) as [(cl & o & e & _ & ->)|(cl & o & _ & ->)]
  end; destruct (0 <? gssapi.GSSAPIMech.ssf m); cbn; eauto.
Qed.

(** X14.  A negotiation that succeeds never gives more than the allowed
    additional SSF, and gives at least the needed additional SSF, with one
    exception: integrity is accepted for a needed SSF of 2, and the
    negotiated SSF is then 1. *)
Theorem stepSSFCap_ssf_bounds :
  forall (m m' : gssapi.GSSAPIMech.t C) (tok out : slice),
    spec.boundsUint (gssapi.GSSAPIMech.config m) ->
    gssapi.GSSAPIMech.stepSSFCap m tok = (m', (out, None)) ->
    0 <= gssapi.GSSAPIMech.ssf m' <= spec.allowedSSF (gssapi.GSSAPIMech.config m)
    /\ (spec.neededSSF (gssapi.GSSAPIMech.config m) <= gssapi.GSSAPIMech.ssf m'
        \/ (gssapi.GSSAPIMech.ssf m' = 1
            /\ spec.neededSSF (gssapi.GSSAPIMech.config m) = 2)).
Proof.
  intros m m' tok out Hbounds Hok.
  destruct (gogssapi.Unwrap (gssapi.GSSAPIMech.client m) tok) as [cl [[data conf] uerr]]
    eqn:Hunwrap.
  pose proof (stepSSFCap_cases m tok cl data conf uerr Hunwrap) as Hcases.
  cbv zeta in Hcases.
  destruct Hcases as [(e & _ & Hstep)|[(_ & _ & Hstep)|(-> & d0 & d1 & d2 & d3 & -> & Hrest)]];
    try (rewrite Hstep in Hok; discriminate).
  destruct Hrest as [[_ Hstep]|[Hnotweak _]]; [rewrite Hstep in Hok; discriminate|].
  rewrite (stepSSFCap_negotiates m tok cl d0 d1 d2 d3 conf Hunwrap Hbounds Hnotweak) in Hok.
  cbv zeta in Hok.
  pose proof (gogssapi.SSF_uint cl) as Hchan. unfold isUint in Hchan.
  assert (Hallowed : 0 <= spec.allowedSSF (gssapi.GSSAPIMech.config m))
    by (unfold spec.allowedSSF; lia).
  assert (Hneeded : 0 <= spec.neededSSF (gssapi.GSSAPIMech.config m))
    by (unfold spec.neededSSF; lia).
  destruct (spec.confidentialityOK _ _ _ _) eqn:Hc.
  { destruct (replySSFCap_success _ _ _ _ _ _ _ Hok) as (_ & Hssf & _).
    cbn in Hssf. rewrite Hssf. unfold spec.confidentialityOK in Hc.
    apply andb_true_iff in Hc as [Hc Hn]. apply andb_true_iff in Hc as [_ Ha].
    apply Z.leb_le in Hn, Ha. lia. }
  destruct (spec.integrityOK _ _ _) eqn:Hi.
  { destruct (replySSFCap_success _ _ _ _ _ _ _ Hok) as (_ & Hssf & _).
    cbn in Hssf. rewrite Hssf. unfold spec.integrityOK in Hi.
    apply andb_true_iff in Hi as [Hi Hn]. apply andb_true_iff in Hi as [_ Ha].
    apply Z.leb_le in Hn, Ha. lia. }
  destruct (spec.noneOK _ _ _) eqn:Hn0; [|discriminate].
  destruct (replySSFCap_success _ _ _ _ _ _ _ Hok) as (_ & Hssf & _).
  cbn in Hssf. rewrite Hssf. unfold spec.noneOK in Hn0.
  apply andb_true_iff in Hn0 as [_ Hn]. apply Z.leb_le in Hn. lia.
Qed.

(** X15.  A step in the SSFCapability state either returns no error and
    leaves the mechanism authenticated, or returns an error together with a
    nil token and leaves the state as it was: the mechanism is established
    exactly when the step succeeded. *)
Theorem stepSSFCap_established_iff_ok :
  forall (m : gssapi.GSSAPIMech.t C) (tok : slice),
    let r := gssapi.GSSAPIMech.stepSSFCap m tok in
    (snd (snd r) = None /\ gssapi.GSSAPIMech.state (fst r) = gssapi.stateAuthenticated)
    \/ (exists e, snd r = (None, Some e)
                  /\ gssapi.GSSAPIMech.state (fst r) = gssapi.GSSAPIMech.state m).
Proof.
  intros m tok. cbv zeta.
  destruct (gogssapi.Unwrap (gssapi.GSSAPIMech.client m) tok) as [cl [[data conf] uerr]]
    eqn:Hunwrap.
  pose proof (stepSSFCap_cases m tok cl data conf uerr Hunwrap) as Hcases.
  cbv zeta in Hcases.
  destruct Hcases as [(e & _ & ->)|[(_ & _ & ->)|(_ & d0 & d1 & d2 & d3 & _ & Hrest)]];
    [right; cbn; eauto | right; cbn; eauto |].
  destruct Hrest as [[_ ->]|[_ [->|(k & q & s & _ & _ & _ & ->)]]];
    [right; cbn; eauto | right; cbn; eauto |].
  destruct (replySSFCap_outcome
              (gssapi.GSSAPIMech.set_ssf (gssapi.GSSAPIMech.set_client m cl) s) q d1 d2 d3)
    as [_ Hout].
  exact Hout.
Qed.

End LayerProofs.

(** Integrity accepted under a needed SSF of 2: the minimum is 2, the
    negotiated SSF 1. *)
Example stepSSFCap_integrity_below_minimum :
  let r := gssapi.GSSAPIMech.stepSSFCap
             (gssapi_test.negotiating (gssapi_test.config 2 40 0 65536) 7 56)
             (Some [x07; x00; x10; x00]) in
  snd r = (Some [x02; x01; x00; x00], None)
  /\ gssapi.GSSAPIMech.ssf (fst r) = 1
  /\ common.MechConfig.MinSSF (gssapi.GSSAPIMech.config (fst r)) = 2.
Proof. vm_compute. repeat split; reflexivity. Qed.

Lemma stepSSFCap_ssf_bounds_witness :
  0 <= 1 <= spec.allowedSSF (gssapi_test.config 2 40 0 65536)
  /\ (spec.neededSSF (gssapi_test.config 2 40 0 65536) <= 1
      \/ (1 = 1 /\ spec.neededSSF (gssapi_test.config 2 40 0 65536) = 2)).
Proof.
  refine (stepSSFCap_ssf_bounds
            (gssapi_test.negotiating (gssapi_test.config 2 40 0 65536) 7 56)
            (gssapi.GSSAPIMech.mk (gssapi_test.config 2 40 0 65536)
               (gssapi_test.loopback.mk 50 true 56) 7 1 gssapi.stateAuthenticated 4096)
            (Some [x07; x00; x10; x00]) (Some [x02; x01; x00; x00]) _ _).
  - unfold spec.boundsUint, isUint, uintSize. cbn. lia.
  - vm_compute. reflexivity.
Defined.

(** ** Invariants of the handshake *)

Section InvariantProofs.
Context {C : Type} {GSS : gogssapi.Mech C}.

(** What a step in the state [stateAuthenticating] may write besides the
    state and the context: the set of supported layers, to one of three
    values. *)
Lemma stepAuthenticating_fields (m : gssapi.GSSAPIMech.t C) (tok : slice) :
  let m' := fst (gssapi.GSSAPIMech.stepAuthenticating m tok) in
  gssapi.GSSAPIMech.ssf m' = gssapi.GSSAPIMech.ssf m
  /\ gssapi.GSSAPIMech.maxOutputBufferSz m' = gssapi.GSSAPIMech.maxOutputBufferSz m
  /\ (gssapi.GSSAPIMech.qop m' = gssapi.GSSAPIMech.qop m
      \/ gssapi.GSSAPIMech.qop m' = 1 \/ gssapi.GSSAPIMech.qop m' = 3
      \/ gssapi.GSSAPIMech.qop m' = 7).
Proof.
  cbv zeta. unfold gssapi.GSSAPIMech.stepAuthenticating.
  destruct tok as [t|].
  - destruct (gogssapi.Continue _ _) as [cl [o e]]. cbv zeta.
    destruct (gogssapi.IsEstablished cl); [destruct (common.MechConfig.HTTPMode _)|];
      cbn; auto.
  - destruct (String.length _ =? 0)%nat; [cbn; auto|].
    destruct (gogssapi.Initiate _ _ _ _) as [cl [err|]]; [cbn; auto|].
    cbv zeta.
    destruct (Z.land (gogssapi.ContextFlags cl) gogssapi.ContextFlagInteg =? 0);
      [|destruct (Z.land (gogssapi.ContextFlags cl) gogssapi.ContextFlagConf =? 0)];
      destruct (gogssapi.Continue _ _) as [cl' [o e]]; cbv zeta;
      (destruct (gogssapi.IsEstablished cl'); [destruct (common.MechConfig.HTTPMode _)|]);
      cbn; (split; [reflexivity|]); (split; [reflexivity|]);
      first [ right; left; reflexivity
            | right; right; left; reflexivity
            | right; right; right; reflexivity ].
Qed.

Lemma stepSSFCap_qop (m : gssapi.GSSAPIMech.t C) (tok : slice) :
  gssapi.GSSAPIMech.qop (fst (gssapi.GSSAPIMech.stepSSFCap m tok)) = gssapi.GSSAPIMech.qop m.
Proof.
  destruct (gogssapi.Unwrap (gssapi.GSSAPIMech.client m) tok) as [cl [[data conf] uerr]]
    eqn:Hunwrap.
  pose proof (stepSSFCap_cases m tok cl data conf uerr Hunwrap) as Hcases.
  cbv zeta in Hcases.
  destruct Hcases as [(e & _ & ->)|[(_ & _ & ->)|(_ & d0 & d1 & d2 & d3 & _ & Hrest)]];
    [reflexivity | reflexivity |].
  destruct Hrest as [[_ ->]|[_ [->|(k & q & s & _ & _ & _ & ->)]]];
    [reflexivity | reflexivity |].
  destruct (replySSFCap_fields
              (gssapi.GSSAPIMech.set_ssf (gssapi.GSSAPIMech.set_client m cl) s) q d1 d2 d3)
    as (_ & _ & Hqop & _).
  exact Hqop.
Qed.

(** The invariant of a handshake in HTTP mode. *)
Lemma Step_http_invariant (m : gssapi.GSSAPIMech.t C) (tok : slice) :
  common.MechConfig.HTTPMode (gssapi.GSSAPIMech.config m) = true ->
  gssapi.GSSAPIMech.state m <> gssapi.stateSSFCap ->
  gssapi.GSSAPIMech.ssf m = 0 ->
  gssapi.GSSAPIMech.maxOutputBufferSz m = 0 ->
  let m' := fst (gssapi.GSSAPIMech.Step m tok) in
  common.MechConfig.HTTPMode (gssapi.GSSAPIMech.config m') = true
  /\ gssapi.GSSAPIMech.state m' <> gssapi.stateSSFCap
  /\ gssapi.GSSAPIMech.ssf m' = 0
  /\ gssapi.GSSAPIMech.maxOutputBufferSz m' = 0.
Proof.
  intros Hhttp Hstate Hssf Hmax. cbv zeta.
  destruct (Step_transition m tok) as [Hcfg Htr]. cbv zeta in Hcfg, Htr.
  rewrite Hcfg, Hhttp. split; [reflexivity|]. split.
  - intros Heq. rewrite Hhttp, Heq in Htr.
    remember (gssapi.GSSAPIMech.state m) as s0 eqn:Hs0.
    inversion Htr; subst; congruence.
  - unfold gssapi.GSSAPIMech.Step.
    destruct (gssapi.GSSAPIMech.state m) eqn:Hst; [|congruence|cbn; auto].
    destruct (stepAuthenticating_fields m tok) as (H1 & H2 & _).
    cbv zeta in H1, H2. rewrite H1, H2. auto.
Qed.

(** X16.  In HTTP mode no security layer is ever negotiated: after any
    sequence of steps of a new mechanism the state is not SSFCapability, the
    negotiated SSF and the peer's message size are 0, and the mechanism's
    [Encode] fails. *)
Theorem http_mode_no_layer :
  forall (cfg : common.MechConfig.t) (tokens : list slice),
    common.MechConfig.HTTPMode cfg = true ->
    let m := steps (gssapi.NewMech (C := C) cfg) tokens in
    gssapi.GSSAPIMech.state m <> gssapi.stateSSFCap
    /\ gssapi.GSSAPIMech.ContextParams m = common.ContextParams.mk 0 0
    /\ forall input,
         gssapi.GSSAPIMech.Encode m input
         = (m, (None, Some (common.errorNew
                              "can't encode data: no security layer negotiated"))).
Proof.
  intros cfg tokens Hhttp.
  assert (Hinv : forall (toks : list slice) (m0 : gssapi.GSSAPIMech.t C),
            common.MechConfig.HTTPMode (gssapi.GSSAPIMech.config m0) = true ->
            gssapi.GSSAPIMech.state m0 <> gssapi.stateSSFCap ->
            gssapi.GSSAPIMech.ssf m0 = 0 ->
            gssapi.GSSAPIMech.maxOutputBufferSz m0 = 0 ->
            gssapi.GSSAPIMech.state (steps m0 toks) <> gssapi.stateSSFCap
            /\ gssapi.GSSAPIMech.ssf (steps m0 toks) = 0
            /\ gssapi.GSSAPIMech.maxOutputBufferSz (steps m0 toks) = 0).
  { induction toks as [|tok rest IH]; intros m0 H1 H2 H3 H4; cbn [steps]; [auto|].
    destruct (Step_http_invariant m0 tok H1 H2 H3 H4) as (K1 & K2 & K3 & K4).
    apply IH; assumption. }
  destruct (Hinv tokens (gssapi.NewMech cfg) Hhttp ltac:(discriminate) eq_refl eq_refl)
    as (Hs & Hssf & Hmax).
  cbv zeta. split; [exact Hs|]. split.
  - unfold gssapi.GSSAPIMech.ContextParams. rewrite Hssf, Hmax. reflexivity.
  - intros input. unfold gssapi.GSSAPIMech.Encode. rewrite Hssf. reflexivity.
Qed.

(** X17.  Over any sequence of steps of a new mechanism the configuration
    is never written, the set of locally supported layers is empty (before
    the context is initiated) or one of {none}, {none, integrity} and {none,
    integrity, confidentiality}, and in the state Authenticating nothing is
    negotiated yet: the SSF and the peer's message size are 0. *)
Theorem steps_invariant :
  forall (cfg : common.MechConfig.t) (tokens : list slice),
    let m := steps (gssapi.NewMech (C := C) cfg) tokens in
    gssapi.GSSAPIMech.config m = cfg
    /\ In (gssapi.GSSAPIMech.qop m) [0; 1; 3; 7]
    /\ (gssapi.GSSAPIMech.state m = gssapi.stateAuthenticating ->
        gssapi.GSSAPIMech.ContextParams m = common.ContextParams.mk 0 0).
Proof.
  intros cfg tokens.
  assert (Hinv : forall (toks : list slice) (m0 : gssapi.GSSAPIMech.t C),
            In (gssapi.GSSAPIMech.qop m0) [0; 1; 3; 7] ->
            (gssapi.GSSAPIMech.state m0 = gssapi.stateAuthenticating ->
             gssapi.GSSAPIMech.ssf m0 = 0 /\ gssapi.GSSAPIMech.maxOutputBufferSz m0 = 0) ->
            gssapi.GSSAPIMech.config (steps m0 toks) = gssapi.GSSAPIMech.config m0
            /\ In (gssapi.GSSAPIMech.qop (steps m0 toks)) [0; 1; 3; 7]
            /\ (gssapi.GSSAPIMech.state (steps m0 toks) = gssapi.stateAuthenticating ->
                gssapi.GSSAPIMech.ssf (steps m0 toks) = 0
                /\ gssapi.GSSAPIMech.maxOutputBufferSz (steps m0 toks) = 0)).
  { induction toks as [|tok rest IH]; intros m0 Hq Hauth; cbn [steps]; [auto|].
    destruct (Step_transition m0 tok) as [Hcfg Htr]. cbv zeta in Hcfg, Htr.
    rewrite <- Hcfg. apply IH.
    - unfold gssapi.GSSAPIMech.Step.
      destruct (gssapi.GSSAPIMech.state m0); [| |exact Hq].
      + destruct (stepAuthenticating_fields m0 tok) as (_ & _ & [->|[->|[->| ->]]]);
          cbn; auto.
      + rewrite stepSSFCap_qop. exact Hq.
    - intros Hst. apply transition_rank in Htr. rewrite Hst in Htr.
      destruct (gssapi.GSSAPIMech.state m0) eqn:Hst0; cbn in Htr; try lia.
      unfold gssapi.GSSAPIMech.Step. rewrite Hst0.
      destruct (stepAuthenticating_fields m0 tok) as (H1 & H2 & _).
      cbv zeta in H1, H2. rewrite H1, H2. apply Hauth. reflexivity. }
  destruct (Hinv tokens (gssapi.NewMech cfg)) as (Hcfg & Hq & Hauth).
  - cbn. auto.
  - intros _. split; reflexivity.
  - cbv zeta. split; [exact Hcfg|]. split; [exact Hq|].
    intros Hst. unfold gssapi.GSSAPIMech.ContextParams.
    destruct (Hauth Hst) as [H1 H2]. rewrite H1, H2. reflexivity.
Qed.

End InvariantProofs.

Lemma http_mode_no_layer_witness :
  gssapi.GSSAPIMech.state
    (steps (gssapi.NewMech (C := gssapi_test.loopback.t)
              (common.MechConfig.mk "HTTP" "www.example.org" 0 256 65536 0 0 true ∅ None))
       [None; Some [x60]])
  <> gssapi.stateSSFCap
  /\ gssapi.GSSAPIMech.ContextParams
       (steps (gssapi.NewMech (C := gssapi_test.loopback.t)
                 (common.MechConfig.mk "HTTP" "www.example.org" 0 256 65536 0 0 true ∅ None))
          [None; Some [x60]])
     = common.ContextParams.mk 0 0
  /\ forall input,
       gssapi.GSSAPIMech.Encode
         (steps (gssapi.NewMech (C := gssapi_test.loopback.t)
                   (common.MechConfig.mk "HTTP" "www.example.org" 0 256 65536 0 0 true ∅ None))
            [None; Some [x60]]) input
       = (steps (gssapi.NewMech (C := gssapi_test.loopback.t)
                   (common.MechConfig.mk "HTTP" "www.example.org" 0 256 65536 0 0 true ∅ None))
            [None; Some [x60]],
          (None, Some (common.errorNew "can't encode data: no security layer negotiated"))).
Proof.
  refine (http_mode_no_layer
            (common.MechConfig.mk "HTTP" "www.example.org" 0 256 65536 0 0 true ∅ None)
            [None; Some [x60]] _).
  reflexivity.
Defined.

(** ** Application data under a security layer *)

(** X18.  With a negotiated layer (SSF above 0) and a context whose
    [Unwrap] undoes its [Wrap], [Decode] of what [Encode] returned is the
    input again; neither call changes the negotiated SSF, the state or the
    configuration. *)
Theorem Encode_Decode_roundtrip :
  forall (C : Type) (GSS : gogssapi.Mech C) (m m1 : gssapi.GSSAPIMech.t C)
         (input tok : slice),
    (forall c data conf c1 t,
        gogssapi.Wrap c data conf = (c1, (t, None)) ->
        exists c2 conf', gogssapi.Unwrap c1 t = (c2, (data, conf', None))) ->
    gssapi.GSSAPIMech.ssf m <> 0 ->
    gssapi.GSSAPIMech.Encode m input = (m1, (tok, None)) ->
    exists m2,
      gssapi.GSSAPIMech.Decode m1 tok = (m2, (input, None))
      /\ gssapi.GSSAPIMech.ssf m2 = gssapi.GSSAPIMech.ssf m
      /\ gssapi.GSSAPIMech.state m2 = gssapi.GSSAPIMech.state m
      /\ gssapi.GSSAPIMech.config m2 = gssapi.GSSAPIMech.config m.
Proof.
  intros C GSS m m1 input tok Hinverse Hssf.
  unfold gssapi.GSSAPIMech.Encode, gssapi.GSSAPIMech.Decode.
  destruct (Z.eqb_spec (gssapi.GSSAPIMech.ssf m) 0) as [|_]; [contradiction|].
  destruct (gogssapi.Wrap _ _ _) as [cl [out err]] eqn:Hwrap.
  destruct err as [e|]; [discriminate|]. cbn [option_map].
  intros [= <- <-]. cbn [gssapi.GSSAPIMech.ssf gssapi.GSSAPIMech.set_client
                         gssapi.GSSAPIMech.client].
  destruct (Z.eqb_spec (gssapi.GSSAPIMech.ssf m) 0) as [|_]; [contradiction|].
  destruct (Hinverse _ _ _ _ _ Hwrap) as (c2 & conf' & Hunwrap).
  rewrite Hunwrap. eexists. split; [reflexivity|]. cbn. auto.
Qed.

Lemma Encode_Decode_roundtrip_witness :
  exists m2,
    gssapi.GSSAPIMech.Decode
      (gssapi.GSSAPIMech.mk (gssapi_test.config 0 256 0 65536)
         (gssapi_test.loopback.mk 50 true 56) 7 56 gssapi.stateAuthenticated 4096)
      (Some [x68; x69])
    = (m2, (Some [x68; x69], None))
    /\ gssapi.GSSAPIMech.ssf m2 = 56
    /\ gssapi.GSSAPIMech.state m2 = gssapi.stateAuthenticated
    /\ gssapi.GSSAPIMech.config m2 = gssapi_test.config 0 256 0 65536.
Proof.
  refine (Encode_Decode_roundtrip gssapi_test.loopback.t _
            (gssapi.GSSAPIMech.mk (gssapi_test.config 0 256 0 65536)
               (gssapi_test.loopback.mk 50 true 56) 7 56 gssapi.stateAuthenticated 4096)
            _ (Some [x68; x69]) (Some [x68; x69]) _ _ _).
  - intros c data conf c1 t [= <- <-]. exists c, false. reflexivity.
  - discriminate.
  - reflexivity.
Defined.

(** X19.  As long as the sum of the channel's SSF and the external SSF is
    itself a [uint], a step on a token that unwraps to four bytes fails
    with [ErrTooWeak] exactly when that sum is below the required minimum
    SSF, and the error then carries the channel's SSF, the external SSF and
    the required minimum. *)
Theorem stepSSFCap_TooWeak_in_range :
  forall (C : Type) (GSS : gogssapi.Mech C) (m : gssapi.GSSAPIMech.t C) (tok : slice)
         (cl : C) (d0 d1 d2 d3 : byte) (conf : bool),
    gogssapi.Unwrap (gssapi.GSSAPIMech.client m) tok
    = (cl, (Some [d0; d1; d2; d3], conf, None)) ->
    isUint (common.MechConfig.ExternalSSF (gssapi.GSSAPIMech.config m)) ->
    gogssapi.SSF cl + common.MechConfig.ExternalSSF (gssapi.GSSAPIMech.config m) < uintSize ->
    ((exists a b c,
        snd (snd (gssapi.GSSAPIMech.stepSSFCap m tok)) = Some (common.ErrTooWeak a b c))
     <-> gogssapi.SSF cl + common.MechConfig.ExternalSSF (gssapi.GSSAPIMech.config m)
         < common.MechConfig.MinSSF (gssapi.GSSAPIMech.config m))
    /\ (gogssapi.SSF cl + common.MechConfig.ExternalSSF (gssapi.GSSAPIMech.config m)
        < common.MechConfig.MinSSF (gssapi.GSSAPIMech.config m) ->
        gssapi.GSSAPIMech.stepSSFCap m tok
        = (gssapi.GSSAPIMech.set_client m cl,
           (None, Some (common.ErrTooWeak (gogssapi.SSF cl)
                          (common.MechConfig.ExternalSSF (gssapi.GSSAPIMech.config m))
                          (common.MechConfig.MinSSF (gssapi.GSSAPIMech.config m)))))).
Proof.
  intros C GSS m tok cl d0 d1 d2 d3 conf Hunwrap Hext Hsum.
  exact (stepSSFCap_TooWeak_iff m tok cl d0 d1 d2 d3 conf Hunwrap Hext Hsum).
Qed.

Lemma stepSSFCap_TooWeak_in_range_witness :
  gssapi.GSSAPIMech.stepSSFCap
    (gssapi_test.negotiating (gssapi_test.config 128 256 15 65536) 7 56)
    (Some [x07; x00; x10; x00])
  = (gssapi.GSSAPIMech.set_client
       (gssapi_test.negotiating (gssapi_test.config 128 256 15 65536) 7 56)
       (gssapi_test.loopback.mk 50 true 56),
     (None, Some (common.ErrTooWeak
                    (gogssapi.SSF (gssapi_test.loopback.mk 50 true 56))
                    (common.MechConfig.ExternalSSF (gssapi_test.config 128 256 15 65536))
                    (common.MechConfig.MinSSF (gssapi_test.config 128 256 15 65536))))).
Proof.
  refine (proj2 (stepSSFCap_TooWeak_in_range gssapi_test.loopback.t _
                   (gssapi_test.negotiating (gssapi_test.config 128 256 15 65536) 7 56)
                   (Some [x07; x00; x10; x00]) (gssapi_test.loopback.mk 50 true 56)
                   x07 x00 x10 x00 false _ _ _) _).
  - reflexivity.
  - unfold isUint, uintSize. cbn. lia.
  - vm_compute. reflexivity.
  - vm_compute. reflexivity.
Defined.

(** X20.  The reply of one mechanism read by another: the size that the
    reply carries in bytes 1-3, [min(MaxBufSize, 0xFFFFFF)] of the sender,
    is the size the receiving code decodes from those bytes and records as
    the peer's maximum message size (when it negotiates no layer of its own
    to clamp it). *)
Theorem reply_size_roundtrip :
  forall (C : Type) (GSS : gogssapi.Mech C) (mA mB : gssapi.GSSAPIMech.t C)
         (q qB : Z) (a1 a2 a3 : byte),
    isUint (common.MechConfig.MaxBufSize (gssapi.GSSAPIMech.config mA)) ->
    1 < q < 256 ->
    gssapi.GSSAPIMech.ssf mB = 0 ->
    exists mA' b0 b1 b2 b3,
      gssapi.GSSAPIMech.replySSFCap mA q a1 a2 a3
      = gssapi.GSSAPIMech.wrapped mA'
          (gogssapi.Wrap (gssapi.GSSAPIMech.client mA) (Some [b0; b1; b2; b3]) false)
      /\ byteVal b0 = q
      /\ gssapi.GSSAPIMech.maxOutputBufferSz
           (fst (gssapi.GSSAPIMech.replySSFCap mB qB b1 b2 b3))
         = Z.min (common.MechConfig.MaxBufSize (gssapi.GSSAPIMech.config mA)) 16777215.
Proof.
  intros C GSS mA mB q qB a1 a2 a3 Hbuf Hq HssfB.
  destruct (replySSFCap_wraps mA q a1 a2 a3 Hbuf ltac:(lia)) as (payload & Hreply & Hbytes).
  replace (1 <? q) with true in Hbytes by (symmetry; apply Z.ltb_lt; lia).
  destruct payload as [|b0 [|b1 [|b2 [|b3 [|b4 rest]]]]]; try discriminate.
  cbn [map] in Hbytes. injection Hbytes as H0 H1 H2 H3.
  eexists _, b0, b1, b2, b3. split; [exact Hreply|]. split; [exact H0|].
  destruct (replySSFCap_outcome mB qB b1 b2 b3) as [Hmax _]. cbv zeta in Hmax.
  rewrite Hmax, HssfB. cbn [Z.ltb Z.compare].
  rewrite H1, H2, H3. apply bigEndian24_digits.
Qed.

Lemma reply_size_roundtrip_witness :
  exists mA' b0 b1 b2 b3,
    gssapi.GSSAPIMech.replySSFCap
      (gssapi_test.negotiating (gssapi_test.config 0 256 0 65793) 7 56) 4 x00 x10 x00
    = gssapi.GSSAPIMech.wrapped mA'
        (gogssapi.Wrap (gssapi_test.loopback.mk 50 true 56) (Some [b0; b1; b2; b3]) false)
    /\ byteVal b0 = 4
    /\ gssapi.GSSAPIMech.maxOutputBufferSz
         (fst (gssapi.GSSAPIMech.replySSFCap
                 (gssapi_test.negotiating (gssapi_test.config 0 0 0 4096) 1 0) 1 b1 b2 b3))
       = Z.min 65793 16777215.
Proof.
  refine (reply_size_roundtrip gssapi_test.loopback.t _
            (gssapi_test.negotiating (gssapi_test.config 0 256 0 65793) 7 56)
            (gssapi_test.negotiating (gssapi_test.config 0 0 0 4096) 1 0)
            4 1 x00 x10 x00 _ _ _).
  - unfold isUint, uintSize. cbn. lia.
  - lia.
  - reflexivity.
Defined.

(** ** The first step of the handshake *)

(** X21.  The first step of a new mechanism with a server name, run on the
    recording context: the context is initiated for the principal
    "service/hostname", with the caller's channel-binding data, and with the
    flags mutual and sequence always, integrity exactly when the allowed
    additional SSF is at least 1 and confidentiality exactly when it is at
    least 2.  As the context grants what was asked, the supported layers are
    {none}, {none, integrity} or all three accordingly, and the state moves
    to SSFCapability, or to Authenticated in HTTP mode. *)
Theorem first_step_requests :
  forall cfg : common.MechConfig.t,
    spec.boundsUint cfg ->
    common.MechConfig.ServerFQDN cfg <> "" ->
    let m := fst (gssapi.GSSAPIMech.Step
                    (gssapi.NewMech (C := gssapi_test.recorder.t) cfg) None) in
    let cl := gssapi.GSSAPIMech.client m in
    gssapi_test.recorder.principal cl
    = common.MechConfig.Service cfg +:+ "/" +:+ common.MechConfig.ServerFQDN cfg
    /\ gssapi_test.recorder.binding cl
       = option_map common.ChannelBinding.Data (common.MechConfig.ChannelBinding cfg)
    /\ spec.hasBit (gssapi_test.recorder.requested cl) 1 = true
    /\ spec.hasBit (gssapi_test.recorder.requested cl) 3 = true
    /\ spec.hasBit (gssapi_test.recorder.requested cl) 5 = (1 <=? spec.allowedSSF cfg)
    /\ spec.hasBit (gssapi_test.recorder.requested cl) 4 = (2 <=? spec.allowedSSF cfg)
    /\ gssapi.GSSAPIMech.qop m
       = (if 2 <=? spec.allowedSSF cfg then 7
          else if 1 <=? spec.allowedSSF cfg then 3 else 1)
    /\ gssapi.GSSAPIMech.state m
       = (if common.MechConfig.HTTPMode cfg then gssapi.stateAuthenticated
          else gssapi.stateSSFCap).
Proof.
  intros [svc fqdn minSSF maxSSF buf ext sp http extra cb] (Hmin & Hmax & Hext) Hfqdn.
  unfold isUint in *. cbn in Hmin, Hmax, Hext, Hfqdn.
  cbv zeta. unfold gssapi.NewMech, gssapi.GSSAPIMech.Step.
  cbn [gssapi.GSSAPIMech.state]. unfold gssapi.GSSAPIMech.stepAuthenticating.
  cbn [gssapi.GSSAPIMech.config gssapi.GSSAPIMech.client common.MechConfig.ServerFQDN
       common.MechConfig.MaxSSF common.MechConfig.ExternalSSF common.MechConfig.HTTPMode
       common.MechConfig.ChannelBinding common.MechConfig.Service].
  destruct fqdn as [|a fqdn]; [contradiction|].
  cbn [String.length Nat.eqb].
  unfold spec.allowedSSF.
  cbn [common.MechConfig.MaxSSF common.MechConfig.ExternalSSF].
  destruct (Z.gtb_spec maxSSF ext) as [Hgt|Hle].
  - rewrite usub_small by lia.
    destruct (Z.gtb_spec (maxSSF - ext) 1) as [Hgt1|Hle1].
    + replace (1 <=? _) with true by (symmetry; apply Z.leb_le; lia).
      replace (2 <=? _) with true by (symmetry; apply Z.leb_le; lia).
      destruct cb; destruct http; repeat split; vm_compute; reflexivity.
    + replace (1 <=? _) with true by (symmetry; apply Z.leb_le; lia).
      replace (2 <=? _) with false by (symmetry; apply Z.leb_gt; lia).
      destruct cb; destruct http; repeat split; vm_compute; reflexivity.
  - replace (1 <=? _) with false by (symmetry; apply Z.leb_gt; lia).
    replace (2 <=? _) with false by (symmetry; apply Z.leb_gt; lia).
    destruct cb; destruct http; repeat split; vm_compute; reflexivity.
Qed.

Lemma first_step_requests_witness :
  gssapi_test.recorder.principal
    (gssapi.GSSAPIMech.client
       (fst (gssapi.GSSAPIMech.Step
               (gssapi.NewMech (C := gssapi_test.recorder.t)
                  (gssapi_test.config 0 1 0 65536)) None)))
  = "imap" +:+ "/" +:+ "mail.example.org"
  /\ gssapi.GSSAPIMech.qop
       (fst (gssapi.GSSAPIMech.Step
               (gssapi.NewMech (C := gssapi_test.recorder.t)
                  (gssapi_test.config 0 1 0 65536)) None))
     = 3.
Proof.
  pose proof (first_step_requests (gssapi_test.config 0 1 0 65536)) as H.
  cbv zeta in H.
  assert (Hb : spec.boundsUint (gssapi_test.config 0 1 0 65536))
    by (unfold spec.boundsUint, isUint, uintSize; cbn; lia).
  assert (Hn : common.MechConfig.ServerFQDN (gssapi_test.config 0 1 0 65536) <> "")
    by discriminate.
  destruct (H Hb Hn) as (Hp & _ & _ & _ & _ & _ & Hq & _).
  split; [exact Hp | exact Hq].
Defined.

(** ** Flag lists *)

Lemma flagLoop_spec (f : Z) (n : nat) :
  forall (i : nat) (t : Z) (fl : list Z),
    (i + n <= 32)%nat ->
    (n <> 0%nat -> t = 2 ^ Z.of_nat i) ->
    common.flagLoop n f t fl
    = fl ++ map (fun k => 2 ^ Z.of_nat k)
              (List.filter (fun k => Z.testbit f (Z.of_nat k)) (List.seq i n)).
Proof.
  induction n as [|n IH]; intros i t fl Hle Ht; cbn [common.flagLoop List.seq List.filter map].
  - rewrite app_nil_r. reflexivity.
  - rewrite (Ht ltac:(discriminate)). cbv zeta.
    rewrite flag_clear by lia. unfold spec.hasBit. rewrite negb_involutive.
    rewrite (IH (S i)).
    + destruct (Z.testbit f (Z.of_nat i)); cbn [map].
      * rewrite <- app_assoc. reflexivity.
      * reflexivity.
    + lia.
    + intros Hn. rewrite Z.shiftl_mul_pow2 by lia.
      unfold u32, uint32Size. rewrite Z.mod_small.
      * rewrite Nat2Z.inj_succ, Z.pow_succ_r by lia. lia.
      * assert (Hpow : 2 ^ Z.succ (Z.of_nat i) < 2 ^ 32) by (apply Z.pow_lt_mono_r; lia).
        rewrite Z.pow_succ_r in Hpow by lia.
        assert (0 < 2 ^ Z.of_nat i) by (apply Z.pow_pos_nonneg; lia).
        change (2 ^ 1) with 2. lia.
Qed.

Lemma flagLoop_32_In (f x : Z) :
  In x (common.flagLoop 32 f 1 [])
  <-> exists k, 0 <= k < 32 /\ x = 2 ^ k /\ Z.testbit f k = true.
Proof.
  rewrite (flagLoop_spec f 32 0 1 []) by (cbn; auto; lia). cbn [app].
  rewrite in_map_iff. split.
  - intros (k & <- & Hin). apply filter_In in Hin as [Hseq Hbit].
    apply in_seq in Hseq. exists (Z.of_nat k). split; [lia | auto].
  - intros (k & Hk & -> & Hbit). exists (Z.to_nat k).
    rewrite Z2Nat.id by lia. split; [reflexivity|].
    apply filter_In. split; [apply in_seq; lia|]. rewrite Z2Nat.id by lia. exact Hbit.
Qed.

Lemma lor_fold_testbit (l : list Z) (k : Z) :
  Z.testbit (fold_right Z.lor 0 l) k = true <-> exists x, In x l /\ Z.testbit x k = true.
Proof.
  induction l as [|y l IH]; cbn [fold_right In].
  - rewrite Z.bits_0. split; [discriminate | intros (? & [] & _)].
  - rewrite Z.lor_spec, orb_true_iff, IH. split.
    + intros [H|(x & Hin & Hx)]; eauto.
    + intros (x & [<-|Hin] & Hx); eauto.
Qed.

Lemma flagLoop_32_roundtrip (f : Z) :
  0 <= f < 2 ^ 32 -> fold_right Z.lor 0 (common.flagLoop 32 f 1 []) = f.
Proof.
  intros Hf. apply Z.bits_inj'. intros k Hk. apply eq_true_iff_eq.
  rewrite lor_fold_testbit. split.
  - intros (x & Hin & Hx). destruct (proj1 (flagLoop_32_In f x) Hin) as (j & Hj & -> & Hbit).
    rewrite Z.pow2_bits_eqb in Hx by lia. apply Z.eqb_eq in Hx as ->. exact Hbit.
  - intros Hbit. exists (2 ^ k). split.
    + apply (proj2 (flagLoop_32_In f (2 ^ k))). exists k. split; [|auto]. split; [exact Hk|].
      destruct (Z.lt_ge_cases k 32) as [|Hge]; [assumption|].
      rewrite (testbit_above f 32 k) in Hbit by lia. discriminate.
    + rewrite Z.pow2_bits_eqb by lia. apply Z.eqb_refl.
Qed.

(** X22.  [FlagList] returns the individual flags of its argument: a value
    is in the list exactly when it is a single bit, among the 32, that is
    set in the argument, so the flags of the list or-ed together give the
    argument back.  [FlagName] has a description for the seven defined
    properties and "Unknown" for every other value; each flag of a set of
    defined properties has a description. *)
Theorem FlagList_flags :
  forall f : Z,
    (forall x, In x (common.FlagList f)
               <-> exists k, 0 <= k < 32 /\ x = 2 ^ k /\ Z.testbit f k = true)
    /\ (0 <= f < 2 ^ 32 -> fold_right Z.lor 0 (common.FlagList f) = f)
    /\ (forall x, common.FlagName x <> "Unknown" <-> In x [1; 2; 4; 8; 16; 32; 64])
    /\ (0 <= f < 128 ->
        forall x, In x (common.FlagList f) -> common.FlagName x <> "Unknown").
Proof.
  intros f.
  assert (Hname : forall x, common.FlagName x <> "Unknown" <-> In x [1; 2; 4; 8; 16; 32; 64]).
  { intros x. unfold common.FlagName. cbn [In].
    repeat match goal with
           | |- context [if ?a =? ?b then _ else _] =>
               destruct (Z.eqb_spec a b) as [->|?];
               [split; [intros _; cbv; tauto | intros _; discriminate]|]
           end.
    split; [intros H; exfalso; apply H; reflexivity|].
    unfold common.SecNoPlainText, common.SecNoActive, common.SecNoDictionary,
      common.SecForwardSecrecy, common.SecNoAnonymous, common.SecPassCredentials,
      common.SecMutualAuth in *.
    intros H. exfalso. lia. }
  unfold common.FlagList.
  split; [intros x; exact (flagLoop_32_In f x)|].
  split; [exact (flagLoop_32_roundtrip f)|]. split; [exact Hname|].
  intros Hf x Hin. unfold common.FlagList in Hin.
  destruct (proj1 (flagLoop_32_In f x) Hin) as (k & Hk & -> & Hbit).
  apply Hname.
  assert (Hk7 : k < 7).
  { destruct (Z.lt_ge_cases k 7) as [|Hge]; [assumption|].
    rewrite (testbit_above f 7 k) in Hbit by (change (2 ^ 7) with 128; lia). discriminate. }
  assert (Hcases : k = 0 \/ k = 1 \/ k = 2 \/ k = 3 \/ k = 4 \/ k = 5 \/ k = 6) by lia.
  destruct Hcases as [->|[->|[->|[->|[->|[->| ->]]]]]]; cbv; tauto.
Qed.

(** X23.  [FeatureList] returns the individual features of its argument: a
    value is in the list exactly when it is a single bit, among the 32, that
    is set in the argument, and the features of the list or-ed together give
    the argument back.  [FeatureName] has a description for the seven
    defined features and "Unknown" for every other value. *)
Theorem FeatureList_flags :
  forall f : Z,
    (forall x, In x (common.FeatureList f)
               <-> exists k, 0 <= k < 32 /\ x = 2 ^ k /\ Z.testbit f k = true)
    /\ (0 <= f < 2 ^ 32 -> fold_right Z.lor 0 (common.FeatureList f) = f)
    /\ (forall x, common.FeatureName x <> "Unknown" <-> In x [1; 2; 4; 8; 16; 32; 64]).
Proof.
  intros f. unfold common.FeatureList.
  split; [intros x; exact (flagLoop_32_In f x)|].
  split; [exact (flagLoop_32_roundtrip f)|].
  intros x. unfold common.FeatureName. cbn [In].
  repeat match goal with
         | |- context [if ?a =? ?b then _ else _] =>
             destruct (Z.eqb_spec a b) as [->|?];
             [split; [intros _; cbv; tauto | intros _; discriminate]|]
         end.
  split; [intros H; exfalso; apply H; reflexivity|].
  unfold common.FeatNeedServerFQDN, common.FeatWantClientFirst, common.FeatServerFirst,
    common.FeatDontUseUserPassword, common.FeatGSSFraming, common.FeatSupportsHTTP,
    common.FeatChannelBindings in *.
  intros H. exfalso. lia.
Qed.

Lemma FlagList_flags_witness :
  fold_right Z.lor 0 (common.FlagList 81) = 81
  /\ (forall x, In x (common.FlagList 81) -> common.FlagName x <> "Unknown").
Proof.
  split.
  - refine (proj1 (proj2 (FlagList_flags 81)) _). lia.
  - refine (proj2 (proj2 (proj2 (FlagList_flags 81))) _). lia.
Defined.

Lemma FeatureList_flags_witness :
  fold_right Z.lor 0 (common.FeatureList 67) = 67 /\ True.
Proof.
  split; [|exact I].
  refine (proj1 (proj2 (FeatureList_flags 67)) _). lia.
Defined.
